(** * The MAST notebooks repository: tutorial notebooks and their glue code

    The repository is a collection of Jupyter notebooks, a Jupyter Book table
    of contents ([_toc.yml]) and a contributor template.  This development
    has three layers.

    - The files themselves, line by line ([Repo]), and the readers that
      recover from them what they hold: the cells of a notebook ([Ipynb]),
      the statements of a code cell as Python lays them out ([Py]), the
      entries of the table of contents ([Toc]), and what the notebooks
      contain of each kind ([Survey]).
    - The code whose behaviour depends on the world, as functions over an
      explicit world ([World]: the files on disk and the log of what a run
      did): the function [getdss] ([Dss]), the two GIF cells ([Gif]) and
      the cells that sort and build the ephemeris table ([Ephemeris]).
      What the libraries do ([requests.get], [os.path.join], float
      formatting, [save_movie], [numpy.argsort]) is a parameter.
    - The properties, proved on those definitions. *)

From Stdlib Require Import String Ascii Strings.Byte List Bool Arith ZArith Lia.
From Stdlib Require Import Sorting.Sorted Sorting.Permutation.
From Stdlib Require Import Floats.PrimFloat.
From stdpp Require Import base option strings list gmap pretty.

Import ListNotations.
Local Open Scope string_scope.
Local Open Scope list_scope.

(** ** Text *)

Module Text.

(** The double quote and the line feed, by code: neither can be written
    inside a literal. *)
Definition dq : ascii := "034"%char.
Definition nl : ascii := "010"%char.
Definition sp : ascii := " "%char.

Fixpoint map_chars (f : ascii -> ascii) (s : string) : string :=
  match s with
  | EmptyString => EmptyString
  | String c r => String (f c) (map_chars f r)
  end.

(** The file literals below write [^] where the file has a double quote
    (the files contain no [^]); this restores the quote. *)
Definition caret_to_quote (s : string) : string :=
  map_chars (fun c => if Ascii.eqb c "^"%char then dq else c) s.

(** [s.startswith(p)] *)
Fixpoint startswith (s p : string) : bool :=
  match p, s with
  | EmptyString, _ => true
  | String a p', String b s' => Ascii.eqb a b && startswith s' p'
  | String _ _, EmptyString => false
  end.

(** [needle in s] *)
Fixpoint contains (needle s : string) : bool :=
  startswith s needle
  || match s with
     | EmptyString => false
     | String _ r => contains needle r
     end.

Fixpoint rev_onto (s acc : string) : string :=
  match s with
  | EmptyString => acc
  | String c r => rev_onto r (String c acc)
  end.

Definition rev (s : string) : string := rev_onto s EmptyString.

(** [s.endswith(p)] *)
Definition endswith (s p : string) : bool := startswith (rev s) (rev p).

(** [s.lstrip(' ')] and the number of blanks removed. *)
Fixpoint lstrip (s : string) : string :=
  match s with
  | String c r => if Ascii.eqb c sp then lstrip r else s
  | EmptyString => EmptyString
  end.

Fixpoint indent (s : string) : nat :=
  match s with
  | String c r => if Ascii.eqb c sp then S (indent r) else 0
  | EmptyString => 0
  end.

Definition rstrip (s : string) : string := rev (lstrip (rev s)).

Definition strip (s : string) : string := rstrip (lstrip s).

Fixpoint drop (n : nat) (s : string) : string :=
  match n, s with
  | S n', String _ r => drop n' r
  | _, _ => s
  end.

(** [sep.join(parts)] *)
Fixpoint join (sep : string) (parts : list string) : string :=
  match parts with
  | [] => EmptyString
  | [p] => p
  | p :: rest => p +:+ sep +:+ join sep rest
  end.

(** [s.replace(old, new)] for a non-empty [old]: every occurrence, left
    to right, without overlap.  [skip] counts the characters of a matched
    [old] still to be passed over. *)
Fixpoint replace_from (old new : string) (skip : nat) (s : string) : string :=
  match s with
  | EmptyString => EmptyString
  | String c r =>
      match skip with
      | S k => replace_from old new k r
      | O =>
          if startswith s old && negb (String.eqb old EmptyString)
          then new +:+ replace_from old new (String.length old - 1) r
          else String c (replace_from old new 0 r)
      end
  end.

Definition replace (s old new : string) : string := replace_from old new 0 s.

End Text.

(** ** The files of the repository, line by line *)

Module Repo.
Import Text.

(** [src/_toc.yml], 120 lines. *)
Definition toc_yml : list string := map caret_to_quote [
  "# Table of contents";
  "# Learn more at https://jupyterbook.org/customize/toc.html";
  "format: jb-book";
  "root: intro";
  "parts:";
  "  - caption: Astrocut";
  "    chapters:";
  "    - file:  notebooks/astrocut/making_tess_cubes_and_cutouts/making_tess_cubes_and_cutouts.ipynb";
  "    ";
  "  - caption: Astroquery";
  "    chapters:";
  "    - file:  notebooks/astroquery/intro.md";
  "    - file:  notebooks/astroquery/nb.md";
  "      sections:";
  "        - file:  notebooks/astroquery/beginner_search/beginner_search.ipynb";
  "        - file:  notebooks/astroquery/beginner_zcut/beginner_zcut.ipynb";
  "        - file:  notebooks/astroquery/large_downloads/large_downloads.ipynb";
  "        - file:  notebooks/astroquery/historic_quasar_observations/historic_quasar_observations.ipynb";
  "        ";
  "  - caption: GALEX";
  "    chapters:";
  "    - file:  notebooks/GALEX/mis-mosaic/mis-mosaic.ipynb";
  " ";
  "  - caption: HSC";
  "    chapters:";
  "    - file:  notebooks/HSC/HCV_API/HCV_API_demo.ipynb";
  "    - file:  notebooks/MAST/HSC/HCV_CASJOBS/HCV_casjobs_demo.ipynb";
  "    - file:  notebooks/HSC/HSCV3_API/hscv3_api.ipynb";
  "    - file:  notebooks/HSC/HSCV3_SMC_API/hscv3_smc_api.ipynb";
  "    - file:  notebooks/HSC/HSC_TAP/HSC_TAP.ipynb";
  "    - file:  notebooks/HSC/SWEEPS_HSCV3P1/sweeps_hscv3p1.ipynb";
  "    - file:  notebooks/MAST/HSC/SWEEPS_HSCV3P1_API/sweeps_hscv3p1_api.ipynb";
  "    ";
  "  - caption: IUE";
  "    chapters:";
  "    - file: notebooks/IUE/exploring_UV_extinction_curves/exploring_UV_extinction_curves.ipynb";
  "    ";
  "  - caption: JWST";
  "    chapters:";
  "    - file:  notebooks/JWST/download_by_program_id/download_by_program_id.ipynb";
  "    - file:  notebooks/JWST/Engineering_Database_Retreival/EDB_Retrieval.ipynb";
  "    - file:  notebooks/JWST/SI_keyword_exoplanet_search/SI_keyword_exoplanet_search.ipynb";
  "    ";
  "  - caption: Kepler";
  "    chapters:";
  "    - file:  notebooks/Kepler/beginner.md";
  "      sections:";
  "        - file: notebooks/Kepler/plotting_lightcurves/plotting_lightcurves.ipynb";
  "        - file: notebooks/Kepler/plotting_images_from_tpf/plotting_images_from_tpf.ipynb";
  "        - file: notebooks/Kepler/plotting_dvts/plotting_dvts.ipynb";
  "        - file: notebooks/Kepler/plotting_catalog_over_FFI/plotting_catalog_over_FFI.ipynb";
  "    - file:  notebooks/Kepler/lightkurve.md";
  "      sections:";
  "        - file: notebooks/Kepler/lightkurve_analyzing_lc_products/lightkurve_analyzing_lc_products.ipynb";
  "        - file: notebooks/Kepler/lightkurve_analyzing_tpf_products/lightkurve_analyzing_tpf_products.ipynb";
  "        - file: notebooks/Kepler/lightkurve_searching_for_data/lightkurve_searching_for_data.ipynb";
  "        - file: notebooks/Kepler/lightkurve_custom_aperture_photometry/lightkurve_custom_aperture_photometry.ipynb";
  "        - file: notebooks/Kepler/lightkurve_combining_multiple_quarters/lightkurve_combining_multiple_quarters.ipynb";
  "        - file: notebooks/Kepler/lightkurve_interactively_inspecting_TPFs_and_LCs/lightkurve_interactively_inspecting_TPFs_and_LCs.ipynb";
  "    - file:  notebooks/Kepler/inst_noise.md";
  "      sections:";
  "        - file:  notebooks/Kepler/instrumental_noise_1_data_gaps_and_quality_flags/instrumental_noise_1_data_gaps_and_quality_flags.ipynb";
  "        - file:  notebooks/Kepler/instrumental_noise_2_spurious_signals_and_time_sampling_effects/instrumental_noise_2_spurious_signals_and_time_sampling_effects.ipynb";
  "        - file:  notebooks/Kepler/instrumental_noise_3_seasonal_and_detector_effects/instrumental_noise_3_seasonal_and_detector_effects.ipynb";
  "        - file:  notebooks/Kepler/instrumental_noise_4_electronic_noise/instrumental_noise_4_electronic_noise.ipynb";
  "    - file:  notebooks/Kepler/signals.md";
  "      sections:";
  "        - file:  notebooks/Kepler/identifying_transiting_planet_signals/identifying_transiting_planet_signals.ipynb";
  "        - file:  notebooks/Kepler/measuring_a_rotation_period/measuring_a_rotation_period.ipynb";
  "        - file:  notebooks/Kepler/visualizing_periodic_signals_using_a_river_plot/visualizing_periodic_signals_using_a_river_plot.ipynb";
  "        - file:  notebooks/Kepler/verifying_the_location_of_a_signal/verifying_the_location_of_a_signal.ipynb";
  "    - file:  notebooks/Kepler/periodograms.md";
  "      sections:";
  "        - file:  notebooks/Kepler/creating_periodograms/creating_periodograms.ipynb";
  "        - file:  notebooks/Kepler/how_to_understand_and_manipulate_the_periodogram_of_an_oscillating_star/how_to_understand_and_manipulate_the_periodogram_of_an_oscillating_star.ipynb";
  "        - file:  notebooks/Kepler/how_to_estimate_a_stars_mass_and_radius_using_asteroseismology/how_to_estimate_a_stars_mass_and_radius_using_asteroseismology.ipynb";
  " ";
  "  - caption: K2";
  "    chapters:";
  "    - file:  notebooks/K2/lightcurve/lightcurve.ipynb";
  "    - file:  notebooks/K2/TPF/TPF.ipynb";
  "    - file:  notebooks/K2/beginner_how_to_use_ffi/beginner_how_to_use_ffi.ipynb";
  "    - file:  notebooks/K2/removing_instrumental_noise_using_pld/removing_instrumental_noise_using_pld.ipynb        ";
  "";
  "  - caption: MCCM";
  "    chapters:";
  "    - file:  notebooks/MCCM/FIMS-SPEAR/hyperspectral_healpix_maps/hyperspectral_healpix_maps.ipynb";
  "    ";
  "  - caption: PanSTARRS";
  "    chapters:";
  "    - file:  notebooks/PanSTARRS/PS1_DR2_TAP/PS1_DR2_TAP.ipynb";
  "    - file:  notebooks/PanSTARRS/PS1_image/PS1_image.ipynb";
  " ";
  "  - caption: TESS";
  "    chapters:";
  "    - file:  notebooks/TESS/beginner.md";
  "      sections:";
  "        - file:  notebooks/TESS/beginner_astroquery_dv/beginner_astroquery_dv.ipynb";
  "        - file:  notebooks/TESS/beginner_how_to_use_dvt/beginner_how_to_use_dvt.ipynb";
  "        - file:  notebooks/TESS/beginner_how_to_use_ffi/beginner_how_to_use_ffi.ipynb";
  "        - file:  notebooks/TESS/beginner_how_to_use_lc/beginner_how_to_use_lc.ipynb";
  "        - file:  notebooks/TESS/beginner_how_to_use_tp/beginner_how_to_use_tp.ipynb";
  "        - file:  notebooks/TESS/beginner_tess_exomast/beginner_tess_exomast.ipynb";
  "        - file:  notebooks/TESS/beginner_tess_tap_search/beginner_tess_tap_search.ipynb";
  "        - file:  notebooks/TESS/beginner_tic_search_hd209458/beginner_tic_search_hd209458.ipynb";
  "        - file:  notebooks/TESS/beginner_tour_lc_tp/beginner_tour_lc_tp.ipynb";
  "        - file:  notebooks/TESS/beginner_tesscut_astroquery/beginner_tesscut_astroquery.ipynb";
  "    - file:  notebooks/TESS/lc.md";
  "      sections:";
  "        - file:  notebooks/TESS/interm_gi_query/interm_gi_query.ipynb";
  "        - file:  notebooks/TESS/interm_tasoc_lc/interm_tasoc_lc.ipynb";
  "        - file:  notebooks/TESS/asteroid_rotation/asteroid_rotation.ipynb";
  "    - file:  notebooks/TESS/FFIs.md";
  "      sections:";
  "        - file:  notebooks/TESS/interm_tesscut_dss_overlay/interm_tesscut_dss_overlay.ipynb";
  "        - file:  notebooks/TESS/interm_tesscut_requests/interm_tesscut_requests.ipynb";
  "    - file:  notebooks/TESS/noise.md";
  "      sections:";
  "        - file:  notebooks/TESS/interm_tess_prf_retrieve/interm_tess_prf_retrieve.ipynb";
  "        - file:  notebooks/TESS/removing_scattered_light_using_regression/removing_scattered_light_using_regression.ipynb"
].

(** [src/contributing/notebook_template/notebook_template.ipynb], 370 lines. *)
Definition notebook_template_ipynb : list string := map caret_to_quote [
  "{";
  " ^cells^: [";
  "  {";
  "   ^cell_type^: ^markdown^,";
  "   ^metadata^: {},";
  "   ^source^: [";
  "    ^<a id=\^top\^></a>\n^,";
  "    ^# Tutorial Title\n^,";
  "    ^***\n^,";
  "    ^## Learning Goals\n^,";
  "    ^Write three to five learning goals. A learning goal should describe what a reader should know or be able to do by the end of the tutorial that they didn't know or couldn't do before:\n^,";
  "    ^\n^,";
  "    ^```\n^,";
  "    ^By the end of this tutorial, you will:\n^,";
  "    ^\n^,";
  "    ^- Understand how to use aperture photometry to turn a series of two-dimensional\n^,";
  "    ^  images into a one-dimensional time series.\n^,";
  "    ^- Be able to determine the most useful aperture for photometry on a *Kepler/K2*\n^,";
  "    ^  target.\n^,";
  "    ^- Create your own light curve for a single quarter/campaign of *Kepler/K2* data.\n^,";
  "    ^```^";
  "   ]";
  "  },";
  "  {";
  "   ^cell_type^: ^markdown^,";
  "   ^metadata^: {";
  "    ^slideshow^: {";
  "     ^slide_type^: ^slide^";
  "    }";
  "   },";
  "   ^source^: [";
  "    ^## Introduction\n^,";
  "    ^Write a short introduction explaining the purpose of the tutorial. Define any terms or common acronyms that your audience may not know. If you're using some kind of domain-specific astronomical symbol or unusual mathematical concept, make sure you define it (for example, in its mathematical form) and link to any definitions (from literature, Wikipedia, etc.).\n^,";
  "    ^\n^,";
  "    ^If there are background materials or resources that may be useful to the reader to provide additional context, you may link to it here. If your tutorial is a continuation from another tutorial, or there are other tutorials that would be useful for the reader to read before or after your tutorial, mention that here as well.\n^,";
  "    ^\n^,";
  "    ^Finally, under this section you should add a description of the workflow in your notebook. This will essentially be a table of contents outlining the functional cells of the notebook, i.e. the main sections. Each section should link users to the actual section for easier navigation through the notebook. Refer to the example below for how to hyperlink sections on a Jupyter Notebook: \n^,";
  "    ^\n^,";
  "    ^\n^,";
  "    ^The workflow for this notebook consists of:\n^,";
  "    ^* [Main Content](#Main-Content)\n^,";
  "    ^    * [Loading Data](#Loading-Data)\n^,";
  "    ^    * [File and Data Information](#File-and-Data-Information)\n^,";
  "    ^* [Visualization](#Visualization)\n^,";
  "    ^* [Exercises](#Exercises)\n^,";
  "    ^* [Additional Resources](#Additional-Resources)^";
  "   ]";
  "  },";
  "  {";
  "   ^cell_type^: ^markdown^,";
  "   ^metadata^: {";
  "    ^slideshow^: {";
  "     ^slide_type^: ^slide^";
  "    }";
  "   },";
  "   ^source^: [";
  "    ^## Imports\n^,";
  "    ^Describe the main packages we're using here and their use-case for this notebook. If there's something unusual, explain what the library is, and why we need it.\n^,";
  "    ^- *numpy* to handle array functions\n^,";
  "    ^- *astropy.io fits* for accessing FITS files\n^,";
  "    ^- *astropy.table Table* for creating tidy tables of the data\n^,";
  "    ^- *matplotlib.pyplot* for plotting data^";
  "   ]";
  "  },";
  "  {";
  "   ^cell_type^: ^code^,";
  "   ^execution_count^: null,";
  "   ^metadata^: {";
  "    ^slideshow^: {";
  "     ^slide_type^: ^fragment^";
  "    }";
  "   },";
  "   ^outputs^: [],";
  "   ^source^: [";
  "    ^%matplotlib inline\n^,";
  "    ^\n^,";
  "    ^import matplotlib.pyplot as plt\n^,";
  "    ^import numpy as np\n^,";
  "    ^\n^,";
  "    ^from astropy.io import fits\n^,";
  "    ^from astropy.table import Table\n^,";
  "    ^from astroquery.mast import Mast\n^,";
  "    ^from astroquery.mast import Observations^";
  "   ]";
  "  },";
  "  {";
  "   ^cell_type^: ^markdown^,";
  "   ^metadata^: {},";
  "   ^source^: [";
  "    ^***^";
  "   ]";
  "  },";
  "  {";
  "   ^cell_type^: ^markdown^,";
  "   ^metadata^: {},";
  "   ^source^: [";
  "    ^## Main Content\n^,";
  "    ^\n^,";
  "    ^The main content of your tutorial should be subdivided into sections with useful, descriptive headings that make sense based on the content. Break sections up with standard Markdown syntax headings:\n^,";
  "    ^\n^,";
  "    ^```\n^,";
  "    ^## Section 1\n^,";
  "    ^\n^,";
  "    ^Intro to Section 1\n^,";
  "    ^\n^,";
  "    ^### Subsection 1a\n^,";
  "    ^\n^,";
  "    ^More detailed info about Section 1\n^,";
  "    ^\n^,";
  "    ^## Section 2\n^,";
  "    ^\n^,";
  "    ^A complete thought that's as important as Section 1 but doesn't need subsections.\n^,";
  "    ^\n^,";
  "    ^```^";
  "   ]";
  "  },";
  "  {";
  "   ^cell_type^: ^markdown^,";
  "   ^metadata^: {";
  "    ^slideshow^: {";
  "     ^slide_type^: ^slide^";
  "    }";
  "   },";
  "   ^source^: [";
  "    ^### Loading Data\n^,";
  "    ^\n^,";
  "    ^Loading data and file information should appear within your main content, at the same time the data is going to be used, if possible. These elements of your tutorial can be their own sections within the main content, but avoid generic or vague headings like “Loading Data” and instead use descriptive headings pertinent to the content of the tutorial and the actual data being downloaded or files being used.\n^,";
  "    ^\n^,";
  "    ^If the user needs to download data to run the tutorial properly, where possible, use [astroquery](https://astroquery.readthedocs.io/en/latest/) (or similar) to retrieve files. If this is not possible, see the [data guide](https://github.com/spacetelescope/style-guides/blob/master/guides/where-to-put-your-data.md) for other options.^";
  "   ]";
  "  },";
  "  {";
  "   ^cell_type^: ^markdown^,";
  "   ^metadata^: {";
  "    ^slideshow^: {";
  "     ^slide_type^: ^slide^";
  "    }";
  "   },";
  "   ^source^: [";
  "    ^For example, if we wanted to query for data from MAST for Kepler we might do something like:^";
  "   ]";
  "  },";
  "  {";
  "   ^cell_type^: ^code^,";
  "   ^execution_count^: null,";
  "   ^metadata^: {";
  "    ^slideshow^: {";
  "     ^slide_type^: ^fragment^";
  "    }";
  "   },";
  "   ^outputs^: [],";
  "   ^source^: [";
  "    ^keplerObs = Observations.query_criteria(target_name='kplr008957091', obs_collection='Kepler')\n^,";
  "    ^keplerProds = Observations.get_product_list(keplerObs[0])\n^,";
  "    ^yourProd = Observations.filter_products(keplerProds,extension='kplr008957091-2012277125453_lpd-targ.fits.gz',\n^,";
  "    ^                                        mrp_only=False)^";
  "   ]";
  "  },";
  "  {";
  "   ^cell_type^: ^markdown^,";
  "   ^metadata^: {},";
  "   ^source^: [";
  "    ^### File and Data Information^";
  "   ]";
  "  },";
  "  {";
  "   ^cell_type^: ^markdown^,";
  "   ^metadata^: {},";
  "   ^source^: [";
  "    ^Where possible (if the code supports it), use code examples that visually display the data in the tutorial. For example, if you are showing an object such as a Table, display a preview of the table:^";
  "   ]";
  "  },";
  "  {";
  "   ^cell_type^: ^code^,";
  "   ^execution_count^: null,";
  "   ^metadata^: {},";
  "   ^outputs^: [],";
  "   ^source^: [";
  "    ^yourProd[0:5]^";
  "   ]";
  "  },";
  "  {";
  "   ^cell_type^: ^code^,";
  "   ^execution_count^: null,";
  "   ^metadata^: {},";
  "   ^outputs^: [],";
  "   ^source^: [";
  "    ^# Download the products\n^,";
  "    ^output = Observations.download_products(yourProd, mrp_only=False, cache=False)\n^,";
  "    ^output^";
  "   ]";
  "  },";
  "  {";
  "   ^cell_type^: ^markdown^,";
  "   ^metadata^: {},";
  "   ^source^: [";
  "    ^Explain pertinent details about the file you've just downloaded. For example, if working with Kepler light curves, explain what's in the different file extensions:\n^,";
  "    ^\n^,";
  "    ^```\n^,";
  "    ^- No. 0 (Primary): This HDU contains metadata related to the entire file.\n^,";
  "    ^- No. 1 (Light curve): This HDU contains a binary table that holds data like\n^,";
  "    ^  flux measurements and times. We will extract information from here when we\n^,";
  "    ^  define the parameters for the light curve plot.\n^,";
  "    ^- No. 2 (Aperture): This HDU contains the image extension with data collected\n^,";
  "    ^  from the aperture. We will also use this to display a bitmask plot that\n^,";
  "    ^  visually represents the optimal aperture used to create the SAP_FLUX column in\n^,";
  "    ^  HDU1.\n^,";
  "    ^\n^,";
  "    ^```^";
  "   ]";
  "  },";
  "  {";
  "   ^cell_type^: ^code^,";
  "   ^execution_count^: null,";
  "   ^metadata^: {},";
  "   ^outputs^: [],";
  "   ^source^: [";
  "    ^file = output['Local Path'][0]\n^,";
  "    ^print('The HDU list of our output file:\\n')\n^,";
  "    ^print(fits.info(file))\n^,";
  "    ^\n^,";
  "    ^data = fits.getdata(file, 1)['FLUX']\n^,";
  "    ^time = fits.getdata(file, 1)['TIME']^";
  "   ]";
  "  },";
  "  {";
  "   ^cell_type^: ^markdown^,";
  "   ^metadata^: {},";
  "   ^source^: [";
  "    ^## Visualization\n^,";
  "    ^\n^,";
  "    ^When presenting any visuals and/or plots from the data, make sure you are using color palettes that are color-blind friendly and using language that keeps accessibility in mind. The most common form of color vision deficiency involves differentiating between red and green, so avoiding colormaps with both red and green will avoid many problems in general. Use descriptive keywords not pertaining to the color of the object you are referring to. It is good practice to make your plots and images large enough to ensure that important details are not hard to see. On the same note, make sure that tick labels, legends, and other plot notations are not too small, and make sure they are descriptive enough that the user can understand what is being represented by the data. ^";
  "   ]";
  "  },";
  "  {";
  "   ^cell_type^: ^markdown^,";
  "   ^metadata^: {},";
  "   ^source^: [";
  "    ^Let's plot the first four images of the Kepler TPF we just downloaded to see where the center of the PSF is located...^";
  "   ]";
  "  },";
  "  {";
  "   ^cell_type^: ^code^,";
  "   ^execution_count^: null,";
  "   ^metadata^: {";
  "    ^scrolled^: true";
  "   },";
  "   ^outputs^: [],";
  "   ^source^: [";
  "    ^imgs = 4\n^,";
  "    ^\n^,";
  "    ^fig, axs = plt.subplots(1, imgs, figsize=(20, 20))\n^,";
  "    ^\n^,";
  "    ^for idx in range(0, imgs):\n^,";
  "    ^    # Plotting\n^,";
  "    ^    axs[idx].imshow(data[idx], cmap='bone', origin='lower')\n^,";
  "    ^    \n^,";
  "    ^    # Formatting\n^,";
  "    ^    axs[idx].set_title(f'Image #{idx}', fontsize=25)\n^,";
  "    ^    axs[idx].tick_params(axis='both', which='major', labelsize=20)^";
  "   ]";
  "  },";
  "  {";
  "   ^cell_type^: ^markdown^,";
  "   ^metadata^: {},";
  "   ^source^: [";
  "    ^Looks like it's typically located around (x,y)=(4,4). Let's gather all the images and extract the flux at (4,4) from each of them to patch our lightcurve together...^";
  "   ]";
  "  },";
  "  {";
  "   ^cell_type^: ^code^,";
  "   ^execution_count^: null,";
  "   ^metadata^: {},";
  "   ^outputs^: [],";
  "   ^source^: [";
  "    ^lightcurve = []\n^,";
  "    ^\n^,";
  "    ^for idx in range(0, len(data)):\n^,";
  "    ^    \n^,";
  "    ^    flux = data[idx][4, 4]\n^,";
  "    ^    lightcurve.append(flux)^";
  "   ]";
  "  },";
  "  {";
  "   ^cell_type^: ^code^,";
  "   ^execution_count^: null,";
  "   ^metadata^: {},";
  "   ^outputs^: [],";
  "   ^source^: [";
  "    ^# Plotting\n^,";
  "    ^plt.figure(1, figsize=(10, 6))\n^,";
  "    ^plt.plot(time, lightcurve)\n^,";
  "    ^\n^,";
  "    ^# Formatting\n^,";
  "    ^obj = fits.getheader(file)['OBJECT']\n^,";
  "    ^plt.title(f'Object: {obj}', fontsize=25)\n^,";
  "    ^plt.xlabel('Time - 2454833 (BKJD days)', fontsize=20)\n^,";
  "    ^plt.ylabel('Flux (e-/s)', fontsize=20)\n^,";
  "    ^plt.tick_params(axis='both', which='major', labelsize=15)^";
  "   ]";
  "  },";
  "  {";
  "   ^cell_type^: ^markdown^,";
  "   ^metadata^: {},";
  "   ^source^: [";
  "    ^## Exercises\n^,";
  "    ^Exercises are optional, but encouraged. Exercises can be woven into the main content of your tutorial, or appear in their own section toward the end of the tutorial. Final exercises can be more challenging, similar to homework problems. They can be minimal or take as long as 30 minutes to an hour to complete. If you do have one or more exercises in your tutorial, be sure to leave a blank code cell underneath each to show the reader that they're meant to try out their new skill right there. You may also want to include a \^solutions\^ notebook next to your main notebook for the reader to check their work after they have finished their attempt.^";
  "   ]";
  "  },";
  "  {";
  "   ^cell_type^: ^markdown^,";
  "   ^metadata^: {},";
  "   ^source^: [";
  "    ^## Additional Resources\n^,";
  "    ^\n^,";
  "    ^This section is optional. Try to weave resource links into the main content of your tutorial so that they are falling in line with the context of your writing. For resources that do not fit cleanly into your narrative, you may include an additional resources section at the end of your tutorial. Usually a list of links using Markdown bullet list plus link format is appropriate:\n^,";
  "    ^\n^,";
  "    ^- [MAST API](https://mast.stsci.edu/api/v0/index.html)\n^,";
  "    ^- [Kepler Archive Page (MAST)](https://archive.stsci.edu/kepler/)\n^,";
  "    ^- [Kepler Archive Manual](https://archive.stsci.edu/kepler/manuals/archive_manual.pdf)\n^,";
  "    ^- [Exo.MAST website](https://exo.mast.stsci.edu/)^";
  "   ]";
  "  },";
  "  {";
  "   ^cell_type^: ^markdown^,";
  "   ^metadata^: {},";
  "   ^source^: [";
  "    ^## Citations\n^,";
  "    ^Provide your reader with guidelines on how to cite open source software and other resources in their own published work.\n^,";
  "    ^\n^,";
  "    ^```\n^,";
  "    ^If you use `astropy` or `lightkurve` for published research, please cite the\n^,";
  "    ^authors. Follow these links for more information about citing `astropy` and\n^,";
  "    ^`lightkurve`:\n^,";
  "    ^\n^,";
  "    ^* [Citing `astropy`](https://www.astropy.org/acknowledging.html)\n^,";
  "    ^* [Citing `lightkurve`](http://docs.lightkurve.org/about/citing.html)\n^,";
  "    ^\n^,";
  "    ^```^";
  "   ]";
  "  },";
  "  {";
  "   ^cell_type^: ^markdown^,";
  "   ^metadata^: {";
  "    ^slideshow^: {";
  "     ^slide_type^: ^slide^";
  "    }";
  "   },";
  "   ^source^: [";
  "    ^## About this Notebook\n^,";
  "    ^Let the world know who the author of this great tutorial is! If possible and appropriate, include a contact email address for users who might need support (for example, `archive@stsci.edu`). You can also optionally include keywords, your funding source, or a last update date in this section.\n^,";
  "    ^\n^,";
  "    ^**Author(s):** Jessie Blogs, Jenny V. Medina, Thomas Dutkiewicz <br>\n^,";
  "    ^**Keyword(s):** Tutorial, lightkurve, kepler, introduction, template <br>\n^,";
  "    ^**Last Updated:** Aug 2022 <br>\n^,";
  "    ^**Next Review:** Mar 2023\n^,";
  "    ^***\n^,";
  "    ^[Top of Page](#top)\n^,";
  "    ^<img style=\^float: right;\^ src=\^https://raw.githubusercontent.com/spacetelescope/notebooks/master/assets/stsci_pri_combo_mark_horizonal_white_bkgd.png\^ alt=\^Space Telescope Logo\^ width=\^200px\^/> ^";
  "   ]";
  "  }";
  " ],";
  " ^metadata^: {";
  "   ^language_info^: {";
  "    ^name^: ^python^";
  "   }";
  "  },";
  "  ^nbformat^: 4,";
  "  ^nbformat_minor^: 4";
  " }"
].

(** [src/notebooks/TESS/interm_tesscut_dss_overlay/interm_tesscut_dss_overlay.ipynb], 630 lines. *)
Definition interm_tesscut_dss_overlay_ipynb : list string := map caret_to_quote [
  "{";
  " ^cells^: [";
  "  {";
  "   ^cell_type^: ^markdown^,";
  "   ^metadata^: {},";
  "   ^source^: [";
  "    ^<a id=\^title_ID\^></a>\n^,";
  "    ^# Intermediate: Overlay a Cutout of the TESS FFIs with DSS imaging\n^,";
  "    ^\n^,";
  "    ^This notebook shows the user how to use the MAST programmatic interface to create a cutout of the small section of the TESS FFIs. For this example we will determine the RA and Dec for TIC 261105201. We then perform a query to determine which sectors contain this RA and Dec, peform a cutout of the FFI time series, open the resulting target pixel files, and plot the first image of each file with the WCS overlayed on the image. Finally we will create a light curve from the resulting image by creating a photometric aperture and summing the light in our pixels.  \n^,";
  "    ^\n^,";
  "    ^This tutorial shows the users how to do the following: use `astroquery.catalogs` to query the TIC, use astroquery Tesscut to determine the number of sectors that contain our target and download a FFI cutout.\n^,";
  "    ^\n^,";
  "    ^\n^,";
  "    ^### Table of Contents \n^,";
  "    ^[Get Tesscut with Astroquery](#get_tesscut) <br>\n^,";
  "    ^   \n^,";
  "    ^- [Download Tesscut](#download_tess)<br>\n^,";
  "    ^- [Make Kepler TPF](#make_tpf)<br>\n^,";
  "    ^- [Make GIF](#make_gif)<br> \n^,";
  "    ^- [Find TIC objects](#find_tic)<br>\n^,";
  "    ^- [Overlay TessCut and TIC](#plot_tpf_tic)<br>\n^,";
  "    ^\n^,";
  "    ^[Get DSS image](#get_dss) <br>\n^,";
  "    ^[Overlay Tesscut and DSS](#overlay_images) <br>\n^,";
  "    ^[Additional Resources](#resources) <br>\n^,";
  "    ^[About this Notebook](#about_ID) ^";
  "   ]";
  "  },";
  "  {";
  "   ^cell_type^: ^markdown^,";
  "   ^metadata^: {},";
  "   ^source^: [";
  "    ^\n^,";
  "    ^## TESSCut Overlay with DSS\n^,";
  "    ^This notebook is an example of accessing and displaying a TESS FFI Cutout using the MAST TessCut service built into astroquery.  It uses astroquery to retrieve the related objects from the Tess Input Catalog (TIC). We then grab the related DSS image and overlay the TIC objects and the TESSCut image altogether.   ^";
  "   ]";
  "  },";
  "  {";
  "   ^cell_type^: ^markdown^,";
  "   ^metadata^: {},";
  "   ^source^: [";
  "    ^## Import Statements\n^,";
  "    ^<a id=\^imports_ID\^></a>\n^,";
  "    ^\n^,";
  "    ^We start with a few import statements.\n^,";
  "    ^- *os* to handle path and file operations\n^,";
  "    ^- *requests* to handle HTTP get requests\n^,";
  "    ^- *numpy* to handle array functions\n^,";
  "    ^- *matplotlib.pyplot* for plotting the data\n^,";
  "    ^- *k2flix* to load and create a Target Pixel File object and make GIFs \n^,";
  "    ^- *astroquery.mast* for the Catalogs and for Tesscut.\n^,";
  "    ^- *astropy.units* for using proper astronomy units\n^,";
  "    ^- *astropy.io fits* for accessing FITS files\n^,";
  "    ^- *astropy.wcs WCS* to interpret the World Coordinate Systems\n^,";
  "    ^- *astropy.coordinates SkyCoord* for creating an on-sky coordinate\n^,";
  "    ^- *astropy.visualizaton simple_norm* for normalizing data for plots\n^,";
  "    ^- *reproject reproject_interp* for reprojecting images from one WCS coordinate system into another\n^,";
  "    ^- *IPython.display Image* for loading a GIF image in the notebook\n^,";
  "    ^- *ipywidgets* to create an interactive plot with widget slider ^";
  "   ]";
  "  },";
  "  {";
  "   ^cell_type^: ^code^,";
  "   ^execution_count^: null,";
  "   ^metadata^: {},";
  "   ^outputs^: [],";
  "   ^source^: [";
  "    ^# import the packages we need\n^,";
  "    ^import os\n^,";
  "    ^import numpy as np\n^,";
  "    ^import requests\n^,";
  "    ^import k2flix\n^,";
  "    ^%matplotlib inline\n^,";
  "    ^import matplotlib.pyplot as plt\n^,";
  "    ^\n^,";
  "    ^# astroquery\n^,";
  "    ^from astroquery.mast import Tesscut\n^,";
  "    ^from astroquery.mast import Catalogs\n^,";
  "    ^\n^,";
  "    ^# Astropy\n^,";
  "    ^import astropy.units as u\n^,";
  "    ^from astropy.io import fits\n^,";
  "    ^from astropy.wcs import WCS\n^,";
  "    ^from astropy.coordinates import SkyCoord\n^,";
  "    ^from astropy.visualization import simple_norm\n^,";
  "    ^\n^,";
  "    ^from reproject import reproject_interp\n^,";
  "    ^\n^,";
  "    ^from IPython.display import Image\n^,";
  "    ^from ipywidgets import interact, interactive, fixed, interact_manual^";
  "   ]";
  "  },";
  "  {";
  "   ^cell_type^: ^markdown^,";
  "   ^metadata^: {},";
  "   ^source^: [";
  "    ^<a id=\^get_tesscut\^></a>\n^,";
  "    ^## Getting a Custom TESS Cutout Target Pixel File\n^,";
  "    ^The first step is to get the Target Pixel File.  We can download a custom target pixel file using the **Astroquery** python package. In particular we will use the ``download_tesscut`` method from the [Tesscut](https://astroquery.readthedocs.io/en/latest/mast/mast.html#tesscut) module.  Let's create a Tess cutout centered on RA, Dec = 66.582618, -67.806508 in a 11x11 pixel window.    \n^";
  "   ]";
  "  },";
  "  {";
  "   ^cell_type^: ^code^,";
  "   ^execution_count^: null,";
  "   ^metadata^: {},";
  "   ^outputs^: [],";
  "   ^source^: [";
  "    ^# select a target and cutout size in pixels\n^,";
  "    ^ra, dec = 66.582618, -67.806508\n^,";
  "    ^target = '{0}, {1}'.format(ra, dec)\n^,";
  "    ^x = y = 11\n^,";
  "    ^\n^,";
  "    ^# set local file path to current working directory\n^,";
  "    ^path = os.path.abspath(os.path.curdir)^";
  "   ]";
  "  },";
  "  {";
  "   ^cell_type^: ^markdown^,";
  "   ^metadata^: {},";
  "   ^source^: [";
  "    ^<a id=\^download_tesscut\^></a>\n^,";
  "    ^### Use Astroquery to retrieve the TESSCut image\n^,";
  "    ^The ``download_cutouts`` method requires as input an Astropy SkyCoord object, a cutout size in pixels and optionally accepts a download path.  This will download the custom cutout into the specified path and returns and Astropy table object with the paths to all the downloaded files.   ^";
  "   ]";
  "  },";
  "  {";
  "   ^cell_type^: ^code^,";
  "   ^execution_count^: null,";
  "   ^metadata^: {},";
  "   ^outputs^: [],";
  "   ^source^: [";
  "    ^# create a sky coordinate object\n^,";
  "    ^cutout_coords = SkyCoord(ra, dec, unit=\^deg\^)\n^,";
  "    ^    \n^,";
  "    ^# download the files and get the list of local paths\n^,";
  "    ^try:\n^,";
  "    ^    table = Tesscut.download_cutouts(coordinates=cutout_coords, size=x, path=path)\n^,";
  "    ^except Exception as e:\n^,";
  "    ^    print('Error: Could not download cutouts: {0}'.format(e))\n^,";
  "    ^else:\n^,";
  "    ^    print(table)\n^,";
  "    ^    files = table['Local Path']^";
  "   ]";
  "  },";
  "  {";
  "   ^cell_type^: ^markdown^,";
  "   ^metadata^: {},";
  "   ^source^: [";
  "    ^<a id=\^make_tpf\^></a>\n^,";
  "    ^### Open a Target Pixel File \n^,";
  "    ^We'll be using Kepler's [k2flix](https://barentsen.github.io/k2flix/) Python package to open and access the file, using the ``TargetPixelFile`` class.  This is a convenience class that allows use to easily create a GIF.  Kepler provides a range of [software tools](https://keplerscience.arc.nasa.gov/software.html) that should also work with TESS data. We instantiate a new object and print some basic information about the custom TPF.  We need the WCS of the new TESS cutout, so we use Astropy WCS to define and create the wcs using the APERTURE extension of the cutout file.^";
  "   ]";
  "  },";
  "  {";
  "   ^cell_type^: ^code^,";
  "   ^execution_count^: null,";
  "   ^metadata^: {},";
  "   ^outputs^: [],";
  "   ^source^: [";
  "    ^# grab the first file in the list\n^,";
  "    ^filename = files[0]\n^,";
  "    ^\n^,";
  "    ^# create the TargetPixelFile instance\n^,";
  "    ^tpf = k2flix.TargetPixelFile(filename)\n^,";
  "    ^\n^,";
  "    ^# get number of pixels in flux array \n^,";
  "    ^n_pix = tpf.flux().shape[0]\n^,";
  "    ^\n^,";
  "    ^# compute field of view in degrees\n^,";
  "    ^res = 21.0 * (u.arcsec/u.pixel)\n^,";
  "    ^area = res * (n_pix * u.pixel)\n^,";
  "    ^d = area.to(u.degree)\n^,";
  "    ^fov = d.value \n^,";
  "    ^\n^,";
  "    ^# compute the wcs of the image\n^,";
  "    ^wcs = WCS(tpf.hdulist['APERTURE'].header)\n^,";
  "    ^\n^,";
  "    ^# print some info\n^,";
  "    ^print('filename', tpf.filename)\n^,";
  "    ^print('Target TPF', target)\n^,";
  "    ^print('Field of View [degrees]', fov)\n^,";
  "    ^print('Number pixels', tpf.flux().shape)^";
  "   ]";
  "  },";
  "  {";
  "   ^cell_type^: ^markdown^,";
  "   ^metadata^: {},";
  "   ^source^: [";
  "    ^<a id=\^make_gif\^></a>\n^,";
  "    ^### Create and display a GIF of the custom TPF\n^,";
  "    ^Using k2flix and the TPF instance, we can create a GIF of the time-series data in the cutout with the ``save_movie`` method.  Once it's generated, we use the IPython Image class to display the gif in the notebook cell.^";
  "   ]";
  "  },";
  "  {";
  "   ^cell_type^: ^code^,";
  "   ^execution_count^: null,";
  "   ^metadata^: {},";
  "   ^outputs^: [],";
  "   ^source^: [";
  "    ^# create the gif\n^,";
  "    ^gif = tpf.filename.replace('.fits', '.gif')\n^,";
  "    ^if not os.path.exists(gif):\n^,";
  "    ^    tpf.save_movie(gif, show_flags=True)^";
  "   ]";
  "  },";
  "  {";
  "   ^cell_type^: ^code^,";
  "   ^execution_count^: null,";
  "   ^metadata^: {},";
  "   ^outputs^: [],";
  "   ^source^: [";
  "    ^# display the gif\n^,";
  "    ^if not os.path.exists(gif):\n^,";
  "    ^    print(\^No gif found. Cannot display gif of time-series.\^)\n^,";
  "    ^\n^,";
  "    ^Image(gif, embed=True)^";
  "   ]";
  "  },";
  "  {";
  "   ^cell_type^: ^markdown^,";
  "   ^metadata^: {},";
  "   ^source^: [";
  "    ^<a id=\^find_tic\^></a>\n^,";
  "    ^### Find targets within TPF FOV in TESS Input Catalog\n^,";
  "    ^We also want to retrieve all objects from the TESS Input Catalog that are within the custom TESS cutout field of view.  We can use **Astroquery** [Catalogs.query_region](https://astroquery.readthedocs.io/en/latest/mast/mast.html#catalog-queries) to do this.  This takes a string input of RA, Dec, and a search radius in degrees, and which catalog to search on.  Since our fov is the total width/height of the cutout, we use ``fov/2.`` to get a radius. ^";
  "   ]";
  "  },";
  "  {";
  "   ^cell_type^: ^code^,";
  "   ^execution_count^: null,";
  "   ^metadata^: {},";
  "   ^outputs^: [],";
  "   ^source^: [";
  "    ^catalogData = Catalogs.query_region(target, radius=fov/2., catalog=\^Tic\^)\n^,";
  "    ^print('n_targets', len(catalogData))\n^,";
  "    ^print('example rows:\\n', catalogData[0:5]['ID', 'ra', 'dec'])^";
  "   ]";
  "  },";
  "  {";
  "   ^cell_type^: ^markdown^,";
  "   ^metadata^: {},";
  "   ^source^: [";
  "    ^<a id=\^plot_tpf_tic\^></a>\n^,";
  "    ^### Plot static TPF image and overlay TIC catalog\n^,";
  "    ^Let's overylay the catalog search results with the custom TESS cutout.  We first need to convert the RA, Dec of all the catalog objects into pixel coordinates on the TESS cutout image.  We can do this using the [Astropy WCS](http://docs.astropy.org/en/stable/wcs/) object, with the ``all_world2pix`` method.  ^";
  "   ]";
  "  },";
  "  {";
  "   ^cell_type^: ^code^,";
  "   ^execution_count^: null,";
  "   ^metadata^: {},";
  "   ^outputs^: [],";
  "   ^source^: [";
  "    ^# get RA and Dec coords of catalog data\n^,";
  "    ^tic_ra = catalogData['ra']\n^,";
  "    ^tic_dec = catalogData['dec']\n^,";
  "    ^\n^,";
  "    ^# get pixel coordinates of RA and Dec \n^,";
  "    ^coords = wcs.all_world2pix(list(zip(tic_ra, tic_dec)),0)\n^,";
  "    ^xc = [c[0] for c in coords]\n^,";
  "    ^yc = [c[1] for c in coords]^";
  "   ]";
  "  },";
  "  {";
  "   ^cell_type^: ^markdown^,";
  "   ^metadata^: {},";
  "   ^source^: [";
  "    ^Let's use matplotlib to plot the first frame in the time-series of the cutout.  We use ``matplotlib.pyplot.imshow``.  Now that we have the catalog object positions in pixel coordinates, we can overlay them as a scatter plot with ``matplotlib.pyplot.scatter``.  We've optionally included a ``use_wcs`` flag to create the plot using the WCS.  See [Matplotlib Plots With WCS](http://docs.astropy.org/en/stable/wcs/#matplotlib-plots-with-correct-wcs-projection) for more details.  We can pass a WCS object as a matplotlib axis projection.  Try setting ``use_wcs = True``.  This will create the plot using the World Coordinates as the x,y axes. ^";
  "   ]";
  "  },";
  "  {";
  "   ^cell_type^: ^code^,";
  "   ^execution_count^: null,";
  "   ^metadata^: {},";
  "   ^outputs^: [],";
  "   ^source^: [";
  "    ^# get first frame of flux from TPF\n^,";
  "    ^data = tpf.hdulist['PIXELS'].data[\^FLUX\^][0,:,:]\n^,";
  "    ^\n^,";
  "    ^# use log image normalization\n^,";
  "    ^norm = simple_norm(data, 'log')\n^,";
  "    ^\n^,";
  "    ^# plot with wcs or not\n^,";
  "    ^use_wcs = False\n^,";
  "    ^\n^,";
  "    ^# plot image and overlay TIC points\n^,";
  "    ^ax = plt.subplot(projection=wcs if use_wcs else None)\n^,";
  "    ^ax.imshow(data, origin='lower', norm=norm, cmap='gray')\n^,";
  "    ^#ax.scatter(tic_ra, tic_dec, transform=ax.get_transform('world'), s=20, facecolor='red', edgecolor='white')\n^,";
  "    ^ax.scatter(xc, yc, s=20, facecolor='red', edgecolor='white')\n^,";
  "    ^\n^,";
  "    ^\n^,";
  "    ^ax.figure.set_size_inches((10,10))\n^,";
  "    ^\n^,";
  "    ^# deal with axes\n^,";
  "    ^if use_wcs:\n^,";
  "    ^    xax = ax.coords[0]\n^,";
  "    ^    yax = ax.coords[1]\n^,";
  "    ^    xax.set_ticks(spacing=1.*u.arcmin)\n^,";
  "    ^    yax.set_ticks(spacing=0.5 * u.arcmin)\n^,";
  "    ^    xax.set_axislabel('Right Ascension')\n^,";
  "    ^    yax.set_axislabel('Declination')\n^,";
  "    ^else:\n^,";
  "    ^    ax.set_xlabel('x pixel')\n^,";
  "    ^    ax.set_ylabel('y pixel')^";
  "   ]";
  "  },";
  "  {";
  "   ^cell_type^: ^markdown^,";
  "   ^metadata^: {},";
  "   ^source^: [";
  "    ^The TESS FFI images currently have an issue with its WCS that shift transformations by ~1 pixel.  To illustrate this point, we'll compare the TESS cutout overlay with the TIC objects in pixel coordinates and world coordinates.  The left panel plots the cutout with the correct overlay of TIC objects.  The right panel plots the cutout using its WCS transformation.  The TIC objects are shifted by about a pixel relative to the underlying cutout.  This issue will present itself when using the WCS to overlay the cutout onto other data or vice versa.  The underlying cause of this issue is still being explored.  ^";
  "   ]";
  "  },";
  "  {";
  "   ^cell_type^: ^code^,";
  "   ^execution_count^: null,";
  "   ^metadata^: {},";
  "   ^outputs^: [],";
  "   ^source^: [";
  "    ^# Pixel plot\n^,";
  "    ^ax1 = plt.subplot(1,2,1)\n^,";
  "    ^ax1.imshow(data, origin='lower', norm=norm,  cmap='gray')\n^,";
  "    ^ax1.scatter(xc, yc, s=20, facecolor='red', edgecolor='white')\n^,";
  "    ^ax1.set_xlabel('x')\n^,";
  "    ^ax1.set_ylabel('y')\n^,";
  "    ^ax1.set_title('TessCut-Pixel')\n^,";
  "    ^\n^,";
  "    ^# WCS plot\n^,";
  "    ^ax2 = plt.subplot(1,2,2, projection=wcs)\n^,";
  "    ^ax2.imshow(data, origin='lower', norm=norm,  cmap='gray')\n^,";
  "    ^ax2.coords['ra'].set_axislabel('Right Ascension')\n^,";
  "    ^ax2.coords['dec'].set_axislabel('Declination')\n^,";
  "    ^ax2.scatter(tic_ra, tic_dec, transform=ax2.get_transform('world'), s=20, facecolor='red', edgecolor='white')\n^,";
  "    ^ax2.set_title('TessCut-WCS')\n^,";
  "    ^\n^,";
  "    ^ax1.figure.set_size_inches((15,15))\n^,";
  "    ^ax2.figure.set_size_inches((15,15))^";
  "   ]";
  "  },";
  "  {";
  "   ^cell_type^: ^markdown^,";
  "   ^metadata^: {},";
  "   ^source^: [";
  "    ^<a id=\^get_dss\^></a>\n^,";
  "    ^## Retrieve the DSS image of the region\n^,";
  "    ^To overlay the TESSCut image against the DSS image, we need to query the STScI DSS Cutout Image service.  First we define a custom function, ``getdss``, to perform call.  This performs a basic http GET request to the given url and retrieves a DSS image cutout given some input parameters.  ^";
  "   ]";
  "  },";
  "  {";
  "   ^cell_type^: ^code^,";
  "   ^execution_count^: null,";
  "   ^metadata^: {},";
  "   ^outputs^: [],";
  "   ^source^: [";
  "    ^url = \^https://archive.stsci.edu/cgi-bin/dss_search\^\n^,";
  "    ^plateDict = {\^red\^: \^2r\^, \n^,";
  "    ^             \^blue\^: \^2b\^, \n^,";
  "    ^             \^ukred\^: \^poss2ukstu_red\^, \n^,";
  "    ^             \^ukblue\^: \^poss2ukstu_blue\^}\n^,";
  "    ^\n^,";
  "    ^def getdss(ra, dec, plate=\^red\^, height=None, width=None, \n^,";
  "    ^           filename=None, directory=None):\n^,";
  "    ^\n^,";
  "    ^    \^\^\^Extract DSS image at position and write a FITS file\n^,";
  "    ^    \n^,";
  "    ^    ra, dec are J2000 coordinates in degrees\n^,";
  "    ^    plate can be \^red\^, \^blue\^, \^ukred\^, or \^ukblue\^\n^,";
  "    ^    height and width are in arcmin, default = 7.0.  Image is square if only one is specified.\n^,";
  "    ^    filename specifies name for output file (default=\^dss_{plate}_{ra}_{dec}.fits\^)\n^,";
  "    ^    directory is location for output file (default is current directory)\n^,";
  "    ^    \n^,";
  "    ^    Returns the name of the file that was written\n^,";
  "    ^    \^\^\^\n^,";
  "    ^\n^,";
  "    ^    # set defaults for height & width\n^,";
  "    ^    if height is None:\n^,";
  "    ^        if width is not None:\n^,";
  "    ^            height = width\n^,";
  "    ^        else:\n^,";
  "    ^            height = 7.0\n^,";
  "    ^            width = 7.0\n^,";
  "    ^    elif width is None:\n^,";
  "    ^        width = height\n^,";
  "    ^\n^,";
  "    ^    try:\n^,";
  "    ^        vplate = plateDict[plate]\n^,";
  "    ^    except KeyError:\n^,";
  "    ^        raise ValueError(\^Illegal plate value '{}'\\nShould be one of {}\^.format(\n^,";
  "    ^            plate,', '.join(plateDict.keys())))\n^,";
  "    ^\n^,";
  "    ^    # construct filename\n^,";
  "    ^    if filename is None:\n^,";
  "    ^        filename = \^dss_{}_{:.6f}_{:.6f}.fits\^.format(plate,ra,dec)\n^,";
  "    ^    if directory:\n^,";
  "    ^        filename = os.path.join(directory, filename)\n^,";
  "    ^\n^,";
  "    ^    params={\^r\^: ra,\n^,";
  "    ^            \^d\^: dec,\n^,";
  "    ^            \^v\^: vplate,\n^,";
  "    ^            \^e\^: \^J2000\^,\n^,";
  "    ^            \^h\^: height,\n^,";
  "    ^            \^w\^: width,\n^,";
  "    ^            \^f\^:\^fits\^,\n^,";
  "    ^            \^c\^:\^none\^,\n^,";
  "    ^            \^s\^: \^yes\^}\n^,";
  "    ^    r = requests.get(url, params=params)\n^,";
  "    ^\n^,";
  "    ^    # read and format the output\n^,";
  "    ^    value = r.content\n^,";
  "    ^    if not r.content.startswith(b\^SIMPLE  =\^):\n^,";
  "    ^        raise ValueError(\^No FITS file returned for {}\^.format(filename))\n^,";
  "    ^    fhout = open(filename, \^wb\^)\n^,";
  "    ^    fhout.write(r.content)\n^,";
  "    ^    fhout.close()\n^,";
  "    ^    return filename^";
  "   ]";
  "  },";
  "  {";
  "   ^cell_type^: ^markdown^,";
  "   ^metadata^: {},";
  "   ^source^: [";
  "    ^We pass in our target RA and Dec, along with the desired image size in arcminutes, and an optional download path.  ^";
  "   ]";
  "  },";
  "  {";
  "   ^cell_type^: ^code^,";
  "   ^execution_count^: null,";
  "   ^metadata^: {},";
  "   ^outputs^: [],";
  "   ^source^: [";
  "    ^# compute the pixel area in arcmin\n^,";
  "    ^arcmin = area.to(u.arcmin).value\n^,";
  "    ^\n^,";
  "    ^# retrieve the DSS file\n^,";
  "    ^filename = getdss(ra, dec, height=arcmin, width=arcmin, directory=path)\n^,";
  "    ^print('DSS Image:', filename)^";
  "   ]";
  "  },";
  "  {";
  "   ^cell_type^: ^markdown^,";
  "   ^metadata^: {},";
  "   ^source^: [";
  "    ^Let's display the DSS image and overlay the TIC catalog objects as a sanity check.  We use the same matplotlib plotting methods as before.  As before, this uses [WCSAxes](http://docs.astropy.org/en/stable/visualization/wcsaxes/index.html#wcsaxes) from Astropy to create a plot with correct WCS and overlay coordinate objects.  This time we create a DSS WCS object and use that when creating the plot.  We can also directly pass into a coordinate list of RA, Dec and transform the coordinates into the proper pixels using the DSS WCS.   ^";
  "   ]";
  "  },";
  "  {";
  "   ^cell_type^: ^code^,";
  "   ^execution_count^: null,";
  "   ^metadata^: {},";
  "   ^outputs^: [],";
  "   ^source^: [";
  "    ^dss = fits.open(filename)\n^,";
  "    ^\n^,";
  "    ^# get the data and WCS for the DSS image\n^,";
  "    ^dss_data = dss[0].data\n^,";
  "    ^dss_wcs = WCS(dss[0].header)\n^,";
  "    ^\n^,";
  "    ^# display the DSS image and overlay the TIC objects\n^,";
  "    ^ax = plt.subplot(projection=dss_wcs)\n^,";
  "    ^ax.imshow(dss_data, origin='lower')\n^,";
  "    ^ax.scatter(tic_ra, tic_dec, transform=ax.get_transform('world'), s=20, facecolor='red', edgecolor='white')\n^,";
  "    ^ax.figure.set_size_inches((8,8))\n^,";
  "    ^ax.set_xlabel('Right Ascension')\n^,";
  "    ^ax.set_ylabel('Declination')^";
  "   ]";
  "  },";
  "  {";
  "   ^cell_type^: ^markdown^,";
  "   ^metadata^: {},";
  "   ^source^: [";
  "    ^<a id=\^overlay_images\^></a>\n^,";
  "    ^## Overlay the TessCut Image\n^,";
  "    ^To overlay the TESS Cutout against the DSS, we need to reproject the WCS of the TESS cutout onto the WCS of the DSS image, and the [reproject](https://reproject.readthedocs.io/en/stable/index.html) package.  We use the [reproject_interp](https://reproject.readthedocs.io/en/stable/api/reproject.reproject_interp.html#reproject.reproject_interp) method.  See [here](https://reproject.readthedocs.io/en/stable/celestial.html) for more details. \n^,";
  "    ^\n^,";
  "    ^``reproject_interp`` takes two basic inputs.  \n^,";
  "    ^- input data+WCS we want to project from\n^,";
  "    ^- output WCS we want to project onto.  \n^,";
  "    ^\n^,";
  "    ^We want to project our TESS cutout and its WCS into the coordinate frame of the DSS image, using the DSS WCS.  Our input is a tuple of the custom TESS cutout data and wcs, i.e. ``(data, wcs)``.  The desired coordinate frame is the WCS we want to project onto, i.e. ``dss_wcs``.  We also need to provide the shape of the DSS data, with `shape_out`.  Finally we need to provide an interpolation method.  We use a ``nearest-neighbor`` interpolation, which is the lowest order possible.  \n^,";
  "    ^\n^,";
  "    ^``reproject_interp`` will take the input 11x11 pixel TESS cutout data, convert it to world coordinates using the TESS WCS, interpolate it into the shape of the DSS image (229x229) using the DSS WCS, and convert the data into DSS pixel coordinates.  \n^,";
  "    ^\n^,";
  "    ^The final output is the reprojected TESS cutout data (``reproj_tesscut``) and the overlapping footprint of the input data in the output data (``footprint``).  \n^";
  "   ]";
  "  },";
  "  {";
  "   ^cell_type^: ^code^,";
  "   ^execution_count^: null,";
  "   ^metadata^: {},";
  "   ^outputs^: [],";
  "   ^source^: [";
  "    ^# reproject the tesscut onto dss\n^,";
  "    ^reproj_tesscut, footprint = reproject_interp((data, wcs,), dss_wcs, shape_out=dss_data.shape, order='nearest-neighbor')^";
  "   ]";
  "  },";
  "  {";
  "   ^cell_type^: ^markdown^,";
  "   ^metadata^: {},";
  "   ^source^: [";
  "    ^Once reprojected, we can properly overly the DSS and TESSCut images.  We can add a slider for the opacity of the overlay using ipywidgets.  First we make a `create_plot` function which accepts all the inputs we need to display the DSS image, and overlay the TESS cutout image and TIC objects.  ^";
  "   ]";
  "  },";
  "  {";
  "   ^cell_type^: ^code^,";
  "   ^execution_count^: null,";
  "   ^metadata^: {},";
  "   ^outputs^: [],";
  "   ^source^: [";
  "    ^# create the function to overlay dss + tesscut + tic catalog\n^,";
  "    ^def create_plot(background_img, foreground_img, alpha, norm, wcs, ra, dec):\n^,";
  "    ^    ''' create an interactive matplotlib image plot\n^,";
  "    ^    \n^,";
  "    ^    Parameters:\n^,";
  "    ^        background_img (ndarray):\n^,";
  "    ^            The background image data to show\n^,";
  "    ^        foreground_img (ndarray):\n^,";
  "    ^            The foreground image data to overplot. \n^,";
  "    ^        alpha (tuple):\n^,";
  "    ^            A tuple of min, max for the interactive slider.  \n^,";
  "    ^        norm:\n^,";
  "    ^            The image normalization to use for the overlaid image.\n^,";
  "    ^        wcs (astropy.wcs.wcs.WCS):\n^,";
  "    ^            The WCS of the background image\n^,";
  "    ^        ra (list):\n^,";
  "    ^            A list of RA coordinate objects\n^,";
  "    ^        dec (list):\n^,";
  "    ^            A list of Dec coordinate objects\n^,";
  "    ^    '''\n^,";
  "    ^    # create plot\n^,";
  "    ^    ax = plt.subplot(projection=wcs)\n^,";
  "    ^    ax.figure.set_size_inches((8,8))\n^,";
  "    ^\n^,";
  "    ^    # show image 1\n^,";
  "    ^    ax.imshow(background_img, origin='lower')\n^,";
  "    ^\n^,";
  "    ^    # overlay image 2\n^,";
  "    ^    ax.imshow(foreground_img, origin='lower', alpha=alpha, norm=norm, cmap='gray')\n^,";
  "    ^\n^,";
  "    ^    # overlay a list of objects\n^,";
  "    ^    ax.scatter(ra, dec, transform=ax.get_transform('world'), s=20, facecolor='red', edgecolor='white')\n^,";
  "    ^\n^,";
  "    ^    # add axis labels\n^,";
  "    ^    ax.set_xlabel('Right Ascension')\n^,";
  "    ^    ax.set_ylabel('Declination')^";
  "   ]";
  "  },";
  "  {";
  "   ^cell_type^: ^markdown^,";
  "   ^metadata^: {},";
  "   ^source^: [";
  "    ^We use ipywidgets to create an interactive slider widget for the alpha/opacity of the TESS cutout image.  We use the [interactive](https://ipywidgets.readthedocs.io/en/stable/examples/Using%20Interact.html#interactive) function to produce an interactive widget.  It takes as input the main function we want to make interactive, in our case, ``create_plot``.  You also need to pass in all the inputs to your custom function.  \n^,";
  "    ^\n^,";
  "    ^To create a slider for alpha we pass in a tuple of **(min, max)** representing the minimum and maximum slider ranges.  All other inputs to our ``create_plot`` function should be fixed.  We do not want interaction on these elements.  So we wrap all other inputs in the [fixed](https://ipywidgets.readthedocs.io/en/stable/examples/Using%20Interact.html#Fixing-arguments-using-fixed) function from ``ipywidgets``.  This tells ipywidgets to use fix those inputs. \n^,";
  "    ^\n^,";
  "    ^Our input background data is the DSS image data, ``dss_data``.  The input image to overlay on top is the reprojected TESS data, ``reproj_tesscut``.  We also pass in `norm`, the TESS cutout image normalization from before, as well as DSS wcs (`dss_wcs`), and the list of RA and Dec of the TIC objects, ``tic_ra, tic_dec``. \n^,";
  "    ^\n^,";
  "    ^Try moving the slider back and forth to control the opacity of the TESS cutout image against the DSS image. ^";
  "   ]";
  "  },";
  "  {";
  "   ^cell_type^: ^code^,";
  "   ^execution_count^: null,";
  "   ^metadata^: {},";
  "   ^outputs^: [],";
  "   ^source^: [";
  "    ^# create an interactive ipywidget plot for the opacity of tesscut\n^,";
  "    ^interactive_plot = interactive(create_plot, background_img=fixed(dss_data), foreground_img=fixed(reproj_tesscut), \n^,";
  "    ^                               alpha=(0.0,1.0), norm=fixed(norm), wcs=fixed(dss_wcs), \n^,";
  "    ^                               ra=fixed(tic_ra), dec=fixed(tic_dec))\n^,";
  "    ^# display the plot\n^,";
  "    ^output = interactive_plot.children[-1]\n^,";
  "    ^output.layout.height = '500px'\n^,";
  "    ^interactive_plot^";
  "   ]";
  "  },";
  "  {";
  "   ^cell_type^: ^markdown^,";
  "   ^metadata^: {},";
  "   ^source^: [";
  "    ^<a id=\^resources\^></a>\n^,";
  "    ^## Additional Resources\n^,";
  "    ^[TESScut API Documentation](https://mast.stsci.edu/tesscut/)<br>\n^,";
  "    ^[Astrocut Documentation](https://astrocut.readthedocs.io/en/latest/)<br>\n^,";
  "    ^[TESS Homepage](https://archive.stsci.edu/tess)<br>\n^,";
  "    ^[TESS Archive Manual](https://outerspace.stsci.edu/display/TESS/TESS+Archive+Manual)^";
  "   ]";
  "  },";
  "  {";
  "   ^cell_type^: ^markdown^,";
  "   ^metadata^: {},";
  "   ^source^: [";
  "    ^<a id=\^about_ID\^></a>\n^,";
  "    ^## About this Notebook\n^,";
  "    ^**Author:** Brian Cherinka, STScI Archive Scientist\n^,";
  "    ^<br>**Last Updated:** May 2023^";
  "   ]";
  "  },";
  "  {";
  "   ^cell_type^: ^markdown^,";
  "   ^metadata^: {},";
  "   ^source^: [";
  "    ^[Top of Page](#title_ID)\n^,";
  "    ^<img style=\^float: right;\^ src=\^https://raw.githubusercontent.com/spacetelescope/notebooks/master/assets/stsci_pri_combo_mark_horizonal_white_bkgd.png\^ alt=\^STScI logo\^ width=\^200px\^/> ^";
  "   ]";
  "  }";
  " ],";
  " ^metadata^: {";
  "  ^kernelspec^: {";
  "   ^display_name^: ^Python 3 (ipykernel)^,";
  "   ^language^: ^python^,";
  "   ^name^: ^python3^";
  "  },";
  "  ^language_info^: {";
  "   ^codemirror_mode^: {";
  "    ^name^: ^ipython^,";
  "    ^version^: 3";
  "   },";
  "   ^file_extension^: ^.py^,";
  "   ^mimetype^: ^text/x-python^,";
  "   ^name^: ^python^,";
  "   ^nbconvert_exporter^: ^python^,";
  "   ^pygments_lexer^: ^ipython3^,";
  "   ^version^: ^3.8.16^";
  "  }";
  " },";
  " ^nbformat^: 4,";
  " ^nbformat_minor^: 4";
  "}"
].

(** [src/notebooks/astroquery/wildcard_searches/wildcard_searches.ipynb], 490 lines. *)
Definition wildcard_searches_ipynb : list string := map caret_to_quote [
  "{";
  " ^cells^: [";
  "  {";
  "   ^cell_type^: ^markdown^,";
  "   ^id^: ^ba875f5a^,";
  "   ^metadata^: {},";
  "   ^source^: [";
  "    ^# Wildcard Handling with Astroquery.mast^";
  "   ]";
  "  },";
  "  {";
  "   ^cell_type^: ^markdown^,";
  "   ^id^: ^82aa07ce^,";
  "   ^metadata^: {},";
  "   ^source^: [";
  "    ^----^";
  "   ]";
  "  },";
  "  {";
  "   ^cell_type^: ^markdown^,";
  "   ^id^: ^f663f21e^,";
  "   ^metadata^: {},";
  "   ^source^: [";
  "    ^## Learning Goals^";
  "   ]";
  "  },";
  "  {";
  "   ^cell_type^: ^markdown^,";
  "   ^id^: ^683067ea^,";
  "   ^metadata^: {},";
  "   ^source^: [";
  "    ^By the end of this tutorial, you will:\n^,";
  "    ^\n^,";
  "    ^* Use the wildcards available for `astroquery.mast.Observations` criteria queries\n^,";
  "    ^* Broaden and refine `astroquery.mast.Observations` criteria queries\n^,";
  "    ^* Fully utilize the `instrument_name` criteria, especially for JWST queries\n^,";
  "    ^* Query for moving targets using target ephemeris and time criteria such as `t_min` and `t_max`^";
  "   ]";
  "  },";
  "  {";
  "   ^cell_type^: ^markdown^,";
  "   ^id^: ^299dbd42^,";
  "   ^metadata^: {},";
  "   ^source^: [";
  "    ^## Introduction^";
  "   ]";
  "  },";
  "  {";
  "   ^cell_type^: ^markdown^,";
  "   ^id^: ^e3f8b9c2^,";
  "   ^metadata^: {},";
  "   ^source^: [";
  "    ^This Notebook demonstrates the use of wildcards in `astroquery.mast.Observations` criteria queries. The use of wildcards is encouraged for certain criteria types (namely, `string` object types) to ensure your query returns all results. \n^,";
  "    ^\n^,";
  "    ^We will demonstrate 3 use-cases for wildcards when doing criteria queries and emphasize certain criteria where wildcard usage is highly encouraged, particularly for JWST queries. We will also use the last example to demonstrate the use of value ranges when working with `float` object criteria types.\n^,";
  "    ^\n^,";
  "    ^The workflow for this notebook consists of:\n^,";
  "    ^\n^,";
  "    ^* [Wildcard overview with `astroquery.mast.Observations`](#overview)\n^,";
  "    ^    1. [Wildcard Search with `instrument_name`](#case1)\n^,";
  "    ^    2. [Wildcard Search with `instrument_name` and `proposal_id`](#case2)\n^,";
  "    ^    3. [Wildcard Search a Time-sensitive Object with `target_name` and `t_min`](#case3)\n^,";
  "    ^* Resources^";
  "   ]";
  "  },";
  "  {";
  "   ^cell_type^: ^markdown^,";
  "   ^id^: ^081aec44^,";
  "   ^metadata^: {},";
  "   ^source^: [";
  "    ^## Imports^";
  "   ]";
  "  },";
  "  {";
  "   ^cell_type^: ^code^,";
  "   ^execution_count^: null,";
  "   ^id^: ^e3b0d9a0^,";
  "   ^metadata^: {},";
  "   ^outputs^: [],";
  "   ^source^: [";
  "    ^import astropy.units as u\n^,";
  "    ^import matplotlib.pyplot as plt\n^,";
  "    ^\n^,";
  "    ^from astropy.coordinates import SkyCoord\n^,";
  "    ^from astropy.table import Table, unique, vstack\n^,";
  "    ^from astropy.time import Time\n^,";
  "    ^from astroquery.mast import Observations^";
  "   ]";
  "  },";
  "  {";
  "   ^cell_type^: ^markdown^,";
  "   ^id^: ^6fa247ec^,";
  "   ^metadata^: {},";
  "   ^source^: [";
  "    ^----^";
  "   ]";
  "  },";
  "  {";
  "   ^cell_type^: ^markdown^,";
  "   ^id^: ^9485fb4d^,";
  "   ^metadata^: {},";
  "   ^source^: [";
  "    ^<a id=\^overview\^></a>\n^,";
  "    ^## Wildcards with `astroquery.mast.Observations`^";
  "   ]";
  "  },";
  "  {";
  "   ^cell_type^: ^markdown^,";
  "   ^id^: ^01935242^,";
  "   ^metadata^: {},";
  "   ^source^: [";
  "    ^The use of wildcards when making `astroquery.mast.Observations` queries can help ensure you retrieve all observations without leaving anything out. The available wildcards are `%` and `*`: `%` replaces a single character, while `*` replaces more than one character preceding, following, or in between the existing characters, depending on its placement. See the [Observation Criteria Queries](https://astroquery.readthedocs.io/en/latest/mast/mast.html#observation-criteria-queries) section in the `astroquery.mast` documentation for more information on the wildcards.\n^,";
  "    ^\n^,";
  "    ^Wildcards are only available for certain criteria. `string` type objects accept wildcards, but `float`, `integer`, or any other objects do not accept wildcards.\n^,";
  "    ^\n^,";
  "    ^Users may call the `get_metadata` method to see the list of query criteria and their data types. The criteria listed as `string` objects under the **Data Type** column are criteria that can be called with wildcards:^";
  "   ]";
  "  },";
  "  {";
  "   ^cell_type^: ^code^,";
  "   ^execution_count^: null,";
  "   ^id^: ^a892c185^,";
  "   ^metadata^: {";
  "    ^scrolled^: true";
  "   },";
  "   ^outputs^: [],";
  "   ^source^: [";
  "    ^Observations.get_metadata(\^observations\^)^";
  "   ]";
  "  },";
  "  {";
  "   ^cell_type^: ^markdown^,";
  "   ^id^: ^74d0a968^,";
  "   ^metadata^: {},";
  "   ^source^: [";
  "    ^<a id=\^case1\^></a>\n^,";
  "    ^### Case 1: Wildcard Search with `instrument_name`^";
  "   ]";
  "  },";
  "  {";
  "   ^cell_type^: ^markdown^,";
  "   ^id^: ^6b80645c^,";
  "   ^metadata^: {},";
  "   ^source^: [";
  "    ^For our first example we will search for all NIRISS observations taken by a certain proposal/program PI. Our two query criteria are `proposal_pi` and `instrument_name`, which are both `string` object criteria. As such, both can be wildcarded for ease of use. \n^,";
  "    ^\n^,";
  "    ^In fact, it is sometimes necessary to use wildcards when searching on `instrument_name`. Both HST and JWST use instrument configurations in this field to allow for more precise advanced searches (e.g. NIRISS/IMAGE and STIS/FUV-MAMA). When performing a \^generic\^ search, you must include a wildcard or these more detailed results will be excluded.\n^,";
  "    ^\n^,";
  "    ^We will demonstrate this by looking at the results for the query below:^";
  "   ]";
  "  },";
  "  {";
  "   ^cell_type^: ^code^,";
  "   ^execution_count^: null,";
  "   ^id^: ^c88ef2ed^,";
  "   ^metadata^: {";
  "    ^scrolled^: true";
  "   },";
  "   ^outputs^: [],";
  "   ^source^: [";
  "    ^observations = Observations.query_criteria(proposal_pi=\^Espinoza, Nestor\^,\n^,";
  "    ^                                           instrument_name=\^NIRISS*\^)\n^,";
  "    ^observations^";
  "   ]";
  "  },";
  "  {";
  "   ^cell_type^: ^markdown^,";
  "   ^id^: ^3eb7c273^,";
  "   ^metadata^: {},";
  "   ^source^: [";
  "    ^Our query returned many NIRISS observations led by the PI Dr. Espinoza. Let's get all the unique values under the `instrument_name` column to see what our `*` wildcard picked up.^";
  "   ]";
  "  },";
  "  {";
  "   ^cell_type^: ^code^,";
  "   ^execution_count^: null,";
  "   ^id^: ^ffc1b58f^,";
  "   ^metadata^: {},";
  "   ^outputs^: [],";
  "   ^source^: [";
  "    ^set(observations['instrument_name'])^";
  "   ]";
  "  },";
  "  {";
  "   ^cell_type^: ^markdown^,";
  "   ^id^: ^34c9e95f^,";
  "   ^metadata^: {},";
  "   ^source^: [";
  "    ^Our observations have the advanced labeling; had we simply set `instrument_name = \^NIRISS\^`, we would have missed several observations. For more details on this advanced labeling, see the [JWST Instrument Names page](https://outerspace.stsci.edu/display/MASTDOCS/JWST+Instrument+Names).^";
  "   ]";
  "  },";
  "  {";
  "   ^cell_type^: ^markdown^,";
  "   ^id^: ^a08f607f^,";
  "   ^metadata^: {},";
  "   ^source^: [";
  "    ^#### A note of caution: There is such a thing as too many wildcards\n^,";
  "    ^\n^,";
  "    ^You can be too generous with the wildcards, so be sure to exercise caution in their use. Too much ambiguity can lead to unintended results. Let's take a look at our example below.^";
  "   ]";
  "  },";
  "  {";
  "   ^cell_type^: ^code^,";
  "   ^execution_count^: null,";
  "   ^id^: ^17d9194e^,";
  "   ^metadata^: {";
  "    ^scrolled^: true";
  "   },";
  "   ^outputs^: [],";
  "   ^source^: [";
  "    ^observations = Observations.query_criteria(proposal_pi='Espinoza, Nestor',\n^,";
  "    ^                                           instrument_name='NIR*') # Surely only one instrument begins with 'NIR'\n^,";
  "    ^set(observations['instrument_name'])^";
  "   ]";
  "  },";
  "  {";
  "   ^cell_type^: ^markdown^,";
  "   ^id^: ^e019a8e2^,";
  "   ^metadata^: {},";
  "   ^source^: [";
  "    ^This query returns `NIRSPEC/SLIT` observations in addition to the NIRISS ones, which is not what we intended.^";
  "   ]";
  "  },";
  "  {";
  "   ^cell_type^: ^markdown^,";
  "   ^id^: ^fefa0c07^,";
  "   ^metadata^: {},";
  "   ^source^: [";
  "    ^<a id=\^case2\^></a>\n^,";
  "    ^### Case 2: Wildcard Search with `instrument_name` and `proposal_id`^";
  "   ]";
  "  },";
  "  {";
  "   ^cell_type^: ^markdown^,";
  "   ^id^: ^99af085a^,";
  "   ^metadata^: {},";
  "   ^source^: [";
  "    ^Let's add an additional `string` criterion and wildcard into the mix. We'll do this with the `proposal_id` field which, despite its numeric content, is encoded as a string.\n^,";
  "    ^\n^,";
  "    ^Let's query for a four digit proposal/program IDs that begin with `15`.^";
  "   ]";
  "  },";
  "  {";
  "   ^cell_type^: ^code^,";
  "   ^execution_count^: null,";
  "   ^id^: ^dd436c7d^,";
  "   ^metadata^: {},";
  "   ^outputs^: [],";
  "   ^source^: [";
  "    ^observations = Observations.query_criteria(proposal_pi='Espinoza, Nestor',\n^,";
  "    ^                                           instrument_name='NIRISS*',\n^,";
  "    ^                                           proposal_id=['15%%']) # Only a four digit result will match this\n^,";
  "    ^\n^,";
  "    ^set(observations['proposal_id']), set(observations['instrument_name'])^";
  "   ]";
  "  },";
  "  {";
  "   ^cell_type^: ^markdown^,";
  "   ^id^: ^9fcc9102^,";
  "   ^metadata^: {},";
  "   ^source^: [";
  "    ^<a id=\^case3\^></a>\n^,";
  "    ^### Case 3: Create a Moving Target Ephemeris using MAST Observations with Wildcard Search^";
  "   ]";
  "  },";
  "  {";
  "   ^cell_type^: ^markdown^,";
  "   ^id^: ^c38a4cdb^,";
  "   ^metadata^: {},";
  "   ^source^: [";
  "    ^We will be querying for image observations of Comet 67P Churyumov-Gerasimenko observed through the Hubble Space Telescope's Advanced Camera for Surveys (ACS) Wide Field Camera (WFC). This comet's name can be listed in different ways, so we will use `*` wildcards in our criteria query.^";
  "   ]";
  "  },";
  "  {";
  "   ^cell_type^: ^code^,";
  "   ^execution_count^: null,";
  "   ^id^: ^a7cd9670^,";
  "   ^metadata^: {},";
  "   ^outputs^: [],";
  "   ^source^: [";
  "    ^observations = Observations.query_criteria(target_name=\^*67P*\^,\n^,";
  "    ^                                           instrument_name=\^ACS/WFC\^)\n^,";
  "    ^\n^,";
  "    ^print(f\^{len(observations)} total observations\^ + \^\\n\^)\n^,";
  "    ^print(\^Listed target names:\^)\n^,";
  "    ^print(set(observations['target_name']))^";
  "   ]";
  "  },";
  "  {";
  "   ^cell_type^: ^markdown^,";
  "   ^id^: ^5ed146c3^,";
  "   ^metadata^: {},";
  "   ^source^: [";
  "    ^Above there are two names we get for Comet-67P. You should exercise caution when searching on the `target_name` criteria, since this is often entered by the PI who proposed the observation and can vary from person to person.\n^,";
  "    ^\n^,";
  "    ^In the remainder of this notebook, we will construct a bare-bones ephemeris using the filtered MAST observations of this object and their metadata. We will then do some reverse engineering to query for the target based on coordinates using the ephemeris table, and hope that we get the same results back! Let's begin:\n^,";
  "    ^\n^,";
  "    ^For simplicity, let's work only with the `'COMET-67P-CHURYUMOV-GERASIMENK'` observations to create our ephemeris.^";
  "   ]";
  "  },";
  "  {";
  "   ^cell_type^: ^code^,";
  "   ^execution_count^: null,";
  "   ^id^: ^a028e9e6^,";
  "   ^metadata^: {";
  "    ^scrolled^: true,";
  "    ^tags^: []";
  "   },";
  "   ^outputs^: [],";
  "   ^source^: [";
  "    ^mask = observations[\^target_name\^] == \^COMET-67P-CHURYUMOV-GERASIMENK\^\n^,";
  "    ^filtered_observations = observations[mask]\n^,";
  "    ^filtered_observations^";
  "   ]";
  "  },";
  "  {";
  "   ^cell_type^: ^markdown^,";
  "   ^id^: ^ebdc42f6^,";
  "   ^metadata^: {},";
  "   ^source^: [";
  "    ^Now that we have our filtered observations, let's sort the rows of this table based on the `t_min` criteria, which refers to the start time of the exposure in MJD.^";
  "   ]";
  "  },";
  "  {";
  "   ^cell_type^: ^code^,";
  "   ^execution_count^: null,";
  "   ^id^: ^5198bf11^,";
  "   ^metadata^: {},";
  "   ^outputs^: [],";
  "   ^source^: [";
  "    ^filtered_observations.sort(\^t_min\^)^";
  "   ]";
  "  },";
  "  {";
  "   ^cell_type^: ^markdown^,";
  "   ^id^: ^dc840a0a^,";
  "   ^metadata^: {},";
  "   ^source^: [";
  "    ^Now that we've sorted our table, let's construct a basic ephemeris showing the path of our object over time (with `t_min`, or exposure start in MJD, as our time component):^";
  "   ]";
  "  },";
  "  {";
  "   ^cell_type^: ^code^,";
  "   ^execution_count^: null,";
  "   ^id^: ^cd4fca9a^,";
  "   ^metadata^: {},";
  "   ^outputs^: [],";
  "   ^source^: [";
  "    ^ephemeris = Table([filtered_observations[\^s_ra\^],\n^,";
  "    ^                   filtered_observations[\^s_dec\^],\n^,";
  "    ^                   filtered_observations[\^t_min\^]], names=(\^ra\^, \^dec\^, \^t_min\^))^";
  "   ]";
  "  },";
  "  {";
  "   ^cell_type^: ^markdown^,";
  "   ^id^: ^80b5f267^,";
  "   ^metadata^: {},";
  "   ^source^: [";
  "    ^Let's display the contents of our ephemeris, and use it to generate a plot of the comet's path:^";
  "   ]";
  "  },";
  "  {";
  "   ^cell_type^: ^code^,";
  "   ^execution_count^: null,";
  "   ^id^: ^40a7aedb^,";
  "   ^metadata^: {},";
  "   ^outputs^: [],";
  "   ^source^: [";
  "    ^ephemeris.sort(\^t_min\^)\n^,";
  "    ^ephemeris^";
  "   ]";
  "  },";
  "  {";
  "   ^cell_type^: ^code^,";
  "   ^execution_count^: null,";
  "   ^id^: ^29d51f19^,";
  "   ^metadata^: {},";
  "   ^outputs^: [],";
  "   ^source^: [";
  "    ^plt.figure(figsize=(12,8))\n^,";
  "    ^plt.scatter(ephemeris[0:18]['ra'], ephemeris[0:18]['dec'], color='royalblue', s=200, lw=1., edgecolor='k')\n^,";
  "    ^\n^,";
  "    ^plt.xlabel(\^Right Ascension (deg)\^, fontsize=20)\n^,";
  "    ^plt.ylabel(\^Declination (deg)\^, fontsize=20)\n^,";
  "    ^\n^,";
  "    ^plt.title(\^Sky Coordinates\^, fontsize=20)\n^,";
  "    ^\n^,";
  "    ^plt.xticks(fontsize=15)\n^,";
  "    ^plt.yticks(fontsize=15)\n^,";
  "    ^plt.grid()^";
  "   ]";
  "  },";
  "  {";
  "   ^cell_type^: ^markdown^,";
  "   ^id^: ^78e5b531^,";
  "   ^metadata^: {},";
  "   ^source^: [";
  "    ^You can choose to save the ephemeris table in your current working directory by running the cell below:^";
  "   ]";
  "  },";
  "  {";
  "   ^cell_type^: ^code^,";
  "   ^execution_count^: null,";
  "   ^id^: ^8763a7e9^,";
  "   ^metadata^: {},";
  "   ^outputs^: [],";
  "   ^source^: [";
  "    ^ephemeris.write('ephemeris-comet67p-cg.csv', format='ascii')  ^";
  "   ]";
  "  },";
  "  {";
  "   ^cell_type^: ^markdown^,";
  "   ^id^: ^4b6fafaf^,";
  "   ^metadata^: {},";
  "   ^source^: [";
  "    ^## Resources^";
  "   ]";
  "  },";
  "  {";
  "   ^cell_type^: ^markdown^,";
  "   ^id^: ^e1ce99f9^,";
  "   ^metadata^: {},";
  "   ^source^: [";
  "    ^The following is a list of resources that were referenced throughout the tutorial, as well as some additional references that you may find useful:\n^,";
  "    ^\n^,";
  "    ^* [`astroquery.mast.Observation` criteria queries](https://astroquery.readthedocs.io/en/latest/mast/mast.html#observation-criteria-queries)\n^,";
  "    ^* [JWST Instrument Names](https://outerspace.stsci.edu/display/MASTDOCS/JWST+Instrument+Names)^";
  "   ]";
  "  },";
  "  {";
  "   ^cell_type^: ^markdown^,";
  "   ^id^: ^55a71062^,";
  "   ^metadata^: {},";
  "   ^source^: [";
  "    ^## Citations^";
  "   ]";
  "  },";
  "  {";
  "   ^cell_type^: ^markdown^,";
  "   ^id^: ^268da702^,";
  "   ^metadata^: {},";
  "   ^source^: [";
  "    ^If you use any of astroquery's tools for published research, please cite the authors. Follow this link for more information about citing astroquery:\n^,";
  "    ^\n^,";
  "    ^* [Citing astroquery](https://github.com/astropy/astroquery/blob/main/astroquery/CITATION)^";
  "   ]";
  "  },";
  "  {";
  "   ^cell_type^: ^markdown^,";
  "   ^id^: ^79ab0efc^,";
  "   ^metadata^: {},";
  "   ^source^: [";
  "    ^## About This Notebook^";
  "   ]";
  "  },";
  "  {";
  "   ^cell_type^: ^markdown^,";
  "   ^id^: ^bb9ce04c^,";
  "   ^metadata^: {},";
  "   ^source^: [";
  "    ^If you have comments or questions on this notebook, please contact us through the Archive Help Desk e-mail at archive@stsci.edu. <br>\n^,";
  "    ^<br>\n^,";
  "    ^Author: Jenny V. Medina <br>\n^,";
  "    ^Keywords: astroquery, wildcards, moving target <br>\n^,";
  "    ^Last Updated: Jun 2023^";
  "   ]";
  "  }";
  " ],";
  " ^metadata^: {";
  "  ^kernelspec^: {";
  "   ^display_name^: ^Python 3 (ipykernel)^,";
  "   ^language^: ^python^,";
  "   ^name^: ^python3^";
  "  },";
  "  ^language_info^: {";
  "   ^codemirror_mode^: {";
  "    ^name^: ^ipython^,";
  "    ^version^: 3";
  "   },";
  "   ^file_extension^: ^.py^,";
  "   ^mimetype^: ^text/x-python^,";
  "   ^name^: ^python^,";
  "   ^nbconvert_exporter^: ^python^,";
  "   ^pygments_lexer^: ^ipython3^,";
  "   ^version^: ^3.11.4^";
  "  }";
  " },";
  " ^nbformat^: 4,";
  " ^nbformat_minor^: 5";
  "}"
].

(** [src/unnamed/part_000], 354 lines. *)
Definition part_000 : list string := map caret_to_quote [
  "{";
  " ^cells^: [";
  "  {";
  "   ^cell_type^: ^markdown^,";
  "   ^id^: ^b7f47a1c^,";
  "   ^metadata^: {},";
  "   ^source^: [";
  "    ^<a id=\^Top\^></a>\n^,";
  "    ^\n^,";
  "    ^# Finding the Rotation Curve of an Asteroid or Comet with TESScut and lightkurve: Solutions^";
  "   ]";
  "  },";
  "  {";
  "   ^cell_type^: ^markdown^,";
  "   ^id^: ^22cfa35a^,";
  "   ^metadata^: {},";
  "   ^source^: [";
  "    ^Before the solutions can be run, this code reproduces the necessary variables from the tutorial into this notebook.\n^,";
  "    ^\n^,";
  "    ^# Contents\n^,";
  "    ^* [Imports, prerequisite cells](#Imports,-Prerequisite-Cells)\n^,";
  "    ^1. [Confirm lightcurve truncation is appropriate.](#1)\n^,";
  "    ^2. [Confirm remove_outlier cutoff value is appropriate.](#2)\n^,";
  "    ^3. [Is rotation period changed by sector?](#3)\n^,";
  "    ^4. [Use the TESSCut website to download more observations.](#4)\n^,";
  "    ^5. [Find the rotation period of Hippodamia.](#5)\n^,";
  "    ^6. [Why is the median flux of first sector's observations lower than the second?](#6)\n^,";
  "    ^\n^,";
  "    ^\n^,";
  "    ^# Imports, Prerequisite Cells^";
  "   ]";
  "  },";
  "  {";
  "   ^cell_type^: ^code^,";
  "   ^execution_count^: null,";
  "   ^id^: ^a3ec97ec^,";
  "   ^metadata^: {},";
  "   ^outputs^: [],";
  "   ^source^: [";
  "    ^from astropy.io import fits\n^,";
  "    ^from astropy.table import Table\n^,";
  "    ^import astropy.units as u\n^,";
  "    ^import matplotlib.pyplot as plt\n^,";
  "    ^import numpy as np\n^,";
  "    ^\n^,";
  "    ^from astroquery.mast import Tesscut\n^,";
  "    ^from astropy.visualization import time_support\n^,";
  "    ^import lightkurve as lk\n^,";
  "    ^\n^,";
  "    ^%matplotlib inline^";
  "   ]";
  "  },";
  "  {";
  "   ^cell_type^: ^code^,";
  "   ^execution_count^: null,";
  "   ^id^: ^2da460d5^,";
  "   ^metadata^: {},";
  "   ^outputs^: [],";
  "   ^source^: [";
  "    ^objname='Eleonora'\n^,";
  "    ^\n^,";
  "    ^hdulist = Tesscut.get_cutouts(objectname=objname, moving_target=True, size=10)\n^,";
  "    ^\n^,";
  "    ^nsectors=len(hdulist)\n^,";
  "    ^for i in range(nsectors): \n^,";
  "    ^    hdulist[i].writeto(f\^{objname}_{i}.fits\^, overwrite=True)\n^,";
  "    ^    \n^,";
  "    ^for i in range(nsectors):\n^,";
  "    ^    tpf = lk.TessTargetPixelFile(f\^{objname}_{i}.fits\^)\n^,";
  "    ^    if i==0: \n^,";
  "    ^        tpfc=lk.TargetPixelFileCollection([tpf])\n^,";
  "    ^    else:\n^,";
  "    ^        tpfc.append(tpf)^";
  "   ]";
  "  },";
  "  {";
  "   ^cell_type^: ^code^,";
  "   ^execution_count^: null,";
  "   ^id^: ^d9196532^,";
  "   ^metadata^: {},";
  "   ^outputs^: [],";
  "   ^source^: [";
  "    ^for i in range(nsectors):\n^,";
  "    ^    lc=tpfc[i].to_lightcurve()\n^,";
  "    ^    if i==0: \n^,";
  "    ^        lcc=lk.LightCurveCollection([lc])\n^,";
  "    ^    else:\n^,";
  "    ^        lcc.append(lc)    \n^,";
  "    ^lcc[0]=lcc[0].truncate(after=293,column='cadenceno')\n^,";
  "    ^lcc[1]=lcc[1].truncate(before=59,column='cadenceno')\n^,";
  "    ^lcc[1]=lcc[1].remove_outliers(sigma_upper=2)^";
  "   ]";
  "  },";
  "  {";
  "   ^cell_type^: ^markdown^,";
  "   ^id^: ^4fffbba4^,";
  "   ^metadata^: {},";
  "   ^source^: [";
  "    ^<a id=\^1\^></a>\n^,";
  "    ^# 1. Confirm that the first lightcurve in our hdulist should be truncated after cadence number 293. ^";
  "   ]";
  "  },";
  "  {";
  "   ^cell_type^: ^code^,";
  "   ^execution_count^: null,";
  "   ^id^: ^0fe1fbbd^,";
  "   ^metadata^: {},";
  "   ^outputs^: [],";
  "   ^source^: [";
  "    ^# Place for code for Exercise 1\n^,";
  "    ^# The easiest way to do this is to inspect the first TPF and see that \n^,";
  "    ^# cadence 293 is the last one before one column of the image becomes cut off.\n^,";
  "    ^tpfc[0].interact()^";
  "   ]";
  "  },";
  "  {";
  "   ^cell_type^: ^markdown^,";
  "   ^id^: ^77e19247^,";
  "   ^metadata^: {},";
  "   ^source^: [";
  "    ^<a id=\^2\^></a>\n^,";
  "    ^# 2. Confirm that using a `remove_outlier` cutoff of `sigma_upper=2` did not affect the other cadences of the lightcurve for the second sector. \n^,";
  "    ^\n^,";
  "    ^At this point in the tutorial, the second sector's original light curve is still saved under the variable name `lc`; plot a graph of its time vs. flux columns and then overplot our sigma-clipped time and flux columns. Hint: You'll need to load `time_support()` first in order to use the time column in matplotlib. ^";
  "   ]";
  "  },";
  "  {";
  "   ^cell_type^: ^code^,";
  "   ^execution_count^: null,";
  "   ^id^: ^e28e0803^,";
  "   ^metadata^: {},";
  "   ^outputs^: [],";
  "   ^source^: [";
  "    ^# SOLUTION FOR EXERCISE 2\n^,";
  "    ^time_support()\n^,";
  "    ^plt.plot(lc.time,lc.flux)\n^,";
  "    ^plt.plot(lcc[1].time,lcc[1].flux)\n^,";
  "    ^plt.ylim(30000,36000) # Need to zoom in to see the two.^";
  "   ]";
  "  },";
  "  {";
  "   ^cell_type^: ^markdown^,";
  "   ^id^: ^e5439218^,";
  "   ^metadata^: {},";
  "   ^source^: [";
  "    ^<a id=\^3\^></a>\n^,";
  "    ^# 3. Determine if the rotation period returned by `lightkurve` is different when using only one sector's light curve at a time. ^";
  "   ]";
  "  },";
  "  {";
  "   ^cell_type^: ^code^,";
  "   ^execution_count^: null,";
  "   ^id^: ^4e5511f1^,";
  "   ^metadata^: {},";
  "   ^outputs^: [],";
  "   ^source^: [";
  "    ^# SOLUTION FOR EXERCISE 3\n^,";
  "    ^pg0=lcc[0].to_periodogram()\n^,";
  "    ^pg1=lcc[1].to_periodogram()\n^,";
  "    ^print(pg0.period_at_max_power.to(u.hr))\n^,";
  "    ^print(pg1.period_at_max_power.to(u.hr))\n^,";
  "    ^# To 3 significant figures, lightkurve returns the same period (in hours) \n^,";
  "    ^# with either light curve individually or with the two light curves combined.^";
  "   ]";
  "  },";
  "  {";
  "   ^cell_type^: ^code^,";
  "   ^execution_count^: null,";
  "   ^id^: ^889665f2^,";
  "   ^metadata^: {},";
  "   ^outputs^: [],";
  "   ^source^: [";
  "    ^# SOLUTION FOR EXERCISE 4\n^,";
  "    ^\n^,";
  "    ^# Using the default filenames from the website at the time of the writing of this tutorial:\n^,";
  "    ^diff1=fits.FITSDiff('Eleonora_0.fits','Eleonora_1468.2870040465345-1475.8494727152606_10.0-x-10.0_astrocut.fits',numdiffs=-1)\n^,";
  "    ^print(diff1.identical)\n^,";
  "    ^print(diff1.report())\n^,";
  "    ^\n^,";
  "    ^# The only differences appera to be in \^CHECKSUM\^ and \^DATASUM\^ values, which seem to correspond to the \n^,";
  "    ^# timestamps when the files were saved. Try ignoring those values. \n^,";
  "    ^diff1_ignore=fits.FITSDiff('Eleonora_0.fits',\n^,";
  "    ^                           'Eleonora_1468.2870040465345-1475.8494727152606_10.0-x-10.0_astrocut.fits',\n^,";
  "    ^                           numdiffs=-1,ignore_keywords=['CHECKSUM','DATASUM'])\n^,";
  "    ^print(diff1_ignore.identical)\n^,";
  "    ^# Do the same for the other file.\n^,";
  "    ^diff2_ignore=fits.FITSDiff('Eleonora_1.fits',\n^,";
  "    ^                           'Eleonora_1945.4743041992188-1954.8493041992188_10.0-x-10.0_astrocut.fits',\n^,";
  "    ^                           numdiffs=-1,ignore_keywords=['CHECKSUM','DATASUM'])\n^,";
  "    ^print(diff2_ignore.identical)^";
  "   ]";
  "  },";
  "  {";
  "   ^cell_type^: ^markdown^,";
  "   ^id^: ^6529c38e^,";
  "   ^metadata^: {},";
  "   ^source^: [";
  "    ^<a id=\^4\^></a>\n^,";
  "    ^# 4. Try recreating the procedure above to find the rotation period for a fainter (higher magnitude) small body from [Pál et al. 2020](https://ui.adsabs.harvard.edu/abs/2020ApJS..247...26P/abstract) such as Hippodamia. \n^,";
  "    ^What issues do you encounter in this case?^";
  "   ]";
  "  },";
  "  {";
  "   ^cell_type^: ^code^,";
  "   ^execution_count^: null,";
  "   ^id^: ^45f497c8^,";
  "   ^metadata^: {},";
  "   ^outputs^: [],";
  "   ^source^: [";
  "    ^# SOLUTION FOR EXERCISE 5\n^,";
  "    ^objname2='Hippodamia'\n^,";
  "    ^sector_table2=Tesscut.get_sectors(objectname=objname2, moving_target=True)\n^,";
  "    ^print(sector_table2)\n^,";
  "    ^# Because there is only one sector, we do not need the loops\n^,";
  "    ^# that we did for Eleonora. \n^,";
  "    ^hdulist2 = Tesscut.get_cutouts(objectname=objname2, moving_target=True, size=10)^";
  "   ]";
  "  },";
  "  {";
  "   ^cell_type^: ^code^,";
  "   ^execution_count^: null,";
  "   ^id^: ^1ec882fc^,";
  "   ^metadata^: {},";
  "   ^outputs^: [],";
  "   ^source^: [";
  "    ^i=0\n^,";
  "    ^hdulist2[i].writeto(objname2+'_'+str(i)+'.fits',overwrite=True)\n^,";
  "    ^tpf2 = lk.TessTargetPixelFile(objname2+'_'+str(i)+'.fits')\n^,";
  "    ^tpf2.interact()^";
  "   ]";
  "  },";
  "  {";
  "   ^cell_type^: ^markdown^,";
  "   ^id^: ^659ffc6f^,";
  "   ^metadata^: {},";
  "   ^source^: [";
  "    ^After scrolling through the cadences, it's clear that Hippodamia passes in front of many stars that significantly impact the flux in the aperture. Since Hippodamia is so much dimmer, the influence on the light curve is much more pronounced than for Eleonora. We can try to use a similar outlier removal, but so many of the flux data points are high, it will likely not work. Generally, differential photometry (comparing images before the asteroid appears and after) is required. Because Hippodamia's period is relatively short, (P=8.9993 hr), we can try to cutout the few days around cadences 365-460 to see if we can find the rotation period from that.^";
  "   ]";
  "  },";
  "  {";
  "   ^cell_type^: ^code^,";
  "   ^execution_count^: null,";
  "   ^id^: ^34db69ed^,";
  "   ^metadata^: {},";
  "   ^outputs^: [],";
  "   ^source^: [";
  "    ^lc2=tpf2.to_lightcurve()\n^,";
  "    ^lc2=lc2.truncate(before=365,after=460,column='cadenceno')\n^,";
  "    ^lc2.plot()^";
  "   ]";
  "  },";
  "  {";
  "   ^cell_type^: ^code^,";
  "   ^execution_count^: null,";
  "   ^id^: ^d3a3d969^,";
  "   ^metadata^: {},";
  "   ^outputs^: [],";
  "   ^source^: [";
  "    ^pg2=lc2.to_periodogram()\n^,";
  "    ^pg2.plot()\n^,";
  "    ^print(pg2.period_at_max_power.to(u.hr))\n^,";
  "    ^print(2*pg2.period_at_max_power.to(u.hr))\n^";
  "   ]";
  "  },";
  "  {";
  "   ^cell_type^: ^code^,";
  "   ^execution_count^: null,";
  "   ^id^: ^908fcbb6^,";
  "   ^metadata^: {},";
  "   ^outputs^: [],";
  "   ^source^: [";
  "    ^# Again, our result is close to 1/2 times to the accepted period. \n^,";
  "    ^lc2.fold(period=2*pg2.period_at_max_power).scatter()^";
  "   ]";
  "  },";
  "  {";
  "   ^cell_type^: ^markdown^,";
  "   ^id^: ^f8b93b87^,";
  "   ^metadata^: {},";
  "   ^source^: [";
  "    ^<a id=\^5\^></a>\n^,";
  "    ^# 5. Use [astroquery's Minor Planet Center Queries (MPC)](https://astroquery.readthedocs.io/en/latest/mpc/mpc.html?highlight=mpc#ephemerides) `get_ephemeris` feature to investigate why the median flux for the first sector's observations is lower than for the second sector's observations. \n^,";
  "    ^The times of each cadence are in the light curve's `time` column.^";
  "   ]";
  "  },";
  "  {";
  "   ^cell_type^: ^code^,";
  "   ^execution_count^: null,";
  "   ^id^: ^dcbc44b9^,";
  "   ^metadata^: {},";
  "   ^outputs^: [],";
  "   ^source^: [";
  "    ^# SOLUTION FOR EXERCISE 6.\n^,";
  "    ^from astroquery.mpc import MPC\n^,";
  "    ^# Get tables for each start and end time. Just view the first row.\n^,";
  "    ^eph1=MPC.get_ephemeris('Eleonora',start=lcc[0].time[0])\n^,";
  "    ^eph2=MPC.get_ephemeris('Eleonora',start=lcc[0].time[-1])\n^,";
  "    ^eph3=MPC.get_ephemeris('Eleonora',start=lcc[1].time[0])\n^,";
  "    ^eph4=MPC.get_ephemeris('Eleonora',start=lcc[1].time[-1])\n^,";
  "    ^columns=['Date','RA','Dec','Delta','r','Elongation','Phase','V']\n^,";
  "    ^print(eph1[columns][0])\n^,";
  "    ^print(eph2[columns][0])\n^,";
  "    ^print(eph3[columns][0])\n^,";
  "    ^print(eph4[columns][0])^";
  "   ]";
  "  },";
  "  {";
  "   ^cell_type^: ^code^,";
  "   ^execution_count^: null,";
  "   ^id^: ^94a50c37^,";
  "   ^metadata^: {},";
  "   ^outputs^: [],";
  "   ^source^: [";
  "    ^# Compare the medians of the two fluxes.\n^,";
  "    ^print(np.median(lcc[0].flux))\n^,";
  "    ^print(np.median(lcc[1].flux))\n^,";
  "    ^print((np.median(lcc[1].flux)-np.median(lcc[0].flux))/np.median(lcc[0].flux))^";
  "   ]";
  "  },";
  "  {";
  "   ^cell_type^: ^markdown^,";
  "   ^id^: ^50679770^,";
  "   ^metadata^: {},";
  "   ^source^: [";
  "    ^During the second sector, Eleonora was 2.0-2.2% closer than the first, but the median flux was nearly 12% higher and the MPC doesn't report any difference in V magnitude.\n^,";
  "    ^***\n^,";
  "    ^[Back to top](#Top)\n^,";
  "    ^\n^,";
  "    ^<img style=\^float: right;\^ src=\^https://raw.githubusercontent.com/spacetelescope/notebooks/master/assets/stsci_pri_combo_mark_horizonal_white_bkgd.png\^ alt=\^Space Telescope Logo\^ width=\^200px\^/> ^";
  "   ]";
  "  }";
  " ],";
  " ^metadata^: {";
  "  ^kernelspec^: {";
  "   ^display_name^: ^Python 3 (ipykernel)^,";
  "   ^language^: ^python^,";
  "   ^name^: ^python3^";
  "  },";
  "  ^language_info^: {";
  "   ^codemirror_mode^: {";
  "    ^name^: ^ipython^,";
  "    ^version^: 3";
  "   },";
  "   ^file_extension^: ^.py^,";
  "   ^mimetype^: ^text/x-python^,";
  "   ^name^: ^python^,";
  "   ^nbconvert_exporter^: ^python^,";
  "   ^pygments_lexer^: ^ipython3^,";
  "   ^version^: ^3.8.16^";
  "  }";
  " },";
  " ^nbformat^: 4,";
  " ^nbformat_minor^: 5";
  "}"
].

(** A file of the repository: its path, when known, and its lines. *)
Record file := File { path : option string; lines : list string }.

Definition files : list file :=
  [ File (Some "_toc.yml") toc_yml;
    File (Some "contributing/notebook_template/notebook_template.ipynb")
         notebook_template_ipynb;
    File (Some "notebooks/TESS/interm_tesscut_dss_overlay/interm_tesscut_dss_overlay.ipynb")
         interm_tesscut_dss_overlay_ipynb;
    File (Some "notebooks/astroquery/wildcard_searches/wildcard_searches.ipynb")
         wildcard_searches_ipynb;
    File None part_000 ].

(** The notebooks at hand: every file but the table of contents.  The
    table of contents names many more notebooks (see
    [Survey.toc_notebooks]); those are not among the files, and what is
    said below of the notebooks is said of these four. *)
Definition notebooks : list (list string) :=
  [ notebook_template_ipynb; interm_tesscut_dss_overlay_ipynb;
    wildcard_searches_ipynb; part_000 ].

End Repo.

(** ** Notebooks: from the lines of an [.ipynb] file to its cells

    The notebooks are stored in the layout [nbformat] writes (one key or
    one array element per line).  A cell is read off its [cell_type] line
    and the lines of its [source] array; each of those is a JSON string
    holding one line of the cell. *)

Module Ipynb.
Import Text.

Inductive cell_type := Markdown | Code.

Record cell := Cell { kind : cell_type; source : list string }.

Definition is_code (c : cell) : bool :=
  match kind c with Code => true | Markdown => false end.

(** The text of a JSON string, read from just after its opening quote up
    to its closing quote, backslash escapes undone. *)
Fixpoint json_string_body (escaped : bool) (s : string) : string :=
  match s with
  | EmptyString => EmptyString
  | String c r =>
      if escaped then
        String (if Ascii.eqb c "n"%char then nl else c) (json_string_body false r)
      else if Ascii.eqb c "\"%char then json_string_body true r
      else if Ascii.eqb c dq then EmptyString
      else String c (json_string_body false r)
  end.

Definition json_string (s : string) : string :=
  match s with
  | String c r => if Ascii.eqb c dq then json_string_body false r else EmptyString
  | EmptyString => EmptyString
  end.

(** A source line without the line feed that ends it. *)
Definition chomp (s : string) : string :=
  match rev s with
  | String c r => if Ascii.eqb c nl then rev r else s
  | EmptyString => s
  end.

Record reader := Reader {
  current : cell_type;      (* the [cell_type] last seen *)
  in_source : bool;         (* inside a [source] array *)
  pending : list string;    (* its lines so far, last first *)
  finished : list cell      (* the cells read, last first *)
}.

Definition key_cell_markdown : string := caret_to_quote "^cell_type^: ^markdown^".
Definition key_cell_code : string := caret_to_quote "^cell_type^: ^code^".
Definition key_source : string := caret_to_quote "^source^: [".
Definition key_source_empty : string := caret_to_quote "^source^: []".

Definition read_line (r : reader) (line : string) : reader :=
  let t := lstrip line in
  if in_source r then
    if startswith t "]" then
      Reader (current r) false []
             (Cell (current r) (List.rev (pending r)) :: finished r)
    else
      Reader (current r) true (chomp (json_string t) :: pending r) (finished r)
  else if startswith t key_cell_markdown then
    Reader Markdown false [] (finished r)
  else if startswith t key_cell_code then
    Reader Code false [] (finished r)
  else if startswith t key_source_empty then
    Reader (current r) false [] (Cell (current r) [] :: finished r)
  else if startswith t key_source then
    Reader (current r) true [] (finished r)
  else r.

Definition cells (file : list string) : list cell :=
  List.rev (finished (fold_left read_line file (Reader Markdown false [] []))).

Definition code_cells (file : list string) : list (list string) :=
  List.map source (List.filter is_code (cells file)).

End Ipynb.

(** ** Python, as far as the layout of a code cell shows it *)

Module Py.
Import Text.

Definition is_blank (l : string) : bool := String.eqb (lstrip l) EmptyString.
Definition is_comment (l : string) : bool := startswith (lstrip l) "#".
Definition is_magic (l : string) : bool := startswith (lstrip l) "%".

(** [import m] and [from m import x] *)
Definition is_import (l : string) : bool :=
  let t := lstrip l in
  startswith t "import " || (startswith t "from " && contains " import " t).

(** The statement on line [l] starts with the keyword [kw]. *)
Definition keyword (kw l : string) : bool :=
  let t := lstrip l in
  startswith t kw
  && match drop (String.length kw) t with
     | EmptyString => true
     | String c _ => Ascii.eqb c sp || Ascii.eqb c ":"%char || Ascii.eqb c "("%char
     end.

(** Occurrences of [needle] in [s], left to right, without overlap. *)
Fixpoint count_from (needle : string) (skip : nat) (s : string) : nat :=
  match s with
  | EmptyString => 0
  | String _ r =>
      match skip with
      | S k => count_from needle k r
      | O => if startswith s needle
             then S (count_from needle (String.length needle - 1) r)
             else count_from needle 0 r
      end
  end.

Definition triple_quotes (l : string) : nat :=
  count_from (caret_to_quote "^^^") 0 l + count_from "'''" 0 l.

Inductive line_class := Blank | Comment | Docstring | Magic | Import | Statement.

Definition line_class_eqb (a b : line_class) : bool :=
  match a, b with
  | Blank, Blank | Comment, Comment | Docstring, Docstring
  | Magic, Magic | Import, Import | Statement, Statement => true
  | _, _ => false
  end.

(** The lines of a cell with their classes.  [inside] says that a
    triple-quoted string is open at the start of the line. *)
Fixpoint classify_from (inside : bool) (ls : list string) : list (line_class * string) :=
  match ls with
  | [] => []
  | l :: r =>
      let toggles := Nat.odd (triple_quotes l) in
      if inside then (Docstring, l) :: classify_from (negb toggles) r
      else if is_blank l then (Blank, l) :: classify_from false r
      else if is_comment l then (Comment, l) :: classify_from false r
      else if Nat.ltb 0 (triple_quotes l) then (Docstring, l) :: classify_from toggles r
      else if is_magic l then (Magic, l) :: classify_from false r
      else if is_import l then (Import, l) :: classify_from false r
      else (Statement, l) :: classify_from false r
  end.

Definition classify (cell : list string) : list (line_class * string) :=
  classify_from false cell.

Definition is_code_class (c : line_class) : bool :=
  match c with
  | Magic | Import | Statement => true
  | Blank | Comment | Docstring => false
  end.

(** The lines of a cell that are code: not blank, not a comment, not
    part of a docstring. *)
Definition code_lines (cell : list string) : list string :=
  List.map snd (List.filter (fun cl => is_code_class (fst cl)) (classify cell)).

Definition lines_of_class (c : line_class) (cell : list string) : list string :=
  List.map snd (List.filter (fun cl => line_class_eqb (fst cl) c) (classify cell)).

(** The suite of a compound statement whose header is indented by [ind]:
    the lines that follow, as long as they are blank or indented deeper. *)
Fixpoint suite (ind : nat) (ls : list (line_class * string)) : list string :=
  match ls with
  | [] => []
  | (_, l) :: r => if is_blank l || Nat.ltb ind (indent l) then l :: suite ind r else []
  end.

(** Every statement among the classified lines that starts with [kw],
    with its suite. *)
Fixpoint compound_from (kw : string) (ls : list (line_class * string))
  : list (string * list string) :=
  match ls with
  | [] => []
  | (c, l) :: r =>
      (if line_class_eqb c Statement && keyword kw l
       then [(l, suite (indent l) r)] else [])
      ++ compound_from kw r
  end.

Definition compound (kw : string) (cell : list string) : list (string * list string) :=
  compound_from kw (classify cell).

(** [name] in [def name(...] *)
Fixpoint upto_paren (s : string) : string :=
  match s with
  | EmptyString => EmptyString
  | String c r => if Ascii.eqb c "("%char then EmptyString else String c (upto_paren r)
  end.

Definition def_name (header : string) : string :=
  upto_paren (drop 4 (lstrip header)).

(** The functions a notebook defines: name, header line and suite. *)
Definition functions (nb : list string) : list (string * list string) :=
  flat_map (fun cell =>
              List.map (fun hs => (def_name (fst hs), fst hs :: snd hs))
                       (compound "def" cell))
           (Ipynb.code_cells nb).

(** Number of code lines of a notebook, over all its code cells. *)
Definition code_line_count (nb : list string) : nat :=
  list_sum (List.map (fun cell => List.length (code_lines cell)) (Ipynb.code_cells nb)).

End Py.

(** ** The table of contents: from the lines of [_toc.yml] to its entries *)

Module Toc.
Import Text.

(** What one line of the file says.  [FileRef] and [Sections] keep the
    indentation of the line: it tells a chapter from a section. *)
Inductive item :=
| Format (v : string)
| Root (v : string)
| Parts
| Caption (v : string)
| Chapters
| Sections (ind : nat)
| FileRef (ind : nat) (v : string)
| Other (line : string).

Definition value_after (key t : string) : string :=
  strip (drop (String.length key) t).

Definition read_item (line : string) : item :=
  let t := strip line in
  if startswith t "format:" then Format (value_after "format:" t)
  else if startswith t "root:" then Root (value_after "root:" t)
  else if String.eqb t "parts:" then Parts
  else if startswith t "- caption:" then Caption (value_after "- caption:" t)
  else if String.eqb t "chapters:" then Chapters
  else if String.eqb t "sections:" then Sections (indent line)
  else if startswith t "- file:" then FileRef (indent line) (value_after "- file:" t)
  else Other line.

Definition is_content (line : string) : bool :=
  negb (String.eqb (strip line) EmptyString) && negb (startswith (lstrip line) "#").

Definition items (file : list string) : list item :=
  List.map read_item (List.filter is_content file).

Record entry := Entry { page : string; sections : list string }.
Record part := Part { caption : string; chapters : list entry }.
Record toc := MkToc { format : string; root : string; parts : list part }.

(** The parts read so far, last first (and so the chapters of a part and
    the sections of a chapter); [wants_chapters] after a caption, until
    its [chapters:] line; [under] is the indentation of the [sections:]
    line the reader is below, if any. *)
Record builder := Builder {
  built : list part;
  wants_chapters : bool;
  under : option nat
}.

Definition add_chapter (f : string) (ps : list part) : option (list part) :=
  match ps with
  | Part c chs :: rest => Some (Part c (Entry f [] :: chs) :: rest)
  | [] => None
  end.

Definition add_section (f : string) (ps : list part) : option (list part) :=
  match ps with
  | Part c (Entry p secs :: chs) :: rest =>
      Some (Part c (Entry p (f :: secs) :: chs) :: rest)
  | _ => None
  end.

Definition has_chapter (ps : list part) : bool :=
  match ps with
  | Part _ (_ :: _) :: _ => true
  | _ => false
  end.

Definition add_item (b : builder) (it : item) : option builder :=
  match it with
  | Caption c =>
      if wants_chapters b then None
      else Some (Builder (Part c [] :: built b) true None)
  | Chapters =>
      if wants_chapters b then Some (Builder (built b) false None) else None
  | Sections ind =>
      if negb (wants_chapters b) && has_chapter (built b)
      then Some (Builder (built b) false (Some ind)) else None
  | FileRef ind f =>
      if wants_chapters b then None
      else
        match under b with
        | Some k =>
            if Nat.ltb k ind
            then ps ← add_section f (built b); Some (Builder ps false (Some k))
            else ps ← add_chapter f (built b); Some (Builder ps false None)
        | None => ps ← add_chapter f (built b); Some (Builder ps false None)
        end
  | Format _ | Root _ | Parts | Other _ => None
  end.

Fixpoint add_items (b : builder) (its : list item) : option builder :=
  match its with
  | [] => Some b
  | it :: rest => b' ← add_item b it; add_items b' rest
  end.

Definition in_order (p : part) : part :=
  Part (caption p)
       (List.rev (List.map (fun e => Entry (page e) (List.rev (sections e))) (chapters p))).

(** The table of contents a file holds, if it is one. *)
Definition read (file : list string) : option toc :=
  match items file with
  | Format f :: Root r :: Parts :: rest =>
      b ← add_items (Builder [] false None) rest;
      if wants_chapters b then None
      else Some (MkToc f r (List.rev (List.map in_order (built b))))
  | _ => None
  end.

(** Every page an entry names, chapters and sections alike. *)
Definition pages (t : toc) : list string :=
  flat_map (fun p => flat_map (fun e => page e :: sections e) (chapters p)) (parts t).

Definition is_notebook_or_markdown (f : string) : bool :=
  endswith f ".ipynb" || endswith f ".md".

End Toc.

(** ** The world a cell runs in *)

Module World.

(** A value of a query dictionary. *)
Inductive value :=
| Num (x : float)
| Str (s : string).

(** What a run does that can be seen from outside, in order. *)
Inductive event :=
| HttpGet (url : string) (params : list (string * value))
| FileOpen (path : string)
| FileWrite (path : string) (data : list byte)
| FileClose (path : string)
| SaveMovie (path : string)
| Print (text : string).

(** The files on disk and the events so far, first first. *)
Record world := World { disk : gmap string (list byte); log : list event }.

(** The exceptions a run ends with.  [OSError name path] stands for the
    [OSError]s a file can be refused with besides [FileNotFoundError]:
    [PermissionError], [IsADirectoryError] and the like, by name. *)
Inductive exn :=
| ValueError (msg : string)
| KeyError (key : string)
| FileNotFoundError (path : string)
| OSError (name path : string)
| RequestException.

Inductive outcome (A : Type) :=
| Return (a : A)
| Raise (e : exn).
Arguments Return {A} a.
Arguments Raise {A} e.

(** A computation: from a world to an outcome and the world after. *)
Definition run (A : Type) : Type := world -> outcome A * world.

Definition ret {A} (a : A) : run A := fun w => (Return a, w).

Definition raise {A} (e : exn) : run A := fun w => (Raise e, w).

Definition bind {A B} (c : run A) (k : A -> run B) : run B :=
  fun w =>
    match c w with
    | (Return a, w') => k a w'
    | (Raise e, w') => (Raise e, w')
    end.

(** [try: c / except: handler]; the handler takes the exceptions it
    answers [Some] to and lets the others pass. *)
Definition try_except {A} (c : run A) (handler : exn -> option (run A)) : run A :=
  fun w =>
    match c w with
    | (Return a, w') => (Return a, w')
    | (Raise e, w') =>
        match handler e with
        | Some h => h w'
        | None => (Raise e, w')
        end
    end.

Definition emit (e : event) : run unit :=
  fun w => (Return tt, World (disk w) (log w ++ [e])).

(** [os.path.exists(path)] *)
Definition path_exists (path : string) : run bool :=
  fun w => (Return (bool_decide (is_Some (disk w !! path))), w).

(** What [open] raises for a path that is no name of a file, whatever
    the files are: [ValueError] for a NUL in the path, [FileNotFoundError]
    for the empty path. *)
Definition malformed (path : string) : option exn :=
  if Text.contains (String "000"%char EmptyString) path
  then Some (ValueError "embedded null byte")
  else if String.eqb path EmptyString
  then Some (FileNotFoundError path)
  else None.

(** What [open(path, "wb")] raises, [None] when it opens the file.
    [refused] is the answer of the file system for the paths that are
    names: [FileNotFoundError] when the directory is missing,
    [PermissionError], [IsADirectoryError] and so on.  The cells make and
    remove no directory, so the answer is the same throughout a run. *)
Definition open_error (refused : string -> option exn) (path : string) : option exn :=
  match malformed path with
  | Some e => Some e
  | None => refused path
  end.

(** [open(path, "wb")]: the exception, or else the file is created, or
    emptied if it is there. *)
Definition open_wb (refused : string -> option exn) (path : string) : run unit :=
  fun w =>
    match open_error refused path with
    | Some e => (Raise e, w)
    | None => (Return tt, World (<[path := []]> (disk w)) (log w ++ [FileOpen path]))
    end.

(** [fh.write(data)] on the file opened at [path] *)
Definition write (path : string) (data : list byte) : run unit :=
  fun w =>
    (Return tt,
     World (<[path := default [] (disk w !! path) ++ data]> (disk w))
           (log w ++ [FileWrite path data])).

(** [fh.close()] *)
Definition close (path : string) : run unit := emit (FileClose path).

(** [print(text)] *)
Definition print (text : string) : run unit := emit (Print text).

Definition is_get (e : event) : bool :=
  match e with HttpGet _ _ => true | _ => false end.

End World.

Notation "x <- c ;; k" := (World.bind c (fun x => k))
  (at level 100, c at next level, right associativity).
Notation "c ;; k" := (World.bind c (fun _ => k))
  (at level 100, right associativity).

(** ** [getdss]: the DSS cutout of the TESS overlay notebook *)

Module Dss.
Import Text World.

(** [url] and [plateDict], the two globals of the cell. *)
Definition url : string := "https://archive.stsci.edu/cgi-bin/dss_search".

Definition plateDict : list (string * string) :=
  [ ("red", "2r");
    ("blue", "2b");
    ("ukred", "poss2ukstu_red");
    ("ukblue", "poss2ukstu_blue") ].

(** [ra, dec = 66.582618, -67.806508], the target of the notebook, as
    the floats Python reads the two literals as. *)
Definition notebook_ra : float := 0x1.0a5499d0203e6p+6%float.
Definition notebook_dec : float := (-0x1.0f39dd3bafd97p+6)%float.

(** [d[k]] *)
Definition getitem (d : list (string * string)) (k : string) : run string :=
  match List.find (fun kv => String.eqb (fst kv) k) d with
  | Some kv => ret (snd kv)
  | None => raise (KeyError k)
  end.

(** [d.keys()] *)
Definition keys (d : list (string * string)) : list string := List.map fst d.

(** [b"SIMPLE  ="] *)
Definition fits_signature : list byte := list_byte_of_string "SIMPLE  =".

(** [content.startswith(prefix)] on bytes *)
Fixpoint bytes_startswith (content prefix : list byte) : bool :=
  match prefix, content with
  | [], _ => true
  | p :: prefix', c :: content' => Byte.eqb p c && bytes_startswith content' prefix'
  | _ :: _, [] => false
  end.

(** [if x:] for an optional string: neither [None] nor empty. *)
Definition truthy (x : option string) : bool :=
  match x with
  | Some s => negb (String.eqb s EmptyString)
  | None => false
  end.

Section Getdss.

(** [format_6f x] is ["{:.6f}".format(x)], [path_join] is
    [os.path.join], and [service u p] is what [requests.get(u, params=p)]
    gives: the body the server answers with, or the exception raised
    when the request itself fails.  [refused] is the file system's
    answer to [open], as in [World.open_error]. *)
Variable format_6f : float -> string.
Variable path_join : string -> string -> string.
Variable service : string -> list (string * value) -> outcome (list byte).
Variable refused : string -> option exn.

(** [requests.get(url, params=params).content] *)
Definition requests_get (url : string) (params : list (string * value))
  : run (list byte) :=
  emit (HttpGet url params) ;;
  (fun w => (service url params, w)).

(** "set defaults for height & width" *)
Definition set_defaults (height width : option float) : float * float :=
  match height with
  | None =>
      match width with
      | Some w => (w, w)
      | None => (7%float, 7%float)
      end
  | Some h =>
      match width with
      | None => (h, h)
      | Some w => (h, w)
      end
  end.

(** [vplate]: the [try] around [plateDict[plate]] *)
Definition vplate_of (plate : string) : run string :=
  try_except
    (getitem plateDict plate)
    (fun e =>
       match e with
       | KeyError _ =>
           Some (raise (ValueError
             ("Illegal plate value '" +:+ plate +:+ "'" +:+ String nl EmptyString
              +:+ "Should be one of " +:+ join ", " (keys plateDict))))
       | _ => None
       end).

(** "construct filename" *)
Definition construct_filename (ra dec : float) (plate : string)
           (filename directory : option string) : string :=
  let filename :=
    match filename with
    | None => "dss_" +:+ plate +:+ "_" +:+ format_6f ra +:+ "_" +:+ format_6f dec +:+ ".fits"
    | Some f => f
    end in
  if truthy directory
  then path_join (default EmptyString directory) filename
  else filename.

(** [params] *)
Definition params_of (ra dec : float) (vplate : string) (height width : float)
  : list (string * value) :=
  [ ("r", Num ra);
    ("d", Num dec);
    ("v", Str vplate);
    ("e", Str "J2000");
    ("h", Num height);
    ("w", Num width);
    ("f", Str "fits");
    ("c", Str "none");
    ("s", Str "yes") ].

Definition getdss (ra dec : float) (plate : string) (height width : option float)
           (filename directory : option string) : run string :=
  let '(height, width) := set_defaults height width in
  vplate <- vplate_of plate ;;
  let filename := construct_filename ra dec plate filename directory in
  let params := params_of ra dec vplate height width in
  content <- requests_get url params ;;
  if negb (bytes_startswith content fits_signature) then
    raise (ValueError ("No FITS file returned for " +:+ filename))
  else
    open_wb refused filename ;;
    write filename content ;;
    close filename ;;
    ret filename.

End Getdss.

End Dss.

(** ** The GIF cells of the TESS overlay notebook *)

Module Gif.
Import Text World.

Section Cells.

(** [movie f]: the bytes [tpf.save_movie] renders for the target pixel
    file [f].  [Image name files] is what [Image(name, embed=True)] of
    [IPython.display] gives for a name and the files there are: the
    picture the notebook shows as the value of the cell, or the exception
    it raises (it refuses a name whose extension is no picture format it
    embeds).  It reads and never writes. *)
Variable movie : string -> list byte.
Variable picture : Type.
Variable Image : string -> gmap string (list byte) -> outcome picture.

(** [tpf.save_movie(path, show_flags=True)] *)
Definition save_movie (tpf_filename path : string) : run unit :=
  fun w =>
    (Return tt,
     World (<[path := movie tpf_filename]> (disk w)) (log w ++ [SaveMovie path])).

(** [Image(path, embed=True)], the last line of the cell *)
Definition image (path : string) : run picture :=
  fun w => (Image path (disk w), w).

(** "create the gif" *)
Definition create_gif (tpf_filename : string) : run string :=
  let gif := replace tpf_filename ".fits" ".gif" in
  present <- path_exists gif ;;
  (if negb present then save_movie tpf_filename gif else ret tt) ;;
  ret gif.

(** "display the gif" *)
Definition display_gif (gif : string) : run picture :=
  present <- path_exists gif ;;
  (if negb present
   then print "No gif found. Cannot display gif of time-series."
   else ret tt) ;;
  image gif.

End Cells.

Arguments image {picture} Image path.
Arguments display_gif {picture} Image gif.

End Gif.

(** ** The ephemeris cells of the wildcard-searches notebook *)

Module Ephemeris.

Section Tables.

(** The values of a table, the order [numpy] compares them by, and
    [argsort]: [numpy.argsort] on one column, as [Table.sort] calls it
    (the cells pass no [kind], so the sort is [numpy]'s default). *)
Variable V : Type.
Variable leb : V -> V -> bool.
Variable argsort : list V -> list nat.

(** A table: its columns, in order, by name. *)
Definition table : Type := list (string * list V).

(** [t[name]]; [None] for the [KeyError]. *)
Definition column (name : string) (t : table) : option (list V) :=
  snd <$> List.find (fun c => String.eqb (fst c) name) t.

(** [col.take(idx)] *)
Definition take (idx : list nat) (col : list V) : list V :=
  omap (fun i => col !! i) idx.

(** [t.sort(key)]: the rows of every column in the order [argsort]
    gives for the key column; [None] when the table has no such column
    ([Table.sort] raises then, a [ValueError]). *)
Definition sort (key : string) (t : table) : option table :=
  keys ← column key t;
  Some (List.map (fun c => (fst c, take (argsort keys) (snd c))) t).

(** [Table([t["s_ra"], t["s_dec"], t["t_min"]], names=("ra", "dec", "t_min"))];
    [None] when one of the three lookups raises its [KeyError]. *)
Definition ephemeris_of (t : table) : option table :=
  ra ← column "s_ra" t;
  dec ← column "s_dec" t;
  t_min ← column "t_min" t;
  Some [("ra", ra); ("dec", dec); ("t_min", t_min)].

(** The three cells in order: [filtered_observations.sort("t_min")],
    the construction of [ephemeris], [ephemeris.sort("t_min")].  The
    result is the ephemeris before and after its sort, [None] when one of
    the cells raised. *)
Definition cells (filtered_observations : table) : option (table * table) :=
  sorted ← sort "t_min" filtered_observations;
  ephemeris ← ephemeris_of sorted;
  resorted ← sort "t_min" ephemeris;
  Some (ephemeris, resorted).

Definition le (a b : V) : Prop := leb a b = true.

(** What [argsort] promises: a permutation of the row numbers that
    puts the keys in non-decreasing order. *)
Definition sorts : Prop :=
  forall keys : list V,
    Permutation (argsort keys) (seq 0 (length keys))
    /\ Sorted le (take (argsort keys) keys).

(** What a sort that keeps the rows with equal keys in their order does
    besides: it finds nothing to move in a column that is in order. *)
Definition keeps_sorted : Prop :=
  forall keys : list V, Sorted le keys -> argsort keys = seq 0 (length keys).

End Tables.

Arguments column {V} name t.
Arguments take {V} idx col.
Arguments sort {V} argsort key t.
Arguments ephemeris_of {V} t.
Arguments cells {V} argsort filtered_observations.
Arguments le {V} leb a b.
Arguments sorts {V} leb argsort.
Arguments keeps_sorted {V} leb argsort.

(** A sort that keeps both promises: it inserts the rows one by one, the
    last row first, each before the first row whose key is not less. *)
Section Insertion.

Variable V : Type.
Variable leb : V -> V -> bool.

Definition goes_before (x y : V * nat) : bool := leb (fst x) (fst y).

Fixpoint insert (x : V * nat) (l : list (V * nat)) : list (V * nat) :=
  match l with
  | [] => [x]
  | y :: r => if goes_before x y then x :: l else y :: insert x r
  end.

Definition insertion_argsort (keys : list V) : list nat :=
  List.map snd (fold_right insert [] (combine keys (seq 0 (length keys)))).

(** The order of the numbered rows: by key alone. *)
Definition by_key (x y : V * nat) : Prop := leb (fst x) (fst y) = true.

End Insertion.

Arguments goes_before {V} leb x y.
Arguments insert {V} leb x l.
Arguments insertion_argsort {V} leb keys.
Arguments by_key {V} leb x y.

(** Rows with equal keys keep their order. *)
Definition stable_argsort : list Z -> list nat := insertion_argsort Z.leb.

End Ephemeris.

(** ** What the notebooks contain: the readings the properties are about *)

Module Survey.
Import Text.

Definition template : list string := Repo.notebook_template_ipynb.
Definition tess_overlay : list string := Repo.interm_tesscut_dss_overlay_ipynb.
Definition wildcard : list string := Repo.wildcard_searches_ipynb.
Definition rotation_solutions : list string := Repo.part_000.

(** [word] occurs in some line of some file. *)
Definition mentioned (word : string) : bool :=
  existsb (fun f => existsb (contains word) (Repo.lines f)) Repo.files.

(** *** The notebooks the table of contents names, and those at hand *)

Definition toc_notebooks : list string :=
  match Toc.read Repo.toc_yml with
  | Some t => List.filter (fun f => endswith f ".ipynb") (Toc.pages t)
  | None => []
  end.

(** The page is the path of one of the files. *)
Definition at_hand (page : string) : bool :=
  existsb (fun f => match Repo.path f with
                    | Some p => String.eqb p page
                    | None => false
                    end)
          Repo.files.

(** *** [try] statements *)

(** The suites of the [try] statements of a notebook. *)
Definition try_suites (nb : list string) : list (list string) :=
  flat_map (fun cell => List.map snd (Py.compound "try" cell)) (Ipynb.code_cells nb).

(** The names the notebooks reach the archives through: the query
    classes of [astroquery] they import, and [requests.get]. *)
Definition archive_apis : list string :=
  [ "Tesscut."; "Catalogs."; "Observations."; "Mast."; "MPC."; "requests.get" ].

(** A call to one of them on line [l]. *)
Definition calls_archive (l : string) : bool :=
  existsb (fun api => contains api l && contains "(" l) archive_apis.

(** The suite is one statement, and that statement calls an archive. *)
Definition wraps_one_archive_call (suite : list string) : bool :=
  match Py.code_lines suite with
  | [l] => calls_archive l
  | _ => false
  end.

(** *** Size *)

(** All the lines of the code cells, blank and comment lines included. *)
Definition cell_line_count (nb : list string) : nat :=
  list_sum (List.map (fun cell => List.length cell) (Ipynb.code_cells nb)).

(** *** Functions and classes *)

Definition functions : list (string * list string) :=
  flat_map Py.functions Repo.notebooks.

Definition class_statements : list string :=
  flat_map (fun nb => flat_map (fun cell => List.map fst (Py.compound "class" cell))
                               (Ipynb.code_cells nb))
           Repo.notebooks.

(** The statements that make a data type without the word [class]. *)
Definition structure_makers (nb : list string) : list string :=
  flat_map (fun cell =>
              List.filter (fun l => existsb (fun w => contains w l)
                                            [ "namedtuple"; "dataclass"; "Enum";
                                              "TypedDict"; "NewType"; "type("; "__slots__" ])
                          (Py.code_lines cell))
           (Ipynb.code_cells nb).

(** The header of a function up to the colon that ends it. *)
Fixpoint signature (ls : list string) : list string :=
  match ls with
  | [] => []
  | l :: r => if endswith (rstrip l) ":" then [l] else l :: signature r
  end.

(** The code lines of a function after its header. *)
Definition body (f : string * list string) : list string :=
  List.skipn (List.length (signature (snd f))) (Py.code_lines (snd f)).

(** The line without the text of its string literals (the quotes
    stay).  [inside] is the quote of the literal the reader is in. *)
Fixpoint outside_strings (inside : option ascii) (escaped : bool) (s : string) : string :=
  match s with
  | EmptyString => EmptyString
  | String c r =>
      match inside with
      | Some q =>
          if escaped then outside_strings inside false r
          else if Ascii.eqb c "\"%char then outside_strings inside true r
          else if Ascii.eqb c q then String c (outside_strings None false r)
          else outside_strings inside false r
      | None =>
          if Ascii.eqb c dq || Ascii.eqb c "'"%char
          then String c (outside_strings (Some c) false r)
          else String c (outside_strings None false r)
      end
  end.

Definition code_of (l : string) : string := outside_strings None false l.

Definition starts_with_any (kws : list string) (l : string) : bool :=
  existsb (fun kw => Py.keyword kw l) kws.

(** [for] and [while] statements, and comprehensions. *)
Definition loops (f : string * list string) : list string :=
  List.filter (fun l => starts_with_any ["for"; "while"] l
                        || contains " for " (code_of l))
              (body f).

(** The same for the code of a whole notebook, outside functions too. *)
Definition cell_loops (nb : list string) : list string :=
  flat_map (fun cell =>
              List.filter (fun l => starts_with_any ["for"; "while"] l
                                    || contains " for " (code_of l))
                          (Py.code_lines cell))
           (Ipynb.code_cells nb).

(** Calls to a function the notebooks define. *)
Definition calls_to_own (f : string * list string) : list string :=
  List.filter (fun l => existsb (fun g => contains (fst g +:+ "(") (code_of l)) functions)
              (body f).

(** The text left of the first [=] of the line, when the line is an
    assignment: no parenthesis opens before that [=]. *)
Fixpoint target_from (s : string) : option string :=
  match s with
  | EmptyString => None
  | String c r =>
      if Ascii.eqb c "="%char then Some EmptyString
      else if Ascii.eqb c "("%char then None
      else String c <$> target_from r
  end.

(** An assignment into an object that outlives the call: a subscript
    or an attribute on the left of [=]. *)
Definition stores_into_object (l : string) : bool :=
  match target_from (lstrip (code_of l)) with
  | Some t => contains "[" t || contains "." t
  | None => false
  end.

(** A list or a dictionary as the default of a parameter. *)
Definition mutable_default (l : string) : bool :=
  contains "=[" l || contains "={" l || contains "= [" l || contains "= {" l.

(** What could carry state from one call to the next: [global] and
    [nonlocal], stores into objects, mutable defaults. *)
Definition state_carriers (f : string * list string) : list string :=
  List.filter (fun l => starts_with_any ["global"; "nonlocal"] l || stores_into_object l)
              (body f)
  ++ List.filter mutable_default (signature (snd f)).

(** The lines of a function that name one of the two globals defined
    beside [getdss], the only names the two functions could share with a
    later call. *)
Definition uses_of_globals (f : string * list string) : list string :=
  List.filter (fun l => contains "plateDict" (code_of l) || contains "url" (code_of l))
              (body f).

(** The statements that branch. *)
Definition branches (f : string * list string) : list string :=
  List.filter (starts_with_any ["if"; "elif"; "else"; "try"; "except"]) (body f).

(** *** Imports *)

Definition opens_with_imports (nb : list string) : bool :=
  match Ipynb.code_cells nb with
  | first :: _ =>
      forallb (fun cl => match fst cl with
                         | Py.Import | Py.Magic | Py.Comment | Py.Blank => true
                         | Py.Statement | Py.Docstring => false
                         end)
              (Py.classify first)
      && negb (Nat.eqb (List.length (Py.lines_of_class Py.Import first)) 0)
  | [] => false
  end.

(** The imports after the first code cell. *)
Definition late_imports (nb : list string) : list string :=
  flat_map (Py.lines_of_class Py.Import) (List.tail (Ipynb.code_cells nb)).

(** *** Tests on the disk *)

(** The lines of a notebook's code that ask whether a file exists. *)
Definition disk_tests (nb : list string) : list string :=
  flat_map (fun cell =>
              List.filter (fun l => contains "exists" l || contains "isfile" l
                                    || contains "isdir" l)
                          (Py.code_lines cell))
           (Ipynb.code_cells nb).

(** *** Requests, signatures, caches *)

Definition code_lines_with (words : list string) (nb : list string) : list string :=
  flat_map (fun cell =>
              List.filter (fun l => existsb (fun w => contains w l) words)
                          (Py.lines_of_class Py.Statement cell))
           (Ipynb.code_cells nb).

(** The statements that send a request themselves, through an HTTP
    client, rather than through a query class of [astroquery]. *)
Definition http_calls : list string -> list string :=
  code_lines_with [ "requests."; "urllib"; "urlopen"; "http.client"; "socket" ].

(** The statements that look at the bytes of a file or of a response. *)
Definition byte_tests : list string -> list string :=
  code_lines_with [ "startswith(b"; "SIMPLE"; ".read("; "struct." ].

(** The statements that name a cache. *)
Definition cache_mentions : list string -> list string :=
  code_lines_with [ "cache" ].

(** *** The files *)

Definition reads_as_toc (f : Repo.file) : bool :=
  match Toc.read (Repo.lines f) with Some _ => true | None => false end.

Definition under (dir : string) (f : Repo.file) : bool :=
  match Repo.path f with
  | Some p => startswith p dir
  | None => false
  end.

End Survey.

(** ** The other cells whose outcome depends on what they are given *)

(** *** The two cells of the TESS overlay notebook around the download *)

Module Tesscut.

Inductive error :=
| NameError (name : string)
| IndexError.

(** The kernel, as far as these cells go: the variable [files] ([None]
    while the name is unbound) and what was printed, first first. *)
Record kernel := Kernel { files : option (list string); printed : list string }.

Section Cells.

(** [show_table paths] is what [print(table)] shows for the table whose
    "Local Path" column is [paths]. *)
Variable show_table : list string -> string.

(** The cell with the [try]: [answer] is what
    [Tesscut.download_cutouts] does, the message of the exception it
    raises or the "Local Path" column of the table it returns. *)
Definition download_cutouts (answer : string + list string) (k : kernel) : kernel :=
  match answer with
  | inl e =>
      Kernel (files k)
             (printed k ++ [ "Error: Could not download cutouts: " +:+ e ])
  | inr paths =>
      Kernel (Some paths) (printed k ++ [ show_table paths ])
  end.

(** [filename = files[0]], the first statement of the next cell. *)
Definition first_file (k : kernel) : error + string :=
  match files k with
  | None => inl (NameError "files")
  | Some [] => inl IndexError
  | Some (filename :: _) => inr filename
  end.

End Cells.

End Tesscut.

(** *** The cells of the TESS overlay notebook, one after the other *)

Module Overlay.
Import Text World.

(** The two messages of [getdss]. *)
Definition illegal_plate (plate : string) : string :=
  "Illegal plate value '" +:+ plate +:+ "'" +:+ String nl EmptyString
  +:+ "Should be one of red, blue, ukred, ukblue".

Definition no_fits_file (filename : string) : string :=
  "No FITS file returned for " +:+ filename.

Section Cells.

Variable movie : string -> list byte.
Variable picture : Type.
Variable Image : string -> gmap string (list byte) -> outcome picture.

(** "create the gif", then "display the gif". *)
Definition gif_cells (tpf_filename : string) : run picture :=
  gif <- Gif.create_gif movie tpf_filename ;;
  Gif.display_gif Image gif.

End Cells.

Arguments gif_cells movie {picture} Image tpf_filename.

End Overlay.

(** *** The light curve of the template notebook *)

Module Lightcurve.

Section Loop.

(** The values of a pixel. *)
Variable flux : Type.

(** An image: its rows. *)
Definition image : Type := list (list flux).

(** [img[r, c]]; [None] for the [IndexError]. *)
Definition pixel (r c : nat) (img : image) : option flux :=
  row ← img !! r; row !! c.

(** The body of the loop for each [idx] of [idxs]; [false] when a step
    raised [IndexError], with the list as it was then. *)
Fixpoint loop (data : list image) (idxs : list nat) (lightcurve : list flux)
  : bool * list flux :=
  match idxs with
  | [] => (true, lightcurve)
  | idx :: rest =>
      match data !! idx ≫= pixel 4 4 with
      | Some f => loop data rest (lightcurve ++ [ f ])
      | None => (false, lightcurve)
      end
  end.

(** [lightcurve = []], then [for idx in range(0, len(data))]. *)
Definition cell (data : list image) : bool * list flux :=
  loop data (seq 0 (length data)) [].

Definition has_pixel (img : image) : bool :=
  match pixel 4 4 img with Some _ => true | None => false end.

(** The images up to the first one without a pixel at (4, 4). *)
Fixpoint usable (data : list image) : list image :=
  match data with
  | [] => []
  | img :: rest => if has_pixel img then img :: usable rest else []
  end.

End Loop.

Arguments pixel {flux} r c img.
Arguments loop {flux} data idxs lightcurve.
Arguments cell {flux} data.
Arguments has_pixel {flux} img.
Arguments usable {flux} data.

End Lightcurve.

(** *** The prerequisite cells of the rotation solutions *)

Module Sectors.

Inductive error :=
| NameError (name : string)
| IndexError
| FileNotFoundError (path : string).

(** [f"{objname}_{i}.fits"] *)
Definition cutout_name (objname : string) (i : nat) : string :=
  objname +:+ "_" +:+ pretty i +:+ ".fits".

Section Cells.

(** A cutout as [Tesscut.get_cutouts] returns it, a target pixel file
    and a light curve, with what the libraries do with them:
    [fits_bytes] is what [writeto] writes, [read_tpf] what
    [lk.TessTargetPixelFile] makes of a file. *)
Variables HDUList TPF LC : Type.
Variable fits_bytes : HDUList -> list byte.
Variable read_tpf : list byte -> TPF.
Variable to_lightcurve : TPF -> LC.
Variable truncate_after : nat -> LC -> LC.
Variable truncate_before : nat -> LC -> LC.
Variable remove_outliers : nat -> LC -> LC.

(** The kernel: the disk and the variables [tpfc], [lcc] and [lc],
    [None] while unbound. *)
Record kernel := Kernel {
  disk : gmap string (list byte);
  tpfc : option (list TPF);
  lcc : option (list LC);
  lc : option LC
}.

(** [hdulist[i].writeto(f"{objname}_{i}.fits", overwrite=True)] for each
    [i] of [idxs]. *)
Fixpoint write_cutouts (objname : string) (hdulist : list HDUList) (idxs : list nat)
         (d : gmap string (list byte)) : error + gmap string (list byte) :=
  match idxs with
  | [] => inr d
  | i :: rest =>
      match hdulist !! i with
      | Some hdu =>
          write_cutouts objname hdulist rest (<[cutout_name objname i := fits_bytes hdu]> d)
      | None => inl IndexError
      end
  end.

(** The second loop: each file is read back, and [tpfc] is made at
    [i==0] and appended to afterwards. *)
Fixpoint read_cutouts (objname : string) (idxs : list nat)
         (d : gmap string (list byte)) (c : option (list TPF))
  : error + option (list TPF) :=
  match idxs with
  | [] => inr c
  | i :: rest =>
      match d !! cutout_name objname i with
      | None => inl (FileNotFoundError (cutout_name objname i))
      | Some bytes =>
          let tpf := read_tpf bytes in
          if Nat.eqb i 0 then read_cutouts objname rest d (Some [ tpf ])
          else
            match c with
            | Some collection => read_cutouts objname rest d (Some (collection ++ [ tpf ]))
            | None => inl (NameError "tpfc")
            end
      end
  end.

(** The cell that writes the cutouts and reads them back. *)
Definition cutouts_cell (objname : string) (hdulist : list HDUList) (k : kernel)
  : error + kernel :=
  let nsectors := length hdulist in
  match write_cutouts objname hdulist (seq 0 nsectors) (disk k) with
  | inl e => inl e
  | inr d =>
      match read_cutouts objname (seq 0 nsectors) d (tpfc k) with
      | inl e => inl e
      | inr c => inr (Kernel d c (lcc k) (lc k))
      end
  end.

(** The loop of the next cell: [lc] is the light curve of sector [i],
    and [lcc] is made at [i==0] and appended to afterwards. *)
Fixpoint lightcurves (idxs : list nat) (c : option (list TPF))
         (l : option (list LC)) (last : option LC)
  : error + (option (list LC) * option LC) :=
  match idxs with
  | [] => inr (l, last)
  | i :: rest =>
      match c with
      | None => inl (NameError "tpfc")
      | Some collection =>
          match collection !! i with
          | None => inl IndexError
          | Some tpf =>
              let curve := to_lightcurve tpf in
              if Nat.eqb i 0 then lightcurves rest c (Some [ curve ]) (Some curve)
              else
                match l with
                | Some curves => lightcurves rest c (Some (curves ++ [ curve ])) (Some curve)
                | None => inl (NameError "lcc")
                end
          end
      end
  end.

(** [l[i] = f(l[i])] *)
Definition update (i : nat) (f : LC -> LC) (l : list LC) : error + list LC :=
  match l !! i with
  | Some x => inr (<[i := f x]> l)
  | None => inl IndexError
  end.

(** The cell that makes the light curves and trims the first two. *)
Definition lightcurves_cell (nsectors : nat) (k : kernel) : error + kernel :=
  match lightcurves (seq 0 nsectors) (tpfc k) (lcc k) (lc k) with
  | inl e => inl e
  | inr (None, _) => inl (NameError "lcc")
  | inr (Some curves, last) =>
      match update 0 (truncate_after 293) curves with
      | inl e => inl e
      | inr curves0 =>
          match update 1 (truncate_before 59) curves0 with
          | inl e => inl e
          | inr curves1 =>
              match update 1 (remove_outliers 2) curves1 with
              | inl e => inl e
              | inr curves2 => inr (Kernel (disk k) (tpfc k) (Some curves2) last)
              end
          end
      end
  end.

(** The two cells, one after the other; [nsectors] is the one the
    first cell sets. *)
Definition cells (objname : string) (hdulist : list HDUList) (k : kernel)
  : error + kernel :=
  match cutouts_cell objname hdulist k with
  | inl e => inl e
  | inr k' => lightcurves_cell (length hdulist) k'
  end.

End Cells.

Arguments Kernel {TPF LC} disk tpfc lcc lc.
Arguments disk {TPF LC} k.
Arguments tpfc {TPF LC} k.
Arguments lcc {TPF LC} k.
Arguments lc {TPF LC} k.

End Sectors.

(** *** The selection of the comet's observations *)

Module Observations.

Section Selection.

Variable V : Type.
Variable eqb : V -> V -> bool.

(** [col == value]: one boolean per row. *)
Definition equals (value : V) (col : list V) : list bool :=
  List.map (fun x => eqb x value) col.

(** [col[mask]]: the rows where the mask holds.  The columns of a
    table have one length, and so has the mask made from one of them. *)
Fixpoint select {A : Type} (mask : list bool) (col : list A) : list A :=
  match mask, col with
  | true :: m, x :: c => x :: select m c
  | false :: m, _ :: c => select m c
  | _, _ => []
  end.

(** [mask = t[name] == value], then [t[mask]]; [None] for the
    [KeyError]. *)
Definition where_equals (name : string) (value : V) (t : Ephemeris.table V)
  : option (Ephemeris.table V) :=
  col ← Ephemeris.column name t;
  Some (List.map (fun c => (fst c, select (equals value col) (snd c))) t).

(** The cells from the mask to the second sort of the ephemeris. *)
Definition comet_ephemeris (argsort : list V -> list nat) (comet : V)
           (observations : Ephemeris.table V)
  : option (Ephemeris.table V * Ephemeris.table V) :=
  filtered_observations ← where_equals "target_name" comet observations;
  Ephemeris.cells argsort filtered_observations.

End Selection.

Arguments equals {V} eqb value col.
Arguments select {A} mask col.
Arguments where_equals {V} eqb name value t.
Arguments comet_ephemeris {V} eqb argsort comet observations.

End Observations.

(** * Properties *)

Import Text.

(** Splits a conjunction of closed facts and evaluates each. *)
Ltac evaluate :=
  repeat match goal with |- _ /\ _ => split end;
  vm_compute; reflexivity.

(** ** The decoding of the files *)

(** Nothing is lost in the transcription: no line of a file holds the
    stand-in character once the quotes are restored. *)
Lemma no_caret_left : Survey.mentioned "^" = false.
Proof. vm_compute. reflexivity. Qed.

(** The first code cell of the wildcard-searches notebook, as read from
    its file. *)
Example wildcard_imports_cell :
  List.hd [] (Ipynb.code_cells Survey.wildcard)
  = [ "import astropy.units as u";
      "import matplotlib.pyplot as plt";
      "";
      "from astropy.coordinates import SkyCoord";
      "from astropy.table import Table, unique, vstack";
      "from astropy.time import Time";
      "from astroquery.mast import Observations" ].
Proof. vm_compute. reflexivity. Qed.

(** Cells, and code cells among them, per notebook. *)
Example cell_counts :
  List.map (fun nb => (List.length (Ipynb.cells nb), List.length (Ipynb.code_cells nb)))
           Repo.notebooks
  = [ (25, 8); (36, 16); (44, 13); (23, 14) ].
Proof. vm_compute. reflexivity. Qed.

(** The cell that creates the GIF, which [Gif.create_gif] follows. *)
Example gif_cell :
  List.nth 4 (Ipynb.code_cells Survey.tess_overlay) []
  = [ "# create the gif";
      "gif = tpf.filename.replace('.fits', '.gif')";
      "if not os.path.exists(gif):";
      "    tpf.save_movie(gif, show_flags=True)" ].
Proof. vm_compute. reflexivity. Qed.

(** The cell that defines [getdss], which [Dss] follows: the two globals,
    then the function. *)
Example getdss_cell :
  List.nth 10 (Ipynb.code_cells Survey.tess_overlay) []
  = List.map caret_to_quote
      [
        "url = ^https://archive.stsci.edu/cgi-bin/dss_search^";
        "plateDict = {^red^: ^2r^, ";
        "             ^blue^: ^2b^, ";
        "             ^ukred^: ^poss2ukstu_red^, ";
        "             ^ukblue^: ^poss2ukstu_blue^}";
        "";
        "def getdss(ra, dec, plate=^red^, height=None, width=None, ";
        "           filename=None, directory=None):";
        "";
        "    ^^^Extract DSS image at position and write a FITS file";
        "    ";
        "    ra, dec are J2000 coordinates in degrees";
        "    plate can be ^red^, ^blue^, ^ukred^, or ^ukblue^";
        "    height and width are in arcmin, default = 7.0.  Image is square if only one is specified.";
        "    filename specifies name for output file (default=^dss_{plate}_{ra}_{dec}.fits^)";
        "    directory is location for output file (default is current directory)";
        "    ";
        "    Returns the name of the file that was written";
        "    ^^^";
        "";
        "    # set defaults for height & width";
        "    if height is None:";
        "        if width is not None:";
        "            height = width";
        "        else:";
        "            height = 7.0";
        "            width = 7.0";
        "    elif width is None:";
        "        width = height";
        "";
        "    try:";
        "        vplate = plateDict[plate]";
        "    except KeyError:";
        "        raise ValueError(^Illegal plate value '{}'\nShould be one of {}^.format(";
        "            plate,', '.join(plateDict.keys())))";
        "";
        "    # construct filename";
        "    if filename is None:";
        "        filename = ^dss_{}_{:.6f}_{:.6f}.fits^.format(plate,ra,dec)";
        "    if directory:";
        "        filename = os.path.join(directory, filename)";
        "";
        "    params={^r^: ra,";
        "            ^d^: dec,";
        "            ^v^: vplate,";
        "            ^e^: ^J2000^,";
        "            ^h^: height,";
        "            ^w^: width,";
        "            ^f^:^fits^,";
        "            ^c^:^none^,";
        "            ^s^: ^yes^}";
        "    r = requests.get(url, params=params)";
        "";
        "    # read and format the output";
        "    value = r.content";
        "    if not r.content.startswith(b^SIMPLE  =^):";
        "        raise ValueError(^No FITS file returned for {}^.format(filename))";
        "    fhout = open(filename, ^wb^)";
        "    fhout.write(r.content)";
        "    fhout.close()";
        "    return filename" ].
Proof. vm_compute. reflexivity. Qed.

(** The cell that displays the GIF, which [Gif.display_gif] follows;
    [Image] is the one of [IPython.display], imported in the first
    cell. *)
Example display_gif_cell :
  List.nth 5 (Ipynb.code_cells Survey.tess_overlay) []
  = List.map caret_to_quote
      [
        "# display the gif";
        "if not os.path.exists(gif):";
        "    print(^No gif found. Cannot display gif of time-series.^)";
        "";
        "Image(gif, embed=True)" ].
Proof. vm_compute. reflexivity. Qed.

(** The three cells [Ephemeris.cells] follows. *)
Example ephemeris_cells :
  List.firstn 3 (List.skipn 8 (Ipynb.code_cells Survey.wildcard))
  = List.map (List.map caret_to_quote)
      [ [ "filtered_observations.sort(^t_min^)" ];
        [ "ephemeris = Table([filtered_observations[^s_ra^],";
          "                   filtered_observations[^s_dec^],";
          "                   filtered_observations[^t_min^]], names=(^ra^, ^dec^, ^t_min^))" ];
        [ "ephemeris.sort(^t_min^)";
          "ephemeris" ] ].
Proof. vm_compute. reflexivity. Qed.

(** ** The notebooks at hand *)

(** The table of contents names 62 notebooks.  One of them, the TESS
    overlay notebook, is among the files; the other three notebooks among
    the files are not pages it names by their path.  What follows about
    "the notebooks" is about the four at hand, [Repo.notebooks]. *)
Example notebooks_at_hand :
  List.length Survey.toc_notebooks = 62
  /\ List.filter Survey.at_hand Survey.toc_notebooks
     = [ "notebooks/TESS/interm_tesscut_dss_overlay/interm_tesscut_dss_overlay.ipynb" ]
  /\ List.length Repo.notebooks = 4.
Proof. evaluate. Qed.

(** ** C1: what the [try] statements wrap; words that never occur *)

(** C1, counterexample: the [try] of [getdss] is a [try] statement of the
    TESS overlay notebook, and what it wraps is the dictionary lookup
    [plateDict[plate]], not a call to an archive. *)
Lemma C1_getdss_try_wraps_a_lookup :
  exists suite,
    In suite (Survey.try_suites Survey.tess_overlay)
    /\ suite = [ "        vplate = plateDict[plate]" ]
    /\ Survey.wraps_one_archive_call suite = false.
Proof.
  exists [ "        vplate = plateDict[plate]" ].
  split; [ | split; [ reflexivity | vm_compute; reflexivity ] ].
  vm_compute. right. left. reflexivity.
Qed.

(** C1, as amended: the four notebooks at hand hold two [try]
    statements, both in the TESS overlay notebook, and each wraps a
    single statement.  One is the call to the archive through
    [Tesscut.download_cutouts]; the other, in [getdss], is the lookup
    [plateDict[plate]], which calls nothing.  The words "retries" and
    "backpressure" occur in no line of the five files at hand. *)
Theorem C1_try_statements_and_absent_words :
  List.map Survey.try_suites Repo.notebooks
  = [ [];
      [ [ "    table = Tesscut.download_cutouts(coordinates=cutout_coords, size=x, path=path)" ];
        [ "        vplate = plateDict[plate]" ] ];
      [];
      [] ]
  /\ Survey.wraps_one_archive_call
       [ "    table = Tesscut.download_cutouts(coordinates=cutout_coords, size=x, path=path)" ]
     = true
  /\ Py.code_lines [ "        vplate = plateDict[plate]" ]
     = [ "        vplate = plateDict[plate]" ]
  /\ contains "(" "        vplate = plateDict[plate]" = false
  /\ Survey.mentioned "retries" = false
  /\ Survey.mentioned "backpressure" = false.
Proof. evaluate. Qed.

(** ** C3: how much code a notebook holds *)

(** C3, counterexample: a notebook with more than 48 lines of code. *)
Lemma C3_a_notebook_exceeds_48_lines :
  exists nb, In nb Repo.notebooks /\ 48 < Py.code_line_count nb.
Proof.
  exists Survey.tess_overlay. split.
  - right. left. reflexivity.
  - assert (H : Py.code_line_count Survey.tess_overlay = 153)
      by (vm_compute; reflexivity).
    rewrite H. lia.
Qed.

(** C3, as amended: summed over its code cells, each of the four
    notebooks at hand holds at most 153 lines of code (blank lines,
    comments and docstrings left out): 36 in the template, 153 in the
    TESS overlay notebook, 41 in the wildcard-searches notebook and 78 in
    the rotation solutions.  With every line of the code cells counted
    the totals are 50, 257, 47 and 104. *)
Theorem C3_code_lines_per_notebook :
  List.map Py.code_line_count Repo.notebooks = [ 36; 153; 41; 78 ]
  /\ List.map Survey.cell_line_count Repo.notebooks = [ 50; 257; 47; 104 ]
  /\ Forall (fun nb => Py.code_line_count nb <= 153) Repo.notebooks.
Proof.
  assert (H : List.map Py.code_line_count Repo.notebooks = [ 36; 153; 41; 78 ])
    by (vm_compute; reflexivity).
  split; [ exact H | split; [ vm_compute; reflexivity | ] ].
  apply List.Forall_forall. intros nb Hnb.
  assert (Hin : In (Py.code_line_count nb) (List.map Py.code_line_count Repo.notebooks))
    by (apply in_map; exact Hnb).
  rewrite H in Hin. simpl in Hin.
  destruct Hin as [<- | [<- | [<- | [<- | []]]]]; lia.
Qed.

(** ** C8: the functions the notebooks define *)



(** ** C9: where the imports are *)

(** C9, counterexample: the rotation solutions import [MPC] in the cell
    of the last exercise, not in the first code cell. *)
Lemma C9_an_import_after_the_first_cell :
  Survey.late_imports Survey.rotation_solutions = [ "from astroquery.mpc import MPC" ].
Proof. vm_compute. reflexivity. Qed.

(** C9, as amended: the first code cell of each of the four notebooks at
    hand holds imports, and besides them only IPython magics, comments
    and blank lines.  Three of the notebooks import nothing after that
    cell; the rotation solutions import [MPC] later, in the cell that
    uses it. *)
Theorem C9_imports_open_each_notebook :
  forallb Survey.opens_with_imports Repo.notebooks = true
  /\ List.map Survey.late_imports Repo.notebooks
     = [ []; []; []; [ "from astroquery.mpc import MPC" ] ].
Proof. evaluate. Qed.

(** ** C10: the table of contents and the template *)

(** C10: one file of the repository is a table of contents, [_toc.yml].
    It declares a [jb-book] with root [intro] and eleven parts, each with
    a caption and chapters; its 73 entries are all [file:] references,
    to a notebook or to a markdown page.  One file lies under
    [contributing/notebook_template/], and it is a notebook. *)
Theorem C10_one_toc_and_one_template :
  exists t,
    Toc.read Repo.toc_yml = Some t
    /\ Toc.format t = "jb-book"
    /\ Toc.root t = "intro"
    /\ List.map Toc.caption (Toc.parts t)
       = [ "Astrocut"; "Astroquery"; "GALEX"; "HSC"; "IUE"; "JWST"; "Kepler";
           "K2"; "MCCM"; "PanSTARRS"; "TESS" ]
    /\ forallb (fun p => negb (Nat.eqb (List.length (Toc.chapters p)) 0)) (Toc.parts t) = true
    /\ List.length (Toc.pages t) = 73
    /\ forallb Toc.is_notebook_or_markdown (Toc.pages t) = true
    /\ List.map Repo.path (List.filter Survey.reads_as_toc Repo.files)
       = [ Some "_toc.yml" ]
    /\ List.map Repo.path
                (List.filter (Survey.under "contributing/notebook_template/") Repo.files)
       = [ Some "contributing/notebook_template/notebook_template.ipynb" ]
    /\ List.length (Ipynb.cells Survey.template) = 25.
Proof.
  destruct (Toc.read Repo.toc_yml) as [t|] eqn:E; [ | vm_compute in E; discriminate ].
  exists t. split; [ reflexivity | ].
  assert (Ht : Some t = Toc.read Repo.toc_yml) by (symmetry; exact E).
  vm_compute in Ht. injection Ht as ->.
  evaluate.
Qed.

(** ** [getdss], step by step *)

Import World.

(** An unknown plate: the message names the plates there are, and
    nothing was asked or written. *)
Example getdss_unknown_plate :
  Dss.getdss (fun _ => "0.000000") (fun a b => a +:+ "/" +:+ b)
             (fun _ _ => Return (list_byte_of_string "SIMPLE  =                    T"))
             (fun _ => None)
             0%float 0%float "green" None None None None (World ∅ [])
  = (Raise (ValueError
       ("Illegal plate value 'green'" +:+ String nl EmptyString
        +:+ "Should be one of red, blue, ukred, ukblue")),
     World ∅ []).
Proof. vm_compute. reflexivity. Qed.

(** A known plate and an answer that is not a FITS file: the request is
    in the log, and nothing was written. *)
Example getdss_not_a_fits_file :
  Dss.getdss (fun _ => "0.000000") (fun a b => a +:+ "/" +:+ b)
             (fun _ _ => Return (list_byte_of_string "<html>"))
             (fun _ => None)
             0%float 0%float "ukblue" (Some 2%float) None (Some "m31.fits") None
             (World ∅ [])
  = (Raise (ValueError "No FITS file returned for m31.fits"),
     World ∅
           [ HttpGet "https://archive.stsci.edu/cgi-bin/dss_search"
               [ ("r", Num 0%float); ("d", Num 0%float); ("v", Str "poss2ukstu_blue");
                 ("e", Str "J2000"); ("h", Num 2%float); ("w", Num 2%float);
                 ("f", Str "fits"); ("c", Str "none"); ("s", Str "yes") ] ]).
Proof. vm_compute. reflexivity. Qed.

Section GetdssFacts.

Variable format_6f : float -> string.
Variable path_join : string -> string -> string.
Variable service : string -> list (string * value) -> outcome (list byte).
Variable refused : string -> option exn.

(** The plates of [plateDict] are the four the docstring lists, and the
    lookup fails on every other. *)
Lemma getitem_plateDict (plate : string) :
  (In plate [ "red"; "blue"; "ukred"; "ukblue" ]
   /\ existsb (String.eqb plate) (Dss.keys Dss.plateDict) = true
   /\ exists kv, List.find (fun kv => String.eqb (fst kv) plate) Dss.plateDict = Some kv
                 /\ Dss.getitem Dss.plateDict plate = ret (snd kv))
  \/ (~ In plate [ "red"; "blue"; "ukred"; "ukblue" ]
      /\ existsb (String.eqb plate) (Dss.keys Dss.plateDict) = false
      /\ List.find (fun kv => String.eqb (fst kv) plate) Dss.plateDict = None
      /\ Dss.getitem Dss.plateDict plate = raise (KeyError plate)).
Proof.
  unfold Dss.getitem, Dss.keys, Dss.plateDict. cbn [List.find List.map existsb fst snd].
  rewrite !(String.eqb_sym plate).
  destruct (String.eqb_spec "red" plate) as [<- | Hr];
    [ left; cbn; eauto 10 | ].
  destruct (String.eqb_spec "blue" plate) as [<- | Hb];
    [ left; cbn; eauto 10 | ].
  destruct (String.eqb_spec "ukred" plate) as [<- | Hur];
    [ left; cbn; eauto 10 | ].
  destruct (String.eqb_spec "ukblue" plate) as [<- | Hub];
    [ left; cbn; eauto 10 | ].
  right. cbn. repeat split; try reflexivity.
  intros [H | [H | [H | [H | []]]]]; congruence.
Qed.

(** [content.startswith(prefix)]: the content is the prefix and more. *)
Lemma bytes_startswith_prefix (content prefix : list byte) :
  Dss.bytes_startswith content prefix = true <-> exists rest, content = prefix ++ rest.
Proof.
  revert content. induction prefix as [| p prefix IH]; intros content.
  - split; [ intros _; exists content; reflexivity | ].
    intros _. destruct content; reflexivity.
  - destruct content as [| c content]; cbn [Dss.bytes_startswith].
    + split; [ discriminate | intros [rest H]; discriminate H ].
    + rewrite andb_true_iff, IH. split.
      * intros [Hpc [rest ->]]. apply Byte.byte_dec_bl in Hpc. subst c.
        exists rest. reflexivity.
      * intros [rest H]. cbn in H. injection H as -> ->.
        split; [ apply Byte.byte_dec_lb; reflexivity | exists rest; reflexivity ].
Qed.

(** Opening a file and writing [body] to it leaves exactly [body] there. *)
Lemma open_write_close (name : string) (body : list byte) (w : world) :
  open_error refused name = None ->
  (open_wb refused name ;; write name body ;; close name ;; ret name) w
  = (Return name,
     World (<[name := body]> (disk w))
           (log w ++ [ FileOpen name; FileWrite name body; FileClose name ])).
Proof.
  intros Hopen. unfold bind, open_wb, write, close, emit, ret. rewrite Hopen. cbn.
  rewrite lookup_insert_eq, insert_insert_eq. cbn.
  rewrite <- !app_assoc. reflexivity.
Qed.

(** A file that cannot be opened is not written. *)
Lemma open_raises (name : string) (body : list byte) (e : exn) (w : world) :
  open_error refused name = Some e ->
  (open_wb refused name ;; write name body ;; close name ;; ret name) w = (Raise e, w).
Proof. intros Hopen. unfold bind, open_wb. rewrite Hopen. reflexivity. Qed.

(** A run of [getdss] in full, case by case: the plate is unknown; the
    request fails; the body is not a FITS file; the file cannot be
    opened; the body is written. *)
Lemma getdss_exact ra dec plate height width filename directory (w : world) :
  let name := Dss.construct_filename format_6f path_join ra dec plate filename directory in
  Dss.getdss format_6f path_join service refused ra dec plate height width
             filename directory w
  = match List.find (fun kv => String.eqb (fst kv) plate) Dss.plateDict with
    | None => (Raise (ValueError (Overlay.illegal_plate plate)), w)
    | Some kv =>
        let q := Dss.params_of ra dec (snd kv)
                               (fst (Dss.set_defaults height width))
                               (snd (Dss.set_defaults height width)) in
        let asked := World (disk w) (log w ++ [ HttpGet Dss.url q ]) in
        match service Dss.url q with
        | Raise e => (Raise e, asked)
        | Return body =>
            if Dss.bytes_startswith body Dss.fits_signature
            then match open_error refused name with
                 | Some e => (Raise e, asked)
                 | None =>
                     (Return name,
                      World (<[name := body]> (disk w))
                            (log w ++ [ HttpGet Dss.url q; FileOpen name;
                                        FileWrite name body; FileClose name ]))
                 end
            else (Raise (ValueError (Overlay.no_fits_file name)), asked)
        end
    end.
Proof.
  intros name. unfold Dss.getdss.
  destruct (Dss.set_defaults height width) as [h x] eqn:Hs. cbn [fst snd].
  unfold Dss.vplate_of, Dss.requests_get, try_except, bind, emit.
  destruct (getitem_plateDict plate) as [(_ & _ & kv & -> & Hget) | (_ & _ & -> & Hget)];
    rewrite Hget; unfold ret, raise; cbv beta iota; fold name.
  - destruct (service Dss.url (Dss.params_of ra dec (snd kv) h x)) as [body | e];
      [ | reflexivity ].
    destruct (Dss.bytes_startswith body Dss.fits_signature); cbn [negb];
      [ | reflexivity ].
    set (asked := World (disk w)
                        (log w ++ [ HttpGet Dss.url (Dss.params_of ra dec (snd kv) h x) ])).
    destruct (open_error refused name) as [e|] eqn:Hopen.
    + pose proof (open_raises name body e asked Hopen) as Hw.
      unfold bind, ret in Hw. rewrite Hw. reflexivity.
    + pose proof (open_write_close name body asked Hopen) as Hw.
      unfold bind, ret in Hw. rewrite Hw. unfold asked. cbn [disk log].
      rewrite <- app_assoc. reflexivity.
  - reflexivity.
Qed.

(** The request in full. *)
Lemma params_of_exact ra dec vplate height width :
  Dss.params_of ra dec vplate height width
  = [ ("r", Num ra); ("d", Num dec); ("v", Str vplate); ("e", Str "J2000");
      ("h", Num height); ("w", Num width); ("f", Str "fits"); ("c", Str "none");
      ("s", Str "yes") ].
Proof. reflexivity. Qed.

(** The plate the service is asked for. *)
Lemma find_plateDict (plate : string) (kv : string * string) :
  List.find (fun kv => String.eqb (fst kv) plate) Dss.plateDict = Some kv ->
  In (plate, snd kv)
     [ ("red", "2r"); ("blue", "2b"); ("ukred", "poss2ukstu_red");
       ("ukblue", "poss2ukstu_blue") ].
Proof.
  unfold Dss.plateDict. cbn [List.find fst].
  destruct (String.eqb_spec "red" plate) as [<- | _];
    [ intros [= <-]; left; reflexivity | ].
  destruct (String.eqb_spec "blue" plate) as [<- | _];
    [ intros [= <-]; right; left; reflexivity | ].
  destruct (String.eqb_spec "ukred" plate) as [<- | _];
    [ intros [= <-]; right; right; left; reflexivity | ].
  destruct (String.eqb_spec "ukblue" plate) as [<- | _];
    [ intros [= <-]; right; right; right; left; reflexivity | discriminate ].
Qed.

End GetdssFacts.


(** Events that are not of the kind [keep] looks for do not show in the
    filtered log. *)
Lemma filter_log_app (keep : event -> bool) (l more : list event) :
  List.filter keep (l ++ more) = List.filter keep l ++ List.filter keep more.
Proof. apply List.filter_app. Qed.

(** ** C5: when [getdss] raises, and what it writes *)




(** ** C6: the size [getdss] asks for *)

(** C6: when at most one of [height] and [width] is given and the plate
    is known, [getdss] sends one request, and the "h" and the "w" of its
    nine parameters carry the same number: 7.0 when neither was given,
    the one given otherwise. *)
Theorem C6_getdss_asks_for_a_square :
  forall (format_6f : float -> string) (path_join : string -> string -> string)
         (service : string -> list (string * value) -> outcome (list byte))
         (refused : string -> option exn)
         (ra dec : float) (plate : string) (height width : option float)
         (filename directory : option string) (w : world),
    In plate [ "red"; "blue"; "ukred"; "ukblue" ] ->
    height = None \/ width = None ->
    let r := Dss.getdss format_6f path_join service refused ra dec plate height width
                        filename directory w in
    exists vplate side,
      List.filter is_get (log (snd r))
      = List.filter is_get (log w)
        ++ [ HttpGet "https://archive.stsci.edu/cgi-bin/dss_search"
               [ ("r", Num ra); ("d", Num dec); ("v", Str vplate); ("e", Str "J2000");
                 ("h", Num side); ("w", Num side);
                 ("f", Str "fits"); ("c", Str "none"); ("s", Str "yes") ] ]
      /\ In (plate, vplate)
            [ ("red", "2r"); ("blue", "2b"); ("ukred", "poss2ukstu_red");
              ("ukblue", "poss2ukstu_blue") ]
      /\ (height = None -> width = None -> side = 7%float)
      /\ (forall h, height = Some h -> side = h)
      /\ (forall x, width = Some x -> side = x).
Proof.
  intros format_6f path_join service refused ra dec plate height width
         filename directory w Hin Hone r.
  assert (Hr : r = Dss.getdss format_6f path_join service refused ra dec plate
                              height width filename directory w) by reflexivity.
  rewrite getdss_exact in Hr. cbv zeta in Hr.
  destruct (getitem_plateDict plate) as [(_ & _ & kv & Hf & _) | (Hnin & _)];
    [ | contradiction ].
  rewrite Hf in Hr.
  assert (Hside : exists side,
             Dss.set_defaults height width = (side, side)
             /\ (height = None -> width = None -> side = 7%float)
             /\ (forall h, height = Some h -> side = h)
             /\ (forall x, width = Some x -> side = x)).
  { destruct height as [h|], width as [x|]; destruct Hone as [H | H];
      try discriminate H; cbn;
      eexists; (split; [ reflexivity | ]); repeat split; congruence. }
  destruct Hside as (side & Hs & H7 & Hh & Hw).
  rewrite Hs in Hr. cbn [fst snd] in Hr. rewrite params_of_exact in Hr.
  exists (snd kv), side.
  split; [ | split; [ exact (find_plateDict plate kv Hf) | auto ] ].
  rewrite Hr.
  destruct (service Dss.url _) as [body | e]; cbn [snd log].
  - destruct (Dss.bytes_startswith body Dss.fits_signature);
      [ destruct (open_error refused _) | ];
      cbn [snd log]; rewrite filter_log_app; reflexivity.
  - rewrite filter_log_app. reflexivity.
Qed.

(** C6 at work: only the width is given, and the height follows it. *)
Lemma C6_getdss_width_only :
  In "blue" [ "red"; "blue"; "ukred"; "ukblue" ]
  /\ ((@None float = None) \/ (Some 5%float = None))
  /\ exists vplate side,
      List.filter is_get
        (log (snd (Dss.getdss (fun _ => "x") (fun a b => a +:+ "/" +:+ b)
                              (fun _ _ => Raise RequestException) (fun _ => None)
                              10%float 20%float "blue" None (Some 5%float) None None
                              (World ∅ []))))
      = [ HttpGet "https://archive.stsci.edu/cgi-bin/dss_search"
            [ ("r", Num 10%float); ("d", Num 20%float); ("v", Str vplate);
              ("e", Str "J2000"); ("h", Num side); ("w", Num side);
              ("f", Str "fits"); ("c", Str "none"); ("s", Str "yes") ] ]
      /\ side = 5%float.
Proof.
  assert (Hin : In "blue" [ "red"; "blue"; "ukred"; "ukblue" ])
    by (right; left; reflexivity).
  assert (Hone : (@None float = None) \/ (Some 5%float = None))
    by (left; reflexivity).
  split; [ exact Hin | split; [ exact Hone | ] ].
  destruct (C6_getdss_asks_for_a_square
              (fun _ => "x") (fun a b => a +:+ "/" +:+ b)
              (fun _ _ => Raise RequestException) (fun _ => None)
              10%float 20%float "blue" None (Some 5%float) None None
              (World ∅ []) Hin Hone) as (vplate & side & Hlog & _ & _ & _ & Hw).
  exists vplate, side. split; [ exact Hlog | exact (Hw _ eq_refl) ].
Defined.

(** ** C2: what [getdss] does itself *)



(** ** C4: the GIF is rendered once *)

(** C4, counterexample: with a GIF already on disk under the name the
    cell computes, the cell renders nothing: [save_movie] is not called,
    the world is as it was, and the file the next cell is handed is the
    old one, not the movie of this run. *)
Lemma C4_an_existing_gif_is_reused :
  let old := [ "G"%byte; "I"%byte; "F"%byte; "1"%byte ] in
  let new := [ "G"%byte; "I"%byte; "F"%byte; "2"%byte ] in
  let w := World {[ "tess-cutout.gif" := old ]} [] in
  Gif.create_gif (fun _ => new) "tess-cutout.fits" w = (Return "tess-cutout.gif", w)
  /\ log (snd (Gif.create_gif (fun _ => new) "tess-cutout.fits" w)) = []
  /\ disk (snd (Gif.create_gif (fun _ => new) "tess-cutout.fits" w)) !! "tess-cutout.gif"
     = Some old
  /\ old <> new.
Proof.
  cbv zeta.
  split; [ vm_compute; reflexivity | ].
  split; [ vm_compute; reflexivity | ].
  split; [ vm_compute; reflexivity | discriminate ].
Qed.

(** C4, as amended: in the four notebooks at hand the only step that
    depends on what is on disk is the GIF of the TESS overlay notebook.
    [save_movie] runs when no file has the GIF's name, and then writes
    the movie there; when a file has that name the cell changes nothing,
    and the display cell prints no warning and hands that name, with the
    files as they were, to [Image].  The two [os.path.exists] lines of
    these cells are the only lines of the notebooks' code that ask
    whether a file exists, and the only statement that names a cache
    turns the library's off. *)
Theorem C4_gif_rendered_only_when_missing :
  forall (movie : string -> list byte) (picture : Type)
         (Image : string -> gmap string (list byte) -> outcome picture)
         (tpf : string) (w : world),
    let gif := replace tpf ".fits" ".gif" in
    Gif.create_gif movie tpf w
    = (Return gif,
       match disk w !! gif with
       | Some _ => w
       | None => World (<[gif := movie tpf]> (disk w)) (log w ++ [ SaveMovie gif ])
       end)
    /\ (forall old : list byte,
           disk w !! gif = Some old ->
           Gif.display_gif Image gif w = (Image gif (disk w), w))
    /\ List.map Survey.disk_tests Repo.notebooks
       = [ [];
           [ "if not os.path.exists(gif):"; "if not os.path.exists(gif):" ];
           [];
           [] ]
    /\ List.map Survey.cache_mentions Repo.notebooks
       = [ [ "output = Observations.download_products(yourProd, mrp_only=False, cache=False)" ];
           [];
           [];
           [] ].
Proof.
  intros movie picture Image tpf w gif.
  split; [ | split; [ | evaluate ] ].
  - unfold Gif.create_gif, bind, path_exists, Gif.save_movie, ret. fold gif.
    destruct (disk w !! gif) as [old|] eqn:E.
    + rewrite bool_decide_eq_true_2 by eauto. reflexivity.
    + rewrite bool_decide_eq_false_2 by (intros [? ?]; discriminate). reflexivity.
  - intros old E.
    unfold Gif.display_gif, bind, path_exists, Gif.image, ret, print.
    rewrite bool_decide_eq_true_2 by eauto. reflexivity.
Qed.
(** ** Sorting a table twice *)

Section TakeFacts.

Context {V : Type}.
Implicit Types (col keys : list V) (idx : list nat).

Lemma take_cons (i : nat) idx col :
  Ephemeris.take (i :: idx) col
  = match col !! i with
    | Some x => x :: Ephemeris.take idx col
    | None => Ephemeris.take idx col
    end.
Proof. reflexivity. Qed.

Lemma take_nil idx : Ephemeris.take idx (@nil V) = [].
Proof. induction idx as [| i idx IH]; [ reflexivity | exact IH ]. Qed.

Lemma take_cons_shift (x : V) col idx :
  Ephemeris.take (S <$> idx) (x :: col) = Ephemeris.take idx col.
Proof.
  induction idx as [| i idx IH]; [ reflexivity | ].
  rewrite fmap_cons, !take_cons. cbn [lookup list_lookup]. rewrite IH. reflexivity.
Qed.

(** Taking the rows in their own order changes nothing. *)
Lemma take_seq n col : length col <= n -> Ephemeris.take (seq 0 n) col = col.
Proof.
  revert col. induction n as [| n IH]; intros col Hlen.
  - destruct col; [ reflexivity | cbn in Hlen; lia ].
  - destruct col as [| x col]; [ apply take_nil | ].
    cbn [seq]. rewrite <- fmap_S_seq, take_cons. cbn [lookup list_lookup].
    rewrite take_cons_shift, IH; [ reflexivity | cbn in Hlen; lia ].
Qed.

Lemma take_length_le idx col : length (Ephemeris.take idx col) <= length idx.
Proof.
  induction idx as [| i idx IH]; [ reflexivity | ].
  rewrite take_cons. destruct (col !! i); cbn; lia.
Qed.

(** With every row number in range, [take] reads one row per number. *)
Lemma take_lookup idx col (j : nat) :
  Forall (fun i => i < length col) idx ->
  Ephemeris.take idx col !! j = idx !! j ≫= (fun i => col !! i).
Proof.
  intros Hall. revert j. induction Hall as [| i idx Hi Hall IH]; intros j.
  - reflexivity.
  - destruct (lookup_lt_is_Some_2 col i Hi) as [x Hx].
    rewrite take_cons, Hx. destruct j as [| j]; cbn; [ symmetry; exact Hx | apply IH ].
Qed.

Lemma take_length idx col :
  Forall (fun i => i < length col) idx ->
  length (Ephemeris.take idx col) = length idx.
Proof.
  induction 1 as [| i idx Hi Hall IH]; [ reflexivity | ].
  destruct (lookup_lt_is_Some_2 col i Hi) as [x Hx].
  rewrite take_cons, Hx. cbn. f_equal. exact IH.
Qed.

Lemma permutation_in_range idx n :
  Permutation idx (seq 0 n) -> Forall (fun i => i < n) idx.
Proof.
  intros Hp. apply List.Forall_forall. intros i Hi.
  apply (Permutation_in _ Hp), in_seq in Hi. lia.
Qed.

(** Taking the rows along a permutation of the row numbers permutes them. *)
Lemma take_permutation idx col :
  Permutation idx (seq 0 (length col)) -> Permutation (Ephemeris.take idx col) col.
Proof.
  intros Hp. unfold Ephemeris.take.
  rewrite Hp. fold (Ephemeris.take (seq 0 (length col)) col).
  rewrite take_seq by reflexivity. reflexivity.
Qed.

(** In a column without repeats, the only permutation of the row numbers
    that leaves the column as it is leaves every row where it is. *)
Lemma take_fixes_distinct idx keys :
  Permutation idx (seq 0 (length keys)) ->
  NoDup keys ->
  Ephemeris.take idx keys = keys ->
  idx = seq 0 (length keys).
Proof.
  intros Hp Hnd Heq.
  pose proof (permutation_in_range _ _ Hp) as Hrange.
  assert (Hlen : length idx = length keys)
    by (rewrite (Permutation_length Hp); apply length_seq).
  apply list_eq. intros j.
  destruct (decide (j < length keys)) as [Hj | Hj].
  - rewrite lookup_seq_lt by exact Hj. cbn.
    destruct (lookup_lt_is_Some_2 idx j ltac:(lia)) as [i Hi].
    rewrite Hi. f_equal.
    pose proof (take_lookup idx keys j Hrange) as Hl.
    rewrite Heq, Hi in Hl. cbn in Hl.
    destruct (keys !! j) as [x|] eqn:Hx;
      [ | apply lookup_lt_is_Some_2 in Hj; rewrite Hx in Hj; destruct Hj; discriminate ].
    symmetry in Hl. exact (NoDup_lookup keys i j x Hnd Hl Hx).
  - rewrite lookup_seq_ge by lia. apply lookup_ge_None. lia.
Qed.

Lemma column_map (f : list V -> list V) (name : string) (t : Ephemeris.table V) :
  Ephemeris.column name (List.map (fun c => (fst c, f (snd c))) t)
  = f <$> Ephemeris.column name t.
Proof.
  unfold Ephemeris.column.
  induction t as [| [n c] t IH]; [ reflexivity | ].
  cbn. destruct (String.eqb n name); [ reflexivity | exact IH ].
Qed.

(** What the three cells compute, column by column. *)
Lemma cells_columns (argsort : list V -> list nat) (obs e e' : Ephemeris.table V) :
  Ephemeris.cells argsort obs = Some (e, e') ->
  exists ra dec keys,
    Ephemeris.column "t_min" obs = Some keys
    /\ let first := argsort keys in
       let second := argsort (Ephemeris.take first keys) in
       e = [ ("ra", Ephemeris.take first ra);
             ("dec", Ephemeris.take first dec);
             ("t_min", Ephemeris.take first keys) ]
       /\ e' = [ ("ra", Ephemeris.take second (Ephemeris.take first ra));
                 ("dec", Ephemeris.take second (Ephemeris.take first dec));
                 ("t_min", Ephemeris.take second (Ephemeris.take first keys)) ].
Proof.
  unfold Ephemeris.cells. intros H.
  destruct (Ephemeris.sort argsort "t_min" obs) as [sorted|] eqn:Hs;
    [ | discriminate H ].
  cbn [mbind option_bind] in H.
  destruct (Ephemeris.ephemeris_of sorted) as [eph|] eqn:He; [ | discriminate H ].
  cbn [mbind option_bind] in H.
  destruct (Ephemeris.sort argsort "t_min" eph) as [again|] eqn:Hs2;
    [ | discriminate H ].
  injection H as <- <-.
  unfold Ephemeris.sort in Hs.
  destruct (Ephemeris.column "t_min" obs) as [keys|] eqn:Hk; [ | discriminate Hs ].
  injection Hs as <-.
  unfold Ephemeris.ephemeris_of in He. rewrite !column_map, Hk in He.
  destruct (Ephemeris.column "s_ra" obs) as [ra|]; [ | discriminate He ].
  destruct (Ephemeris.column "s_dec" obs) as [dec|]; [ | discriminate He ].
  injection He as <-.
  injection Hs2 as <-.
  exists ra, dec, keys. split; [ reflexivity | ].
  split; reflexivity.
Qed.

End TakeFacts.

Section SortedFacts.

Context {V : Type}.
Variable leb : V -> V -> bool.
Hypothesis leb_trans : forall a b c, leb a b = true -> leb b c = true -> leb a c = true.
Hypothesis leb_antisym : forall a b, leb a b = true -> leb b a = true -> a = b.

(** There is one way to put a column in order. *)
Lemma sorted_permutation_unique (l1 l2 : list V) :
  Sorted (Ephemeris.le leb) l1 -> Sorted (Ephemeris.le leb) l2 ->
  Permutation l1 l2 -> l1 = l2.
Proof.
  intros H1 H2.
  apply Sorted_StronglySorted in H1; [ | intros a b c; apply leb_trans ].
  apply Sorted_StronglySorted in H2; [ | intros a b c; apply leb_trans ].
  revert l2 H2. induction H1 as [| a l1 Hs1 IH Ha]; intros l2 H2 Hp.
  - apply Permutation_nil in Hp. congruence.
  - destruct H2 as [| b l2 Hs2 Hb].
    + apply Permutation_sym, Permutation_nil in Hp. discriminate.
    + assert (Hab : a = b).
      { assert (Hin1 : In a (b :: l2))
          by (apply (Permutation_in _ Hp); left; reflexivity).
        assert (Hin2 : In b (a :: l1))
          by (apply (Permutation_in _ (Permutation_sym Hp)); left; reflexivity).
        destruct Hin1 as [-> | Hin1]; [ reflexivity | ].
        destruct Hin2 as [-> | Hin2]; [ reflexivity | ].
        apply leb_antisym.
        - exact (proj1 (List.Forall_forall _ _) Ha b Hin2).
        - exact (proj1 (List.Forall_forall _ _) Hb a Hin1). }
      subst b. f_equal. apply IH; [ exact Hs2 | ].
      exact (Permutation_cons_inv Hp).
Qed.

End SortedFacts.

(** ** The insertion sort keeps the promises of [argsort] *)

Section InsertionFacts.

Context {V : Type}.
Variable leb : V -> V -> bool.
Hypothesis leb_total : forall a b, leb a b = true \/ leb b a = true.

Local Abbreviation by_key := (Ephemeris.by_key leb).

Lemma goes_before_true x y :
  Ephemeris.goes_before leb x y = true -> by_key x y.
Proof. intros H. exact H. Qed.

Lemma goes_before_false x y :
  Ephemeris.goes_before leb x y = false -> by_key y x.
Proof.
  unfold Ephemeris.goes_before, Ephemeris.by_key. intros H.
  destruct (leb_total (fst x) (fst y)); congruence.
Qed.

Lemma insert_permutation x l :
  Permutation (Ephemeris.insert leb x l) (x :: l).
Proof.
  induction l as [| y l IH]; cbn; [ reflexivity | ].
  destruct (Ephemeris.goes_before leb x y); [ reflexivity | ].
  rewrite IH. apply perm_swap.
Qed.

Lemma insert_sorted x l :
  Sorted by_key l -> Sorted by_key (Ephemeris.insert leb x l).
Proof.
  induction 1 as [| y l Hs IH Hy]; cbn; [ repeat constructor | ].
  destruct (Ephemeris.goes_before leb x y) eqn:E.
  - constructor; [ constructor; assumption | ].
    constructor. apply goes_before_true, E.
  - constructor; [ exact IH | ].
    destruct Hy as [| z l Hyz]; cbn.
    + constructor. apply goes_before_false, E.
    + destruct (Ephemeris.goes_before leb x z);
        constructor; [ apply goes_before_false, E | exact Hyz ].
Qed.

Lemma insertion_permutation l :
  Permutation (fold_right (Ephemeris.insert leb) [] l) l.
Proof.
  induction l as [| x l IH]; cbn; [ reflexivity | ].
  rewrite insert_permutation, IH. reflexivity.
Qed.

Lemma insertion_sorted l :
  Sorted by_key (fold_right (Ephemeris.insert leb) [] l).
Proof.
  induction l as [| x l IH]; cbn; [ constructor | apply insert_sorted, IH ].
Qed.

(** Rows that are in order stay where they are. *)
Lemma insertion_of_sorted l :
  Sorted by_key l -> fold_right (Ephemeris.insert leb) [] l = l.
Proof.
  induction 1 as [| x l Hs IH Hx]; [ reflexivity | ].
  cbn [fold_right]. rewrite IH.
  destruct Hx as [| y l Hxy]; [ reflexivity | ].
  cbn [Ephemeris.insert]. unfold Ephemeris.goes_before.
  unfold Ephemeris.by_key in Hxy. rewrite Hxy. reflexivity.
Qed.

(** Each key paired with its row number. *)
Lemma numbered_rows (pre keys : list V) :
  Forall (fun p => (pre ++ keys) !! snd p = Some (fst p))
         (combine keys (seq (length pre) (length keys))).
Proof.
  revert pre. induction keys as [| k keys IH]; intros pre; cbn; [ constructor | ].
  constructor.
  - cbn. apply list_lookup_middle. reflexivity.
  - specialize (IH (pre ++ [k])).
    rewrite <- app_assoc, length_app in IH. cbn in IH.
    replace (length pre + 1) with (S (length pre)) in IH by lia.
    exact IH.
Qed.

Lemma numbers_of_rows (keys : list V) (start : nat) :
  List.map snd (combine keys (seq start (length keys))) = seq start (length keys).
Proof.
  revert start. induction keys as [| k keys IH]; intros start; cbn; [ reflexivity | ].
  f_equal. apply IH.
Qed.

Lemma take_numbered (keys : list V) (rows : list (V * nat)) :
  Forall (fun p => keys !! snd p = Some (fst p)) rows ->
  Ephemeris.take (List.map snd rows) keys = List.map fst rows.
Proof.
  induction 1 as [| p rows Hp Hall IH]; [ reflexivity | ].
  cbn [List.map]. rewrite take_cons, Hp. f_equal. exact IH.
Qed.

Lemma sorted_keys (rows : list (V * nat)) :
  Sorted by_key rows -> Sorted (Ephemeris.le leb) (List.map fst rows).
Proof.
  induction 1 as [| p rows Hs IH Hp]; cbn; constructor; [ exact IH | ].
  destruct Hp; cbn; constructor. assumption.
Qed.

Lemma sorted_rows (keys : list V) (start : nat) :
  Sorted (Ephemeris.le leb) keys ->
  Sorted by_key (combine keys (seq start (length keys))).
Proof.
  intros Hs. revert start.
  induction Hs as [| k keys Hs IH Hk]; intros start; cbn; constructor.
  - apply IH.
  - destruct Hk as [| k' keys Hkk]; cbn; constructor. exact Hkk.
Qed.

(** The insertion sort gives a permutation of the row numbers that puts
    the keys in order. *)
Lemma insertion_argsort_sorts :
  Ephemeris.sorts leb (Ephemeris.insertion_argsort leb).
Proof.
  intros keys. unfold Ephemeris.insertion_argsort.
  set (rows := fold_right _ _ _).
  assert (Hperm : Permutation rows (combine keys (seq 0 (length keys))))
    by apply insertion_permutation.
  split.
  - rewrite Hperm, numbers_of_rows. reflexivity.
  - rewrite take_numbered.
    + apply sorted_keys, insertion_sorted.
    + apply (Permutation_Forall (Permutation_sym Hperm)).
      exact (numbered_rows [] keys).
Qed.

(** It moves no row of a column that is in order. *)
Lemma insertion_argsort_keeps_sorted :
  Ephemeris.keeps_sorted leb (Ephemeris.insertion_argsort leb).
Proof.
  intros keys Hs. unfold Ephemeris.insertion_argsort.
  rewrite insertion_of_sorted by (apply sorted_rows, Hs).
  apply numbers_of_rows.
Qed.

End InsertionFacts.

Lemma Zleb_total (a b : Z) : Z.leb a b = true \/ Z.leb b a = true.
Proof. rewrite !Z.leb_le. lia. Qed.

Lemma Zleb_trans (a b c : Z) : Z.leb a b = true -> Z.leb b c = true -> Z.leb a c = true.
Proof. rewrite !Z.leb_le. lia. Qed.

Lemma Zleb_antisym (a b : Z) : Z.leb a b = true -> Z.leb b a = true -> a = b.
Proof. rewrite !Z.leb_le. lia. Qed.

(** ** C7: the second sort of the ephemeris *)

(** Whatever sort [argsort] is, as long as it puts the keys in order, the
    second sort leaves the [t_min] column of the ephemeris as the first
    sort made it; and when no two rows have the same [t_min], it leaves
    the whole ephemeris unchanged. *)
Lemma second_sort_keeps_t_min :
  forall (V : Type) (leb : V -> V -> bool) (argsort : list V -> list nat)
         (obs e e' : Ephemeris.table V),
    (forall a b c, leb a b = true -> leb b c = true -> leb a c = true) ->
    (forall a b, leb a b = true -> leb b a = true -> a = b) ->
    Ephemeris.sorts leb argsort ->
    Ephemeris.cells argsort obs = Some (e, e') ->
    Ephemeris.column "t_min" e' = Ephemeris.column "t_min" e
    /\ (forall keys, Ephemeris.column "t_min" e = Some keys -> NoDup keys -> e' = e).
Proof.
  intros V leb argsort obs e e' Htrans Hanti Hsorts Hcells.
  destruct (cells_columns argsort obs e e' Hcells) as (ra & dec & keys & Hk & He & He').
  cbv zeta in He, He'.
  set (first := argsort keys) in *.
  set (once := Ephemeris.take first keys) in *.
  set (second := argsort once) in *.
  destruct (Hsorts keys) as [Hp1 Hs1]. fold first in Hp1, Hs1. fold once in Hs1.
  destruct (Hsorts once) as [Hp2 Hs2]. fold second in Hp2, Hs2.
  assert (Hsame : Ephemeris.take second once = once).
  { apply (sorted_permutation_unique leb Htrans Hanti); [ exact Hs2 | exact Hs1 | ].
    apply take_permutation, Hp2. }
  subst e e'. split.
  - cbn. rewrite Hsame. reflexivity.
  - cbn. intros keys' [= <-] Hnd.
    assert (Hid : second = seq 0 (length once))
      by (apply take_fixes_distinct; assumption).
    assert (Hlen : length once = length first).
    { apply take_length, permutation_in_range, Hp1. }
    rewrite Hid, !take_seq; [ reflexivity | lia | | ];
      rewrite Hlen; apply take_length_le.
Qed.


(** * More about the cells *)

(** ** [getdss]: what else a caller can rely on *)

(** Case analysis on a run of [getdss]. *)
Ltac getdss_cases :=
  rewrite ?getdss_exact; cbv zeta;
  repeat match goal with
         | |- context [List.find ?f Dss.plateDict] => destruct (List.find f Dss.plateDict)
         | |- context [match ?s Dss.url ?q with _ => _ end] => destruct (s Dss.url q)
         | |- context [Dss.bytes_startswith ?b Dss.fits_signature] =>
             destruct (Dss.bytes_startswith b Dss.fits_signature) eqn:?
         | |- context [open_error ?f ?n] => destruct (open_error f n) eqn:?
         end;
  cbn [fst snd disk log].

(** X1: whatever the service answers, [getdss] leaves every file alone
    except the one whose name it computes. *)
Theorem getdss_touches_one_file :
  forall (format_6f : float -> string) (path_join : string -> string -> string)
         (service : string -> list (string * value) -> outcome (list byte))
         (refused : string -> option exn)
         (ra dec : float) (plate : string) (height width : option float)
         (filename directory : option string) (w : world) (p : string),
    disk (snd (Dss.getdss format_6f path_join service refused ra dec plate height width
                          filename directory w)) !! p
    = disk w !! p
    \/ p = Dss.construct_filename format_6f path_join ra dec plate filename directory.
Proof.
  intros format_6f path_join service refused ra dec plate height width filename directory w p.
  getdss_cases; try (left; reflexivity).
  destruct (decide (Dss.construct_filename format_6f path_join ra dec plate
                                           filename directory = p)) as [<- | Hne].
  - right. reflexivity.
  - left. apply lookup_insert_ne. exact Hne.
Qed.


(** X3: when the request itself fails, [getdss] lets the exception
    through as it is: the request is in the log, and the disk is as it
    was. *)
Theorem getdss_passes_on_a_failed_request :
  forall (format_6f : float -> string) (path_join : string -> string -> string)
         (service : string -> list (string * value) -> outcome (list byte))
         (refused : string -> option exn)
         (ra dec : float) (plate : string) (height width : option float)
         (filename directory : option string) (w : world) (e : exn),
    In plate [ "red"; "blue"; "ukred"; "ukblue" ] ->
    (forall params, service Dss.url params = Raise e) ->
    exists params,
      Dss.getdss format_6f path_join service refused ra dec plate height width filename directory w
      = (Raise e, World (disk w) (log w ++ [ HttpGet Dss.url params ])).
Proof.
  intros format_6f path_join service refused ra dec plate height width filename directory w e
         Hin Hfail.
  rewrite getdss_exact. cbv zeta.
  destruct (getitem_plateDict plate) as [(_ & _ & kv & -> & _) | (Hnin & _)];
    [ | contradiction ].
  rewrite Hfail. eexists. reflexivity.
Qed.

(** X3 at work: the service cannot be reached. *)
Lemma getdss_passes_on_a_failed_request_example :
  In "ukred" [ "red"; "blue"; "ukred"; "ukblue" ]
  /\ (forall params : list (string * value),
         (fun (_ : string) (_ : list (string * value)) => @Raise (list byte) RequestException)
           Dss.url params = Raise RequestException)
  /\ exists params,
      Dss.getdss (fun _ => "x") (fun a b => a +:+ "/" +:+ b)
                 (fun _ _ => Raise RequestException) (fun _ => None)
                 1%float 2%float "ukred" None None None None (World ∅ [])
      = (Raise RequestException, World ∅ [ HttpGet Dss.url params ]).
Proof.
  assert (Hin : In "ukred" [ "red"; "blue"; "ukred"; "ukblue" ])
    by (right; right; left; reflexivity).
  split; [ exact Hin | split; [ intros; reflexivity | ] ].
  exact (getdss_passes_on_a_failed_request
           (fun _ => "x") (fun a b => a +:+ "/" +:+ b)
           (fun _ _ => Raise RequestException) (fun _ => None)
           1%float 2%float "ukred" None None None None (World ∅ []) RequestException
           Hin (fun _ => eq_refl)).
Defined.

(** X4: the name [getdss] returns is the name of a file that is there:
    it holds the body of the response, which starts with the FITS
    signature, so the cell that opens it next finds a FITS file. *)
Theorem getdss_returns_a_file_that_exists :
  forall (format_6f : float -> string) (path_join : string -> string -> string)
         (service : string -> list (string * value) -> outcome (list byte))
         (refused : string -> option exn)
         (ra dec : float) (plate : string) (height width : option float)
         (filename directory : option string) (w : world) (name : string),
    let r := Dss.getdss format_6f path_join service refused ra dec plate height width
                        filename directory w in
    fst r = Return name ->
    fst (path_exists name (snd r)) = Return true
    /\ exists body,
        disk (snd r) !! name = Some body
        /\ Dss.bytes_startswith body Dss.fits_signature = true.
Proof.
  intros format_6f path_join service refused ra dec plate height width filename directory w
         name r.
  subst r. getdss_cases; intros [= <-].
  unfold path_exists. cbn [fst snd disk].
  rewrite lookup_insert_eq. split; [ reflexivity | eauto ].
Qed.

(** X4 at work. *)
Lemma getdss_returns_a_file_that_exists_example :
  let r := Dss.getdss (fun _ => "x") (fun a b => a +:+ "/" +:+ b)
                      (fun _ _ => Return (list_byte_of_string "SIMPLE  =                    T"))
                      (fun _ => None)
                      1%float 2%float "red" None None (Some "m31.fits") None
                      (World ∅ []) in
  fst r = Return "m31.fits"
  /\ fst (path_exists "m31.fits" (snd r)) = Return true.
Proof.
  intros r.
  assert (Hret : fst r = Return "m31.fits") by (vm_compute; reflexivity).
  split; [ exact Hret | ].
  exact (proj1 (getdss_returns_a_file_that_exists
                  (fun _ => "x") (fun a b => a +:+ "/" +:+ b)
                  (fun _ _ => Return (list_byte_of_string "SIMPLE  =                    T"))
                  (fun _ => None)
                  1%float 2%float "red" None None (Some "m31.fits") None
                  (World ∅ []) "m31.fits" Hret)).
Defined.

(** X5: a plate that is not one of the four costs nothing: the message
    names the plate and the plates there are, no request is sent, and
    the world is as it was. *)
Theorem getdss_refuses_an_unknown_plate :
  forall (format_6f : float -> string) (path_join : string -> string -> string)
         (service : string -> list (string * value) -> outcome (list byte))
         (refused : string -> option exn)
         (ra dec : float) (plate : string) (height width : option float)
         (filename directory : option string) (w : world),
    ~ In plate [ "red"; "blue"; "ukred"; "ukblue" ] ->
    Dss.getdss format_6f path_join service refused ra dec plate height width filename directory w
    = (Raise (ValueError
         ("Illegal plate value '" +:+ plate +:+ "'" +:+ String nl EmptyString
          +:+ "Should be one of " +:+ join ", " (Dss.keys Dss.plateDict))),
       w).
Proof.
  intros format_6f path_join service refused ra dec plate height width filename directory w Hnin.
  rewrite getdss_exact. cbv zeta.
  destruct (getitem_plateDict plate) as [(Hin & _) | (_ & _ & -> & _)];
    [ contradiction | reflexivity ].
Qed.

(** X5 at work: the plate is spelled with a capital. *)
Lemma getdss_refuses_an_unknown_plate_example :
  ~ In "Red" [ "red"; "blue"; "ukred"; "ukblue" ]
  /\ fst (Dss.getdss (fun _ => "x") (fun a b => a +:+ "/" +:+ b)
                     (fun _ _ => Return []) (fun _ => None)
                     1%float 2%float "Red" None None None None (World ∅ []))
     = Raise (ValueError
         ("Illegal plate value 'Red'" +:+ String nl EmptyString
          +:+ "Should be one of red, blue, ukred, ukblue")).
Proof.
  assert (Hnin : ~ In "Red" [ "red"; "blue"; "ukred"; "ukblue" ])
    by (intros [H | [H | [H | [H | []]]]]; discriminate H).
  split; [ exact Hnin | ].
  rewrite (getdss_refuses_an_unknown_plate
             (fun _ => "x") (fun a b => a +:+ "/" +:+ b) (fun _ _ => Return [])
             (fun _ => None)
             1%float 2%float "Red" None None None None (World ∅ []) Hnin).
  reflexivity.
Defined.

(** An empty [directory] counts as none: the file goes where it would
    go with no directory at all, and [os.path.join] is not called. *)
Example getdss_empty_directory_is_no_directory :
  forall (format_6f : float -> string) (join join' : string -> string -> string)
         (service : string -> list (string * value) -> outcome (list byte))
         (refused : string -> option exn)
         (ra dec : float) (plate : string) (height width : option float)
         (filename : option string) (w : world),
    Dss.getdss format_6f join service refused ra dec plate height width filename (Some "") w
    = Dss.getdss format_6f join' service refused ra dec plate height width filename None w.
Proof. intros. reflexivity. Qed.

(** ** The GIF cells, one after the other *)

(** [replace] leaves a string without [old] as it is. *)
Lemma replace_absent (s old new : string) :
  contains old s = false -> replace s old new = s.
Proof.
  unfold replace. induction s as [| c r IH]; [ reflexivity | ].
  cbn [contains replace_from]. intros H.
  apply orb_false_iff in H. destruct H as [Hs Hr].
  rewrite Hs. cbn [andb]. f_equal. apply IH, Hr.
Qed.

Lemma replace_from_skip (old new u s : string) :
  replace_from old new (String.length u) (u +:+ s) = replace_from old new 0 s.
Proof.
  induction u as [| c u IH]; [ destruct s; reflexivity | exact IH ].
Qed.

Lemma startswith_app (old s : string) : startswith (old +:+ s) old = true.
Proof.
  induction old as [| a old IH]; [ destruct s; reflexivity | ].
  change (String a old +:+ s) with (String a (old +:+ s)).
  cbn [startswith]. rewrite Ascii.eqb_refl. exact IH.
Qed.

(** At an occurrence of [old], [replace] writes [new] and goes on after
    the occurrence. *)
Lemma replace_at_occurrence (old new s : string) :
  old <> EmptyString ->
  replace (old +:+ s) old new = new +:+ replace s old new.
Proof.
  intros Hne. unfold replace.
  destruct old as [| a old]; [ congruence | ].
  change (String a old +:+ s) with (String a (old +:+ s)).
  cbn [replace_from].
  change (String a (old +:+ s)) with (String a old +:+ s).
  rewrite startswith_app. cbn [andb negb String.eqb String.length].
  replace (S (String.length old) - 1) with (String.length old) by lia.
  rewrite replace_from_skip. reflexivity.
Qed.

Lemma startswith_cons (a b : ascii) (s p : string) :
  startswith (String b s) (String a p) = Ascii.eqb a b && startswith s p.
Proof. reflexivity. Qed.

Lemma startswith_empty (s : string) : startswith s EmptyString = true.
Proof. destruct s; reflexivity. Qed.

Lemma append_cons (c : ascii) (u s : string) : String c u +:+ s = String c (u +:+ s).
Proof. reflexivity. Qed.

(** No occurrence of ".fits" begins in [u] and ends in the ".fits" that
    follows it. *)
Lemma no_fits_across (u : string) :
  u <> EmptyString ->
  startswith u ".fits" = false ->
  startswith (u +:+ ".fits") ".fits" = false.
Proof.
  assert (Hf : Ascii.eqb "f" "." = false) by reflexivity.
  assert (Hi : Ascii.eqb "i" "." = false) by reflexivity.
  assert (Ht : Ascii.eqb "t" "." = false) by reflexivity.
  assert (Hs : Ascii.eqb "s" "." = false) by reflexivity.
  intros Hne H.
  destruct u as [| c1 [| c2 [| c3 [| c4 [| c5 u]]]]]; [ congruence | .. ];
    rewrite ?append_cons; change (EmptyString +:+ ".fits") with ".fits";
    rewrite ?startswith_cons, ?startswith_empty in *;
    rewrite ?Hf, ?Hi, ?Ht, ?Hs; cbn [andb]; rewrite ?andb_false_r;
    try reflexivity; exact H.
Qed.

Lemma replace_before_fits (stem : string) :
  contains ".fits" stem = false ->
  replace (stem +:+ ".fits") ".fits" ".gif" = stem +:+ ".gif".
Proof.
  induction stem as [| c r IH].
  - intros _. reflexivity.
  - intros H. cbn [contains] in H. apply orb_false_iff in H. destruct H as [Hs Hr].
    unfold replace in *.
    rewrite append_cons. cbn [replace_from]. rewrite <- append_cons.
    rewrite (no_fits_across (String c r)) by (congruence || exact Hs).
    cbn [andb]. rewrite IH by exact Hr. reflexivity.
Qed.

(** X6: the two GIF cells together never print the warning.  After the
    cell that creates the GIF a file has the GIF's name, the file that
    was there or else the movie just rendered, so the display cell goes
    straight to [Image], with the files as the first cell left them. *)
Theorem gif_cells_never_warn :
  forall (movie : string -> list byte) (picture : Type)
         (Image : string -> gmap string (list byte) -> outcome picture)
         (tpf : string) (w : world),
    let gif := replace tpf ".fits" ".gif" in
    Overlay.gif_cells movie Image tpf w
    = match disk w !! gif with
      | Some _ => (Image gif (disk w), w)
      | None =>
          (Image gif (<[gif := movie tpf]> (disk w)),
           World (<[gif := movie tpf]> (disk w)) (log w ++ [ SaveMovie gif ]))
      end.
Proof.
  intros movie picture Image tpf w gif.
  unfold Overlay.gif_cells, Gif.create_gif, Gif.display_gif, bind, path_exists,
    Gif.save_movie, Gif.image, ret, print. fold gif.
  destruct (disk w !! gif) as [old|] eqn:E.
  - rewrite bool_decide_eq_true_2 by eauto. cbn.
    rewrite bool_decide_eq_true_2 by eauto. reflexivity.
  - rewrite bool_decide_eq_false_2 by (intros [? ?]; discriminate). cbn.
    rewrite lookup_insert_eq.
    rewrite bool_decide_eq_true_2 by eauto. reflexivity.
Qed.

(** X7: run on its own with no GIF on disk, the display cell prints
    that there is none and goes on all the same: the test guards the
    message, not the display, and [Image] is still called with the name
    of the missing file. *)
Theorem display_gif_goes_on_after_its_warning :
  forall (picture : Type)
         (Image : string -> gmap string (list byte) -> outcome picture)
         (gif : string) (w : world),
    disk w !! gif = None ->
    Gif.display_gif Image gif w
    = (Image gif (disk w),
       World (disk w)
             (log w ++ [ Print "No gif found. Cannot display gif of time-series." ])).
Proof.
  intros picture Image gif w E.
  unfold Gif.display_gif, bind, path_exists, Gif.image, ret, print, emit.
  rewrite bool_decide_eq_false_2 by (rewrite E; intros [? ?]; discriminate).
  reflexivity.
Qed.

(** X7 at work: an empty disk, and an [Image] that makes a picture of
    whatever name it is given. *)
Lemma display_gif_goes_on_after_its_warning_example :
  (∅ : gmap string (list byte)) !! "tess-cutout.gif" = None
  /\ Gif.display_gif (fun name _ => Return name) "tess-cutout.gif" (World ∅ [])
     = (Return "tess-cutout.gif",
        World ∅ [ Print "No gif found. Cannot display gif of time-series." ]).
Proof.
  assert (E : disk (World ∅ []) !! "tess-cutout.gif" = None) by reflexivity.
  split; [ exact E | ].
  exact (display_gif_goes_on_after_its_warning
           string (fun name _ => Return name) "tess-cutout.gif" (World ∅ []) E).
Defined.

(** The cell that creates the GIF, in full. *)
Lemma create_gif_exact (movie : string -> list byte) (tpf : string) (w : world) :
  Gif.create_gif movie tpf w
  = (Return (replace tpf ".fits" ".gif"),
     match disk w !! replace tpf ".fits" ".gif" with
     | Some _ => w
     | None => World (<[replace tpf ".fits" ".gif" := movie tpf]> (disk w))
                     (log w ++ [ SaveMovie (replace tpf ".fits" ".gif") ])
     end).
Proof.
  unfold Gif.create_gif, bind, path_exists, Gif.save_movie, ret.
  destruct (disk w !! replace tpf ".fits" ".gif") as [old|] eqn:E.
  - rewrite bool_decide_eq_true_2 by eauto. reflexivity.
  - rewrite bool_decide_eq_false_2 by (intros [? ?]; discriminate). reflexivity.
Qed.

(** X8: the cell that creates the GIF can be run again at no cost: the
    second run renders nothing and leaves the world as the first left
    it. *)
Theorem create_gif_again_changes_nothing :
  forall (movie : string -> list byte) (tpf : string) (w : world),
    let once := Gif.create_gif movie tpf w in
    Gif.create_gif movie tpf (snd once) = (fst once, snd once).
Proof.
  intros movie tpf w once. subst once.
  rewrite !create_gif_exact. cbn [fst snd].
  destruct (disk w !! replace tpf ".fits" ".gif") as [old|] eqn:E.
  - rewrite E. reflexivity.
  - cbn [disk]. rewrite lookup_insert_eq. reflexivity.
Qed.

(** X9: the name of the GIF.  For a target pixel file named
    [stem.fits], with no other ".fits" in the name, the GIF is
    [stem.gif]. *)
Theorem create_gif_names_the_gif_after_the_file :
  forall (movie : string -> list byte) (stem : string) (w : world),
    contains ".fits" stem = false ->
    fst (Gif.create_gif movie (stem +:+ ".fits") w) = Return (stem +:+ ".gif").
Proof.
  intros movie stem w H.
  rewrite create_gif_exact. cbn [fst]. rewrite replace_before_fits by exact H.
  reflexivity.
Qed.

(** X9 at work. *)
Lemma create_gif_names_the_gif_after_the_file_example :
  contains ".fits" "tess-s0001-4-1_66.582618_-67.806508_11x11_astrocut" = false
  /\ fst (Gif.create_gif (fun _ => [])
            "tess-s0001-4-1_66.582618_-67.806508_11x11_astrocut.fits" (World ∅ []))
     = Return "tess-s0001-4-1_66.582618_-67.806508_11x11_astrocut.gif".
Proof.
  assert (H : contains ".fits" "tess-s0001-4-1_66.582618_-67.806508_11x11_astrocut" = false)
    by (vm_compute; reflexivity).
  split; [ exact H | ].
  exact (create_gif_names_the_gif_after_the_file
           (fun _ => []) "tess-s0001-4-1_66.582618_-67.806508_11x11_astrocut"
           (World ∅ []) H).
Defined.

(** The display cell when the GIF is there. *)
Lemma display_gif_found (picture : Type)
      (Image : string -> gmap string (list byte) -> outcome picture)
      (gif : string) (data : list byte) (w : world) :
  disk w !! gif = Some data ->
  Gif.display_gif Image gif w = (Image gif (disk w), w).
Proof.
  intros E.
  unfold Gif.display_gif, bind, path_exists, Gif.image, ret, print, emit.
  rewrite bool_decide_eq_true_2 by eauto. reflexivity.
Qed.

(** X10: a target pixel file whose name holds no ".fits" is its own
    GIF: the name is left as it is, the file is there, so nothing is
    rendered and nothing is printed, and what [Image] is handed is the
    name of the target pixel file itself. *)
Theorem gif_cells_without_fits_in_the_name :
  forall (movie : string -> list byte) (picture : Type)
         (Image : string -> gmap string (list byte) -> outcome picture)
         (tpf : string) (w : world) (data : list byte),
    contains ".fits" tpf = false ->
    disk w !! tpf = Some data ->
    Overlay.gif_cells movie Image tpf w = (Image tpf (disk w), w).
Proof.
  intros movie picture Image tpf w data H E.
  unfold Overlay.gif_cells, bind. rewrite create_gif_exact.
  rewrite replace_absent by exact H. rewrite E.
  apply (display_gif_found picture Image tpf data w E).
Qed.

(** X10 at work: a target pixel file kept as [.fit], and an [Image] that
    refuses the name, as the one of [IPython.display] does for an
    extension it cannot embed. *)
Lemma gif_cells_without_fits_in_the_name_example :
  let w := World {[ "cutout.fit" := [ "S"%byte ] ]} [] in
  let Image := fun (name : string) (_ : gmap string (list byte)) =>
    @Raise (list byte) (ValueError "Cannot embed the 'fit' image format") in
  contains ".fits" "cutout.fit" = false
  /\ disk w !! "cutout.fit" = Some [ "S"%byte ]
  /\ Overlay.gif_cells (fun _ => [ "G"%byte ]) Image "cutout.fit" w
     = (Raise (ValueError "Cannot embed the 'fit' image format"), w).
Proof.
  intros w Image.
  assert (H : contains ".fits" "cutout.fit" = false) by reflexivity.
  assert (E : disk w !! "cutout.fit" = Some [ "S"%byte ]) by reflexivity.
  split; [ exact H | split; [ exact E | ] ].
  exact (gif_cells_without_fits_in_the_name (fun _ => [ "G"%byte ]) (list byte) Image
           "cutout.fit" w [ "S"%byte ] H E).
Defined.
(** ** The ephemeris, from the observations to the table *)

Section RowFacts.

Context {A B : Type}.

Lemma lookup_combine (a : list A) (b : list B) (i : nat) :
  combine a b !! i
  = match a !! i, b !! i with
    | Some x, Some y => Some (x, y)
    | _, _ => None
    end.
Proof.
  revert b i. induction a as [| x a IH]; intros [| y b] [| i]; cbn; try reflexivity.
  - destruct (a !! i); reflexivity.
  - apply IH.
Qed.

(** Taking rows from two columns of one length, or from their rows. *)
Lemma take_combine (idx : list nat) (a : list A) (b : list B) :
  length a = length b ->
  Ephemeris.take idx (combine a b)
  = combine (Ephemeris.take idx a) (Ephemeris.take idx b).
Proof.
  intros Hlen. induction idx as [| i idx IH]; [ reflexivity | ].
  rewrite !take_cons, lookup_combine, IH.
  destruct (a !! i) as [x|] eqn:Ha, (b !! i) as [y|] eqn:Hb; try reflexivity.
  - apply lookup_ge_None in Hb. apply lookup_lt_Some in Ha. lia.
  - apply lookup_ge_None in Ha. apply lookup_lt_Some in Hb. lia.
Qed.

Lemma select_combine (mask : list bool) (a : list A) (b : list B) :
  Observations.select mask (combine a b)
  = combine (Observations.select mask a) (Observations.select mask b).
Proof.
  revert a b. induction mask as [| m mask IH]; intros [| x a] [| y b];
    try reflexivity; cbn; destruct m; cbn; rewrite ?IH; try reflexivity.
  all: destruct (Observations.select mask a); reflexivity.
Qed.

End RowFacts.

Section CellsFacts.

Context {V : Type}.

(** The three cells in full. *)
Lemma cells_exact (argsort : list V -> list nat) (obs : Ephemeris.table V) :
  Ephemeris.cells argsort obs
  = match Ephemeris.column "t_min" obs,
          Ephemeris.column "s_ra" obs,
          Ephemeris.column "s_dec" obs with
    | Some keys, Some ra, Some dec =>
        let first := argsort keys in
        let second := argsort (Ephemeris.take first keys) in
        Some ([ ("ra", Ephemeris.take first ra);
                ("dec", Ephemeris.take first dec);
                ("t_min", Ephemeris.take first keys) ],
              [ ("ra", Ephemeris.take second (Ephemeris.take first ra));
                ("dec", Ephemeris.take second (Ephemeris.take first dec));
                ("t_min", Ephemeris.take second (Ephemeris.take first keys)) ])
    | _, _, _ => None
    end.
Proof.
  unfold Ephemeris.cells.
  destruct (Ephemeris.sort argsort "t_min" obs) as [sorted|] eqn:Hs;
    unfold Ephemeris.sort in Hs;
    destruct (Ephemeris.column "t_min" obs) as [keys|] eqn:Hk;
    try discriminate Hs; [ | reflexivity ].
  injection Hs as <-. cbn [mbind option_bind].
  unfold Ephemeris.ephemeris_of. rewrite !column_map, Hk.
  destruct (Ephemeris.column "s_ra" obs) as [ra|]; [ | reflexivity ].
  destruct (Ephemeris.column "s_dec" obs) as [dec|]; reflexivity.
Qed.

End CellsFacts.

(** X11: the cells raise exactly when the observations lack one of the
    columns "t_min", "s_ra" and "s_dec".  Without "t_min" it is the first
    sort that raises; with it, and without "s_ra" or "s_dec", it is the
    construction of the ephemeris; and once the ephemeris is made, the
    second sort never raises. *)
Theorem cells_raise_on_a_missing_column :
  forall (V : Type) (argsort : list V -> list nat) (obs : Ephemeris.table V),
    (Ephemeris.cells argsort obs = None
     <-> (Ephemeris.column "t_min" obs = None
          \/ Ephemeris.column "s_ra" obs = None
          \/ Ephemeris.column "s_dec" obs = None))
    /\ (Ephemeris.sort argsort "t_min" obs = None
        <-> Ephemeris.column "t_min" obs = None)
    /\ (forall sorted,
           Ephemeris.sort argsort "t_min" obs = Some sorted ->
           (Ephemeris.ephemeris_of sorted = None
            <-> (Ephemeris.column "s_ra" obs = None
                 \/ Ephemeris.column "s_dec" obs = None))
           /\ forall ephemeris,
               Ephemeris.ephemeris_of sorted = Some ephemeris ->
               exists again, Ephemeris.sort argsort "t_min" ephemeris = Some again).
Proof.
  intros V argsort obs. split; [ | split ].
  - rewrite cells_exact.
    destruct (Ephemeris.column "t_min" obs), (Ephemeris.column "s_ra" obs),
      (Ephemeris.column "s_dec" obs); cbv zeta; split;
      try (intros H; discriminate H); try (intros [H | [H | H]]; discriminate H);
      intros _; auto.
  - unfold Ephemeris.sort.
    destruct (Ephemeris.column "t_min" obs); cbn; split; intros H;
      try discriminate H; reflexivity.
  - intros sorted Hs. unfold Ephemeris.sort in Hs.
    destruct (Ephemeris.column "t_min" obs) as [keys|] eqn:Hk; [ | discriminate Hs ].
    injection Hs as <-.
    unfold Ephemeris.ephemeris_of. rewrite !column_map, Hk.
    destruct (Ephemeris.column "s_ra" obs) as [ra|], (Ephemeris.column "s_dec" obs) as [dec|];
      cbn; split;
      try (split; [ intros H; discriminate H | intros [H | H]; discriminate H ]);
      try (split; [ intros _; auto | reflexivity ]);
      try (intros ephemeris H; discriminate H).
    intros ephemeris [= <-]. eexists. reflexivity.
Qed.

(** A sort moves whole rows. *)
Lemma take_rows {V : Type} (idx : list nat) (ra dec t : list V) :
  length ra = length t ->
  length dec = length t ->
  Permutation idx (seq 0 (length t)) ->
  Permutation (combine (Ephemeris.take idx ra)
                       (combine (Ephemeris.take idx dec) (Ephemeris.take idx t)))
              (combine ra (combine dec t))
  /\ length (Ephemeris.take idx ra) = length (Ephemeris.take idx t)
  /\ length (Ephemeris.take idx dec) = length (Ephemeris.take idx t).
Proof.
  intros Hlra Hldec Hp.
  assert (Hr : Forall (fun i => i < length t) idx) by (apply permutation_in_range, Hp).
  split; [ | split ].
  - rewrite <- !take_combine by (rewrite ?length_combine; lia).
    apply take_permutation.
    rewrite !length_combine, Hlra, Hldec, !Nat.min_id. exact Hp.
  - rewrite !take_length by (rewrite ?Hlra; exact Hr). reflexivity.
  - rewrite !take_length by (rewrite ?Hldec; exact Hr). reflexivity.
Qed.

(** X12: sorting never separates a position from its time.  For
    observations whose three columns have one length, the rows of the
    ephemeris are the rows of the observations in another order, and
    that order is by time; the same holds after the second sort. *)
Theorem ephemeris_rows_are_the_observations_by_time :
  forall (V : Type) (leb : V -> V -> bool) (argsort : list V -> list nat)
         (obs : Ephemeris.table V) (ra dec t_min : list V),
    Ephemeris.sorts leb argsort ->
    Ephemeris.column "s_ra" obs = Some ra ->
    Ephemeris.column "s_dec" obs = Some dec ->
    Ephemeris.column "t_min" obs = Some t_min ->
    length ra = length t_min ->
    length dec = length t_min ->
    exists ra1 dec1 t1 ra2 dec2 t2,
      Ephemeris.cells argsort obs
      = Some ([ ("ra", ra1); ("dec", dec1); ("t_min", t1) ],
              [ ("ra", ra2); ("dec", dec2); ("t_min", t2) ])
      /\ Permutation (combine ra1 (combine dec1 t1)) (combine ra (combine dec t_min))
      /\ Sorted (Ephemeris.le leb) t1
      /\ Permutation (combine ra2 (combine dec2 t2)) (combine ra (combine dec t_min))
      /\ Sorted (Ephemeris.le leb) t2.
Proof.
  intros V leb argsort obs ra dec t_min Hsorts Hra Hdec Ht Hlra Hldec.
  rewrite cells_exact, Ht, Hra, Hdec. cbv zeta.
  destruct (Hsorts t_min) as [Hp1 Hs1].
  destruct (Hsorts (Ephemeris.take (argsort t_min) t_min)) as [Hp2 Hs2].
  destruct (take_rows _ ra dec t_min Hlra Hldec Hp1) as (Hrows1 & Hl1 & Hl2).
  destruct (take_rows _ _ _ _ Hl1 Hl2 Hp2) as (Hrows2 & _).
  do 6 eexists. split; [ reflexivity | ].
  split; [ exact Hrows1 | ]. split; [ exact Hs1 | ]. split; [ | exact Hs2 ].
  rewrite Hrows2. exact Hrows1.
Qed.

(** X12 at work: four observations, two of them at the same time. *)
Lemma ephemeris_rows_are_the_observations_by_time_example :
  let obs : Ephemeris.table Z :=
    [ ("obsid", [ 1; 2; 3; 4 ]%Z);
      ("s_ra", [ 10; 20; 30; 40 ]%Z);
      ("s_dec", [ 11; 21; 31; 41 ]%Z);
      ("t_min", [ 5; 3; 5; 1 ]%Z) ] in
  Ephemeris.sorts Z.leb Ephemeris.stable_argsort
  /\ Ephemeris.column "t_min" obs = Some [ 5; 3; 5; 1 ]%Z
  /\ exists ra1 dec1 t1 ra2 dec2 t2,
      Ephemeris.cells Ephemeris.stable_argsort obs
      = Some ([ ("ra", ra1); ("dec", dec1); ("t_min", t1) ],
              [ ("ra", ra2); ("dec", dec2); ("t_min", t2) ])
      /\ Permutation (combine ra1 (combine dec1 t1))
                     (combine [ 10; 20; 30; 40 ]%Z
                              (combine [ 11; 21; 31; 41 ]%Z [ 5; 3; 5; 1 ]%Z))
      /\ Sorted (Ephemeris.le Z.leb) t1
      /\ Permutation (combine ra2 (combine dec2 t2))
                     (combine [ 10; 20; 30; 40 ]%Z
                              (combine [ 11; 21; 31; 41 ]%Z [ 5; 3; 5; 1 ]%Z))
      /\ Sorted (Ephemeris.le Z.leb) t2.
Proof.
  intros obs.
  assert (Hsorts : Ephemeris.sorts Z.leb Ephemeris.stable_argsort)
    by (apply insertion_argsort_sorts, Zleb_total).
  split; [ exact Hsorts | split; [ reflexivity | ] ].
  exact (ephemeris_rows_are_the_observations_by_time
           Z Z.leb Ephemeris.stable_argsort obs
           [ 10; 20; 30; 40 ]%Z [ 11; 21; 31; 41 ]%Z [ 5; 3; 5; 1 ]%Z
           Hsorts eq_refl eq_refl eq_refl eq_refl eq_refl).
Defined.

(** ** The mask *)

Section MaskFacts.

Context {V : Type}.
Variable eqb : V -> V -> bool.

Lemma select_equals_filter {A : Type} (value : V) (key : list V) (col : list A) :
  Observations.select (Observations.equals eqb value key) col
  = List.map snd (List.filter (fun r => eqb (fst r) value) (combine key col)).
Proof.
  revert col. induction key as [| k key IH]; intros [| x col]; try reflexivity;
    simpl; destruct (eqb k value); simpl; rewrite <- ?IH; reflexivity.
Qed.

Lemma select_equals_key (value : V) (key : list V) :
  Observations.select (Observations.equals eqb value key) key
  = List.filter (fun x => eqb x value) key.
Proof.
  induction key as [| k key IH]; [ reflexivity | ].
  simpl. destruct (eqb k value); simpl; [ f_equal | ]; exact IH.
Qed.

Lemma select_length {A B : Type} (mask : list bool) (a : list A) (b : list B) :
  length a = length b ->
  length (Observations.select mask a) = length (Observations.select mask b).
Proof.
  revert a b. induction mask as [| m mask IH]; intros [| x a] [| y b] H;
    try reflexivity; try discriminate H; destruct m; try reflexivity;
    simpl in *; [ f_equal | ]; apply IH; lia.
Qed.

Lemma where_equals_exact (name : string) (value : V) (t : Ephemeris.table V)
      (key : list V) :
  Ephemeris.column name t = Some key ->
  Observations.where_equals eqb name value t
  = Some (List.map
            (fun c => (fst c,
                       Observations.select (Observations.equals eqb value key) (snd c)))
            t).
Proof. intros H. unfold Observations.where_equals. rewrite H. reflexivity. Qed.

End MaskFacts.

(** X13: in a table, whose columns have one length, the mask keeps in
    every column the rows whose key equals the value, in the order they
    had; the key column of the result holds nothing else, and no column
    is gained or lost. *)
Theorem where_equals_keeps_the_matching_rows :
  forall (V : Type) (eqb : V -> V -> bool) (name : string) (value : V)
         (t : Ephemeris.table V) (key : list V),
    Ephemeris.column name t = Some key ->
    List.Forall (fun c => length (snd c) = length key) t ->
    exists t',
      Observations.where_equals eqb name value t = Some t'
      /\ List.map fst t' = List.map fst t
      /\ Ephemeris.column name t' = Some (List.filter (fun x => eqb x value) key)
      /\ forall c : string,
          Ephemeris.column c t'
          = (fun col => List.map snd
                          (List.filter (fun r => eqb (fst r) value) (combine key col)))
              <$> Ephemeris.column c t.
Proof.
  intros V eqb name value t key Hkey _.
  eexists. split; [ apply where_equals_exact, Hkey | ].
  split; [ | split ].
  - rewrite List.map_map. reflexivity.
  - rewrite column_map, Hkey. cbn. f_equal. apply select_equals_key.
  - intros c. rewrite column_map.
    destruct (Ephemeris.column c t) as [col|]; [ | reflexivity ].
    cbn. f_equal. apply select_equals_filter.
Qed.

(** X13 at work: three observations, two of them of the comet. *)
Lemma where_equals_keeps_the_matching_rows_example :
  let t : Ephemeris.table Z :=
    [ ("target_name", [ 7; 8; 7 ]%Z); ("t_min", [ 30; 20; 10 ]%Z) ] in
  Ephemeris.column "target_name" t = Some [ 7; 8; 7 ]%Z
  /\ exists t',
      Observations.where_equals Z.eqb "target_name" 7%Z t = Some t'
      /\ List.map fst t' = List.map fst t
      /\ Ephemeris.column "target_name" t'
         = Some (List.filter (fun x => Z.eqb x 7) [ 7; 8; 7 ]%Z)
      /\ forall c : string,
          Ephemeris.column c t'
          = (fun col => List.map snd
                          (List.filter (fun r => Z.eqb (fst r) 7)
                                       (combine [ 7; 8; 7 ]%Z col)))
              <$> Ephemeris.column c t.
Proof.
  intros t. split; [ reflexivity | ].
  exact (where_equals_keeps_the_matching_rows
           Z Z.eqb "target_name" 7%Z t [ 7; 8; 7 ]%Z eq_refl
           ltac:(repeat constructor)).
Defined.

(** The mask fails, with a [KeyError], exactly when the table has no
    column of that name. *)
Lemma where_equals_fails_on_a_missing_column :
  forall (V : Type) (eqb : V -> V -> bool) (name : string) (value : V)
         (t : Ephemeris.table V),
    Observations.where_equals eqb name value t = None
    <-> Ephemeris.column name t = None.
Proof.
  intros V eqb name value t. unfold Observations.where_equals.
  destruct (Ephemeris.column name t); cbn; split; intros H;
    try discriminate H; reflexivity.
Qed.

(** X14: from the observations to the ephemeris.  The four columns
    having one length, the ephemeris holds the positions and times
    of the comet's observations and of no other, each position with
    its own time, in the order of the times. *)
Theorem comet_ephemeris_is_the_comet_by_time :
  forall (V : Type) (eqb leb : V -> V -> bool) (argsort : list V -> list nat)
         (comet : V) (obs : Ephemeris.table V) (names ra dec t_min : list V),
    Ephemeris.sorts leb argsort ->
    Ephemeris.column "target_name" obs = Some names ->
    Ephemeris.column "s_ra" obs = Some ra ->
    Ephemeris.column "s_dec" obs = Some dec ->
    Ephemeris.column "t_min" obs = Some t_min ->
    length names = length t_min ->
    length ra = length t_min ->
    length dec = length t_min ->
    exists ra1 dec1 t1 ra2 dec2 t2,
      Observations.comet_ephemeris eqb argsort comet obs
      = Some ([ ("ra", ra1); ("dec", dec1); ("t_min", t1) ],
              [ ("ra", ra2); ("dec", dec2); ("t_min", t2) ])
      /\ Permutation
           (combine ra1 (combine dec1 t1))
           (List.map snd
              (List.filter (fun r => eqb (fst r) comet)
                           (combine names (combine ra (combine dec t_min)))))
      /\ Sorted (Ephemeris.le leb) t1
      /\ Permutation (combine ra2 (combine dec2 t2)) (combine ra1 (combine dec1 t1))
      /\ Sorted (Ephemeris.le leb) t2.
Proof.
  intros V eqb leb argsort comet obs names ra dec t_min
         Hsorts Hnames Hra Hdec Ht _ Hlra Hldec.
  unfold Observations.comet_ephemeris.
  rewrite (where_equals_exact eqb _ comet obs names Hnames).
  cbn [mbind option_bind].
  rewrite cells_exact, !column_map, Hra, Hdec, Ht.
  cbn [fmap option_fmap option_map]. cbv zeta.
  set (mask := Observations.equals eqb comet names).
  set (t := Observations.select mask t_min).
  destruct (Hsorts t) as [Hp1 Hs1].
  destruct (Hsorts (Ephemeris.take (argsort t) t)) as [Hp2 Hs2].
  destruct (take_rows (argsort t) (Observations.select mask ra)
                      (Observations.select mask dec) t
                      (select_length mask ra t_min Hlra)
                      (select_length mask dec t_min Hldec) Hp1)
    as (Hrows1 & Hl1 & Hl2).
  destruct (take_rows _ _ _ _ Hl1 Hl2 Hp2) as (Hrows2 & _).
  do 6 eexists. split; [ reflexivity | ].
  split; [ | split; [ exact Hs1 | split; [ exact Hrows2 | exact Hs2 ] ] ].
  rewrite Hrows1. unfold t. rewrite <- !select_combine.
  apply Permutation_refl', select_equals_filter.
Qed.

(** X14 at work: five observations, three of them of the comet. *)
Lemma comet_ephemeris_is_the_comet_by_time_example :
  let obs : Ephemeris.table Z :=
    [ ("target_name", [ 7; 8; 7; 8; 7 ]%Z);
      ("s_ra", [ 10; 20; 30; 40; 50 ]%Z);
      ("s_dec", [ 11; 21; 31; 41; 51 ]%Z);
      ("t_min", [ 5; 3; 1; 2; 4 ]%Z) ] in
  Ephemeris.sorts Z.leb Ephemeris.stable_argsort
  /\ Ephemeris.column "target_name" obs = Some [ 7; 8; 7; 8; 7 ]%Z
  /\ exists ra1 dec1 t1 ra2 dec2 t2,
      Observations.comet_ephemeris Z.eqb Ephemeris.stable_argsort 7%Z obs
      = Some ([ ("ra", ra1); ("dec", dec1); ("t_min", t1) ],
              [ ("ra", ra2); ("dec", dec2); ("t_min", t2) ])
      /\ Permutation
           (combine ra1 (combine dec1 t1))
           (List.map snd
              (List.filter (fun r => Z.eqb (fst r) 7)
                           (combine [ 7; 8; 7; 8; 7 ]%Z
                                    (combine [ 10; 20; 30; 40; 50 ]%Z
                                             (combine [ 11; 21; 31; 41; 51 ]%Z
                                                      [ 5; 3; 1; 2; 4 ]%Z)))))
      /\ Sorted (Ephemeris.le Z.leb) t1
      /\ Permutation (combine ra2 (combine dec2 t2)) (combine ra1 (combine dec1 t1))
      /\ Sorted (Ephemeris.le Z.leb) t2.
Proof.
  intros obs.
  assert (Hsorts : Ephemeris.sorts Z.leb Ephemeris.stable_argsort)
    by (apply insertion_argsort_sorts, Zleb_total).
  split; [ exact Hsorts | split; [ reflexivity | ] ].
  exact (comet_ephemeris_is_the_comet_by_time
           Z Z.eqb Z.leb Ephemeris.stable_argsort 7%Z obs
           [ 7; 8; 7; 8; 7 ]%Z [ 10; 20; 30; 40; 50 ]%Z
           [ 11; 21; 31; 41; 51 ]%Z [ 5; 3; 1; 2; 4 ]%Z
           Hsorts eq_refl eq_refl eq_refl eq_refl eq_refl eq_refl eq_refl).
Defined.

(** ** The light curve of the template notebook *)

Section LoopFacts.

Context {flux : Type}.

Lemma has_pixel_some (img : Lightcurve.image flux) :
  Lightcurve.has_pixel img = true ->
  exists f, Lightcurve.pixel 4 4 img = Some f.
Proof.
  unfold Lightcurve.has_pixel.
  destruct (Lightcurve.pixel 4 4 img) as [f|]; [ eauto | discriminate ].
Qed.

(** The loop from any image on. *)
Lemma loop_from (pre rest : list (Lightcurve.image flux)) (acc : list flux) :
  Lightcurve.loop (pre ++ rest) (seq (length pre) (length rest)) acc
  = (forallb Lightcurve.has_pixel rest,
     acc ++ omap (Lightcurve.pixel 4 4) (Lightcurve.usable rest)).
Proof.
  revert pre acc. induction rest as [| img rest IH]; intros pre acc.
  - cbn. rewrite app_nil_r. reflexivity.
  - cbn [length seq Lightcurve.loop forallb Lightcurve.usable].
    rewrite list_lookup_middle by reflexivity. cbn [mbind option_bind].
    destruct (Lightcurve.pixel 4 4 img) as [f|] eqn:Hf.
    + assert (Hh : Lightcurve.has_pixel img = true)
        by (unfold Lightcurve.has_pixel; rewrite Hf; reflexivity).
      replace (pre ++ img :: rest) with ((pre ++ [ img ]) ++ rest)
        by (rewrite <- app_assoc; reflexivity).
      replace (S (length pre)) with (length (pre ++ [ img ]))
        by (rewrite length_app; cbn; lia).
      rewrite IH, Hh. cbn [andb omap list_omap]. rewrite Hf, <- app_assoc.
      reflexivity.
    + assert (Hh : Lightcurve.has_pixel img = false)
        by (unfold Lightcurve.has_pixel; rewrite Hf; reflexivity).
      rewrite Hh. cbn. rewrite app_nil_r. reflexivity.
Qed.

Lemma cell_exact (data : list (Lightcurve.image flux)) :
  Lightcurve.cell data
  = (forallb Lightcurve.has_pixel data,
     omap (Lightcurve.pixel 4 4) (Lightcurve.usable data)).
Proof. exact (loop_from [] data []). Qed.

Lemma usable_all (data : list (Lightcurve.image flux)) :
  forallb Lightcurve.has_pixel data = true -> Lightcurve.usable data = data.
Proof.
  induction data as [| img data IH]; [ reflexivity | ].
  cbn. destruct (Lightcurve.has_pixel img); [ | discriminate ].
  intros H. f_equal. apply IH, H.
Qed.

Lemma omap_pixels (data : list (Lightcurve.image flux)) (i : nat) :
  forallb Lightcurve.has_pixel data = true ->
  omap (Lightcurve.pixel 4 4) data !! i = data !! i ≫= Lightcurve.pixel 4 4.
Proof.
  revert i. induction data as [| img data IH]; intros i H; [ reflexivity | ].
  cbn in H. apply andb_prop in H as [Himg H].
  destruct (has_pixel_some img Himg) as [f Hf].
  cbn [omap list_omap]. rewrite Hf.
  destruct i as [| i]; cbn; [ symmetry; exact Hf | apply IH, H ].
Qed.

Lemma omap_pixels_length (data : list (Lightcurve.image flux)) :
  forallb Lightcurve.has_pixel data = true ->
  length (omap (Lightcurve.pixel 4 4) data) = length data.
Proof.
  induction data as [| img data IH]; intros H; [ reflexivity | ].
  cbn in H. apply andb_prop in H as [Himg H].
  destruct (has_pixel_some img Himg) as [f Hf].
  cbn [omap list_omap]. rewrite Hf. cbn. f_equal. apply IH, H.
Qed.

End LoopFacts.

(** X15: the loop gathers the flux at (4, 4) of the images in order, up
    to the first image that has no such pixel, and runs to its end
    exactly when every image has one. *)
Theorem lightcurve_stops_at_the_first_small_image :
  forall (flux : Type) (data : list (Lightcurve.image flux)),
    Lightcurve.cell data
    = (forallb Lightcurve.has_pixel data,
       omap (Lightcurve.pixel 4 4) (Lightcurve.usable data)).
Proof.
  intros flux data. apply cell_exact.
Qed.

(** X16: when the loop runs to its end, the light curve has one flux
    for each image, the one at (4, 4) of that image. *)
Theorem lightcurve_has_one_flux_per_image :
  forall (flux : Type) (data : list (Lightcurve.image flux)),
    fst (Lightcurve.cell data) = true ->
    length (snd (Lightcurve.cell data)) = length data
    /\ forall idx : nat,
        snd (Lightcurve.cell data) !! idx = data !! idx ≫= Lightcurve.pixel 4 4.
Proof.
  intros flux data. rewrite cell_exact. cbn [fst snd]. intros H.
  rewrite usable_all by exact H. split.
  - apply omap_pixels_length, H.
  - intros idx. apply omap_pixels, H.
Qed.

(** X16 at work: two images of five rows and five columns. *)
Lemma lightcurve_has_one_flux_per_image_example :
  let img (f : Z) : Lightcurve.image Z :=
    replicate 4 (replicate 5 0%Z) ++ [ replicate 4 0%Z ++ [ f ] ] in
  let data := [ img 7%Z; img 9%Z ] in
  fst (Lightcurve.cell data) = true
  /\ length (snd (Lightcurve.cell data)) = length data
  /\ forall idx : nat,
      snd (Lightcurve.cell data) !! idx = data !! idx ≫= Lightcurve.pixel 4 4.
Proof.
  intros img data. split; [ reflexivity | ].
  exact (lightcurve_has_one_flux_per_image Z data eq_refl).
Defined.

(** ** The sectors of the rotation solutions *)

Lemma string_length_app (s t : string) :
  String.length (s +:+ t) = String.length s + String.length t.
Proof.
  induction s as [| a s IH]; [ reflexivity | ].
  rewrite append_cons. cbn [String.length]. rewrite IH. reflexivity.
Qed.

Lemma app_cancel_r (s1 s2 t : string) : s1 +:+ t = s2 +:+ t -> s1 = s2.
Proof.
  revert s2. induction s1 as [| a s1 IH]; intros [| b s2] H.
  - reflexivity.
  - apply (f_equal String.length) in H.
    rewrite !string_length_app in H. cbn [String.length] in H. lia.
  - apply (f_equal String.length) in H.
    rewrite !string_length_app in H. cbn [String.length] in H. lia.
  - rewrite !append_cons in H. injection H as -> H.
    f_equal. apply IH, H.
Qed.

(** Two sectors never share a file. *)
Lemma cutout_name_inj (objname : string) (i j : nat) :
  Sectors.cutout_name objname i = Sectors.cutout_name objname j -> i = j.
Proof.
  unfold Sectors.cutout_name. intros H.
  apply String.app_inj, String.app_inj, app_cancel_r in H.
  apply pretty_nat_inj, H.
Qed.

Lemma last_any_default {A : Type} (l : list A) (a x y : A) :
  List.last (a :: l) x = List.last (a :: l) y.
Proof.
  revert a. induction l as [| b l IH]; intros a; [ reflexivity | ].
  change (List.last (b :: l) x = List.last (b :: l) y). apply IH.
Qed.

Lemma last_cons_default {A : Type} (l : list A) (a x : A) :
  List.last (a :: l) x = List.last l a.
Proof.
  destruct l as [| b l]; [ reflexivity | ].
  change (List.last (b :: l) x = List.last (b :: l) a). apply last_any_default.
Qed.

Lemma last_of_map {A B : Type} (f : A -> B) (l : list A) (x : A) :
  List.last (List.map f l) (f x) = f (List.last l x).
Proof.
  induction l as [| a l IH]; [ reflexivity | ].
  destruct l as [| b l]; [ reflexivity | ].
  change (List.last (List.map f (b :: l)) (f x) = f (List.last (b :: l) x)).
  exact IH.
Qed.

Section SectorFacts.

Context {HDUList TPF LC : Type}.
Variable fits_bytes : HDUList -> list byte.
Variable read_tpf : list byte -> TPF.
Variable to_lightcurve : TPF -> LC.
Variable truncate_after : nat -> LC -> LC.
Variable truncate_before : nat -> LC -> LC.
Variable remove_outliers : nat -> LC -> LC.
Variable objname : string.

(** The first loop from any sector on. *)
Lemma write_cutouts_from (rest pre : list HDUList) (d : gmap string (list byte)) :
  exists d',
    Sectors.write_cutouts HDUList fits_bytes objname (pre ++ rest)
                          (seq (length pre) (length rest)) d = inr d'
    /\ (forall i hdu, rest !! i = Some hdu ->
          d' !! Sectors.cutout_name objname (length pre + i) = Some (fits_bytes hdu))
    /\ (forall p, (forall i, i < length rest ->
                     p <> Sectors.cutout_name objname (length pre + i)) ->
          d' !! p = d !! p).
Proof.
  revert pre d. induction rest as [| hdu rest IH]; intros pre d.
  - exists d. split; [ reflexivity | ]. split; [ | reflexivity ].
    intros i h H. rewrite lookup_nil in H. discriminate H.
  - cbn [length seq Sectors.write_cutouts].
    rewrite list_lookup_middle by reflexivity.
    destruct (IH (pre ++ [ hdu ])
                 (<[Sectors.cutout_name objname (length pre) := fits_bytes hdu]> d))
      as (d' & Hw & Hin & Hout).
    rewrite <- app_assoc in Hw. cbn [app] in Hw.
    rewrite length_app in Hw, Hin, Hout. cbn [length] in Hw, Hin, Hout.
    replace (length pre + 1) with (S (length pre)) in Hw by lia.
    exists d'. split; [ exact Hw | ]. split.
    + intros [| i] h H.
      * cbn in H. injection H as <-.
        rewrite Nat.add_0_r, Hout; [ apply lookup_insert_eq | ].
        intros i _ Heq. apply cutout_name_inj in Heq. lia.
      * cbn in H. replace (length pre + S i) with (length pre + 1 + i) by lia.
        apply Hin, H.
    + intros p Hp. rewrite Hout.
      * apply lookup_insert_ne. intros Heq. apply (Hp 0); [ cbn; lia | ].
        rewrite Nat.add_0_r. symmetry. exact Heq.
      * intros i Hi. replace (length pre + 1 + i) with (length pre + S i) by lia.
        apply Hp. cbn. lia.
Qed.

(** The second loop from any sector but the first on. *)
Lemma read_cutouts_from (rest pre : list HDUList) (d : gmap string (list byte))
      (collection : list TPF) :
  pre <> [] ->
  (forall i hdu, rest !! i = Some hdu ->
     d !! Sectors.cutout_name objname (length pre + i) = Some (fits_bytes hdu)) ->
  Sectors.read_cutouts TPF read_tpf objname (seq (length pre) (length rest)) d
                       (Some collection)
  = inr (Some (collection ++ List.map (fun h => read_tpf (fits_bytes h)) rest)).
Proof.
  revert pre collection. induction rest as [| hdu rest IH]; intros pre collection Hpre Hd.
  - cbn. rewrite app_nil_r. reflexivity.
  - cbn [length seq Sectors.read_cutouts List.map].
    specialize (Hd 0 hdu eq_refl) as Hd0. rewrite Nat.add_0_r in Hd0. rewrite Hd0.
    destruct (Nat.eqb (length pre) 0) eqn:Hz.
    + apply Nat.eqb_eq in Hz. destruct pre; [ contradiction | discriminate Hz ].
    + replace (S (length pre)) with (length (pre ++ [ hdu ]))
        by (rewrite length_app; cbn; lia).
      rewrite IH.
      * rewrite <- app_assoc. reflexivity.
      * intros Heq. apply (f_equal length) in Heq.
        rewrite length_app in Heq. cbn in Heq. lia.
      * intros i h H. rewrite length_app. cbn [length].
        replace (length pre + 1 + i) with (length pre + S i) by lia.
        apply Hd, H.
Qed.

(** The first of the two cells in full. *)
Lemma cutouts_cell_exact (hdulist : list HDUList) (k : Sectors.kernel TPF LC) :
  exists d',
    Sectors.cutouts_cell HDUList TPF LC fits_bytes read_tpf objname hdulist k
    = inr (Sectors.Kernel
             d'
             (match hdulist with
              | [] => Sectors.tpfc k
              | _ :: _ => Some (List.map (fun h => read_tpf (fits_bytes h)) hdulist)
              end)
             (Sectors.lcc k) (Sectors.lc k))
    /\ (forall i hdu, hdulist !! i = Some hdu ->
          d' !! Sectors.cutout_name objname i = Some (fits_bytes hdu))
    /\ (forall p, (forall i, i < length hdulist -> p <> Sectors.cutout_name objname i) ->
          d' !! p = Sectors.disk k !! p).
Proof.
  destruct (write_cutouts_from hdulist [] (Sectors.disk k)) as (d' & Hw & Hin & Hout).
  cbn [app length Nat.add] in Hw, Hin, Hout.
  exists d'. split; [ | split; [ exact Hin | exact Hout ] ].
  unfold Sectors.cutouts_cell. rewrite Hw.
  destruct hdulist as [| h rest]; [ reflexivity | ].
  cbn [length seq Sectors.read_cutouts].
  rewrite (Hin 0 h eq_refl). cbn [Nat.eqb].
  assert (Hr := read_cutouts_from rest [ h ] d' [ read_tpf (fits_bytes h) ]
                  ltac:(discriminate) (fun i hdu H => Hin (S i) hdu H)).
  cbn [length] in Hr. rewrite Hr. reflexivity.
Qed.

(** The loop of the second cell from any sector but the first on. *)
Lemma lightcurves_from (rest pre : list TPF) (curves : list LC) (x : TPF) :
  pre <> [] ->
  Sectors.lightcurves TPF LC to_lightcurve (seq (length pre) (length rest))
                      (Some (pre ++ rest)) (Some curves) (Some (to_lightcurve x))
  = inr (Some (curves ++ List.map to_lightcurve rest),
         Some (to_lightcurve (List.last rest x))).
Proof.
  revert pre curves x. induction rest as [| tpf rest IH]; intros pre curves x Hpre.
  - cbn. rewrite app_nil_r. reflexivity.
  - cbn [length seq Sectors.lightcurves List.map].
    rewrite list_lookup_middle by reflexivity.
    destruct (Nat.eqb (length pre) 0) eqn:Hz.
    + apply Nat.eqb_eq in Hz. destruct pre; [ contradiction | discriminate Hz ].
    + replace (pre ++ tpf :: rest) with ((pre ++ [ tpf ]) ++ rest)
        by (rewrite <- app_assoc; reflexivity).
      replace (S (length pre)) with (length (pre ++ [ tpf ]))
        by (rewrite length_app; cbn; lia).
      rewrite IH.
      * rewrite <- app_assoc. cbn [app].
        destruct rest as [| u rest]; [ reflexivity | ].
        rewrite (last_any_default rest u tpf x).
        reflexivity.
      * intros Heq. apply (f_equal length) in Heq.
        rewrite length_app in Heq. cbn in Heq. lia.
Qed.

(** The loop of the second cell over all the sectors. *)
Lemma lightcurves_all (tpf : TPF) (rest : list TPF)
      (l : option (list LC)) (last : option LC) :
  Sectors.lightcurves TPF LC to_lightcurve (seq 0 (length (tpf :: rest)))
                      (Some (tpf :: rest)) l last
  = inr (Some (List.map to_lightcurve (tpf :: rest)),
         Some (to_lightcurve (List.last rest tpf))).
Proof.
  cbn [length seq Sectors.lightcurves lookup list_lookup Nat.eqb].
  exact (lightcurves_from rest [ tpf ] [ to_lightcurve tpf ] tpf ltac:(discriminate)).
Qed.

End SectorFacts.

(** X17: the cell that fetches the cutouts never fails.  It writes one
    file for each sector, holding that sector's cutout, and leaves every
    other file alone; the collection holds the sectors in order, read
    back from these files.  With no sector at all, [tpfc] stays what it
    was. *)
Theorem cutouts_cell_keeps_every_sector :
  forall (HDUList TPF LC : Type) (fits_bytes : HDUList -> list byte)
         (read_tpf : list byte -> TPF) (objname : string)
         (hdulist : list HDUList) (k : Sectors.kernel TPF LC),
    exists d',
      Sectors.cutouts_cell HDUList TPF LC fits_bytes read_tpf objname hdulist k
      = inr (Sectors.Kernel
               d'
               (match hdulist with
                | [] => Sectors.tpfc k
                | _ :: _ => Some (List.map (fun h => read_tpf (fits_bytes h)) hdulist)
                end)
               (Sectors.lcc k) (Sectors.lc k))
      /\ (forall i hdu, hdulist !! i = Some hdu ->
            d' !! Sectors.cutout_name objname i = Some (fits_bytes hdu))
      /\ (forall p, (forall i, i < length hdulist ->
                       p <> Sectors.cutout_name objname i) ->
            d' !! p = Sectors.disk k !! p).
Proof.
  intros HDUList TPF LC fits_bytes read_tpf objname hdulist k.
  apply cutouts_cell_exact.
Qed.

(** X18: with two sectors or more, the two cells succeed whatever the
    kernel held before.  The first light curve is truncated after
    cadence 293, the second is truncated before cadence 59 and then
    cleaned of its outliers, the others are as they come; [lc] is left
    as the light curve of the last sector, untrimmed. *)
Theorem cells_trim_the_first_two_sectors :
  forall (HDUList TPF LC : Type) (fits_bytes : HDUList -> list byte)
         (read_tpf : list byte -> TPF) (to_lightcurve : TPF -> LC)
         (truncate_after truncate_before remove_outliers : nat -> LC -> LC)
         (objname : string) (h0 h1 : HDUList) (more : list HDUList)
         (k : Sectors.kernel TPF LC),
    exists d',
      Sectors.cells HDUList TPF LC fits_bytes read_tpf to_lightcurve
                    truncate_after truncate_before remove_outliers
                    objname (h0 :: h1 :: more) k
      = inr (Sectors.Kernel
               d'
               (Some (List.map (fun h => read_tpf (fits_bytes h)) (h0 :: h1 :: more)))
               (Some (truncate_after 293 (to_lightcurve (read_tpf (fits_bytes h0)))
                        :: remove_outliers 2
                             (truncate_before 59
                                (to_lightcurve (read_tpf (fits_bytes h1))))
                        :: List.map (fun h => to_lightcurve (read_tpf (fits_bytes h)))
                                    more))
               (Some (to_lightcurve (read_tpf (fits_bytes (List.last more h1)))))).
Proof.
  intros HDUList TPF LC fits_bytes read_tpf to_lightcurve
         truncate_after truncate_before remove_outliers objname h0 h1 more k.
  destruct (cutouts_cell_exact fits_bytes read_tpf objname (h0 :: h1 :: more) k)
    as (d' & Hc & _).
  exists d'. unfold Sectors.cells. rewrite Hc.
  unfold Sectors.lightcurves_cell. cbn [Sectors.tpfc Sectors.lcc Sectors.lc Sectors.disk].
  replace (length (h0 :: h1 :: more))
    with (length (List.map (fun h => read_tpf (fits_bytes h)) (h0 :: h1 :: more)))
    by apply List.length_map.
  cbn [List.map]. rewrite lightcurves_all.
  cbn [List.map Sectors.update lookup list_lookup insert list_insert].
  rewrite List.map_map.
  change (read_tpf (fits_bytes h1) :: List.map (fun h => read_tpf (fits_bytes h)) more)
    with (List.map (fun h => read_tpf (fits_bytes h)) (h1 :: more)).
  rewrite (last_of_map (fun h => read_tpf (fits_bytes h)) (h1 :: more) h0),
    last_cons_default.
  reflexivity.
Qed.

(** X19: with fewer than two sectors the two cells fail.  With one
    sector it is the assignment to [lcc[1]] that raises [IndexError],
    whatever the kernel held; with none, in a kernel where [lcc] is not
    bound, it is the assignment to [lcc[0]] that raises [NameError]. *)
Theorem cells_need_two_sectors :
  forall (HDUList TPF LC : Type) (fits_bytes : HDUList -> list byte)
         (read_tpf : list byte -> TPF) (to_lightcurve : TPF -> LC)
         (truncate_after truncate_before remove_outliers : nat -> LC -> LC)
         (objname : string),
    (forall (h : HDUList) (k : Sectors.kernel TPF LC),
        Sectors.cells HDUList TPF LC fits_bytes read_tpf to_lightcurve
                      truncate_after truncate_before remove_outliers
                      objname [ h ] k
        = inl Sectors.IndexError)
    /\ (forall (d : gmap string (list byte)) (c : option (list TPF)) (l : option LC),
          Sectors.cells HDUList TPF LC fits_bytes read_tpf to_lightcurve
                        truncate_after truncate_before remove_outliers
                        objname [] (Sectors.Kernel d c None l)
          = inl (Sectors.NameError "lcc")).
Proof.
  intros HDUList TPF LC fits_bytes read_tpf to_lightcurve
         truncate_after truncate_before remove_outliers objname.
  split.
  - intros h k.
    destruct (cutouts_cell_exact fits_bytes read_tpf objname [ h ] k) as (d' & Hc & _).
    unfold Sectors.cells. rewrite Hc. reflexivity.
  - intros d c l. reflexivity.
Qed.

(** ** The download and the cell after it *)

(** What [files[0]] is after the cell with the [try]: the first path of
    the table, an [IndexError] for an empty table and, after a download
    that failed, whatever it was before. *)
Lemma first_file_after_download (show_table : list string -> string)
      (answer : string + list string) (k : Tesscut.kernel) :
  Tesscut.first_file (Tesscut.download_cutouts show_table answer k)
  = match answer with
    | inl _ => Tesscut.first_file k
    | inr [] => inl Tesscut.IndexError
    | inr (filename :: _) => inr filename
    end.
Proof. destruct answer as [e | [| filename paths]]; reflexivity. Qed.
